(** * CONSCRAPER: the award aggregation and trend-classification engine

    A shallow embedding of [filter_20_percent_change] (CONSCRAPERFINAL.py and
    CONSCRAPERV2.py) and of the roll-ups [save_summary_csv] and
    [save_recipient_summary] (CONSCRAPERV2.py), together with the Python
    built-ins they call.

    Python's [float] is IEEE 754 binary64: it is modelled by Rocq's primitive
    [float], whose operations are the same binary64 operations.  Dictionaries
    keep their insertion order, as Python's do, and are association lists.
    Exceptions are values of type [exn]; state that was mutated before an
    exception was raised stays mutated. *)

From Stdlib Require Import ZArith List String Ascii Bool Lia Permutation.
From Stdlib Require Import Floats.
From Stdlib Require Import Sorted.
Import ListNotations.

Open Scope string_scope.
Open Scope list_scope.
Open Scope Z_scope.

Set Implicit Arguments.
Set Warnings "-register-all".

(* ================================================================== *)
(** * Python values, exceptions and built-ins *)
(* ================================================================== *)

Module Py.

(** The exceptions the modelled code can meet. *)
Inductive exn : Set :=
| KeyError | ValueError | TypeError | OverflowError | ZeroDivisionError
| AttributeError.

Inductive res (A : Type) : Type :=
| Ok (a : A)
| Raise (e : exn).
Arguments Ok {A} a.
Arguments Raise {A} e.

Definition bind {A B : Type} (r : res A) (k : A -> res B) : res B :=
  match r with
  | Ok a => k a
  | Raise e => Raise e
  end.

(** A value decoded from JSON, as [response.json()] returns them. *)
Inductive pyval : Type :=
| PNone
| PBool (b : bool)
| PInt (z : Z)
| PFloat (f : float)
| PStr (s : string)
| PList (l : list pyval)
| PDict (d : list (string * pyval)).

(** ** Text: a [string] is a sequence of code points below 256 *)

Definition ascii_code (c : ascii) : Z := Z.of_N (N_of_ascii c).

(** The white space that [int(s)] and [float(s)] strip, on the code points
    below 256. *)
Definition is_space (c : ascii) : bool :=
  let n := ascii_code c in
  ((9 <=? n) && (n <=? 13)) || (n =? 32) || (n =? 133) || (n =? 160).

Definition digit_of (c : ascii) : option Z :=
  let n := ascii_code c in
  if (48 <=? n) && (n <=? 57) then Some (n - 48) else None.

Fixpoint lstrip (s : list ascii) : list ascii :=
  match s with
  | c :: s' => if is_space c then lstrip s' else s
  | [] => []
  end.

Definition strip (s : list ascii) : list ascii :=
  rev (lstrip (rev (lstrip s))).

Definition split_sign (s : list ascii) : bool * list ascii :=
  match s with
  | "-"%char :: s' => (true, s')
  | "+"%char :: s' => (false, s')
  | _ => (false, s)
  end.

(** digitpart ::= digit (["_"] digit)*.  [digits_rest s v n] continues after a
    digit: [v] is the value read so far and [n] the number of digits. *)
Fixpoint digits_rest (s : list ascii) (v n : Z) : Z * Z * list ascii :=
  match s with
  | c :: s' =>
      match digit_of c with
      | Some d => digits_rest s' (10 * v + d) (n + 1)
      | None =>
          if Ascii.eqb c "_"%char then
            match s' with
            | c2 :: s'' =>
                match digit_of c2 with
                | Some d => digits_rest s'' (10 * v + d) (n + 1)
                | None => (v, n, s)
                end
            | [] => (v, n, s)
            end
          else (v, n, s)
      end
  | [] => (v, n, [])
  end.

Definition digitpart (s : list ascii) : option (Z * Z * list ascii) :=
  match s with
  | c :: s' =>
      match digit_of c with
      | Some d => Some (digits_rest s' d 1)
      | None => None
      end
  | [] => None
  end.

(** [int(s)] for a string [s], base 10. *)
Definition int_of_str (s : string) : option Z :=
  let '(neg, t) := split_sign (strip (list_ascii_of_string s)) in
  match digitpart t with
  | Some (v, _, []) => Some (if neg then - v else v)
  | _ => None
  end.

(** [str.lower] on the code points below 256. *)
Definition lower_char (c : ascii) : ascii :=
  let n := ascii_code c in
  if ((65 <=? n) && (n <=? 90))
     || ((192 <=? n) && (n <=? 222) && negb (n =? 215))
  then ascii_of_N (Z.to_N (n + 32)) else c.

Definition lower (s : string) : string :=
  string_of_list_ascii (map lower_char (list_ascii_of_string s)).

(** ** Floating point *)

(** The nearest binary64 to [(-1)^neg * M * 10^K] (ties to even), as the
    correctly rounded [strtod] behind [float(s)] computes it. *)
Definition float_of_dec (neg : bool) (M K : Z) : float :=
  match M with
  | Zpos m =>
      let num := Z.to_pos (Zpos m * 10 ^ Z.max K 0) in
      let den := Z.to_pos (10 ^ Z.max (- K) 0) in
      SF2Prim (SFdiv prec emax (S754_finite neg num 0) (S754_finite false den 0))
  | _ => if neg then neg_zero else zero
  end.

Definition opt_digitpart (s : list ascii) : Z * Z * list ascii :=
  match digitpart s with
  | Some r => r
  | None => (0, 0, s)
  end.

(** exponent ::= ("e" | "E") ["+" | "-"] digitpart; [None] when an exponent
    starts and is malformed. *)
Definition exponent (s : list ascii) : option (Z * list ascii) :=
  match s with
  | c :: s' =>
      if Ascii.eqb c "e"%char || Ascii.eqb c "E"%char then
        let '(neg, t) := split_sign s' in
        match digitpart t with
        | Some (v, _, rest) => Some (if neg then - v else v, rest)
        | None => None
        end
      else Some (0, s)
  | [] => Some (0, [])
  end.

(** [float(s)] for a string [s]. *)
Definition float_of_str (s : string) : option float :=
  let '(neg, t) := split_sign (strip (list_ascii_of_string s)) in
  let word := string_of_list_ascii (map lower_char t) in
  if String.eqb word "inf" || String.eqb word "infinity" then
    Some (if neg then neg_infinity else infinity)
  else if String.eqb word "nan" then Some nan
  else
    let '(iv, ni, t1) := opt_digitpart t in
    let '(fv, nf, t2) :=
      match t1 with
      | "."%char :: t1' => opt_digitpart t1'
      | _ => (0, 0, t1)
      end in
    if ni + nf =? 0 then None
    else
      match exponent t2 with
      | Some (ex, []) => Some (float_of_dec neg (iv * 10 ^ nf + fv) (ex - nf))
      | _ => None
      end.

(** [float(z)] for an int: correctly rounded, [OverflowError] beyond the
    binary64 range. *)
Definition float_of_int (z : Z) : res float :=
  let f := SF2Prim (binary_normalize prec emax z 0 false) in
  if is_infinity f then Raise OverflowError else Ok f.

(** [round(x, 2)]: [x] is rounded to two decimals on its exact value, ties to
    even, and the nearest binary64 to that decimal is returned; infinities,
    NaN and values that are already integers round to themselves. *)
Definition round2 (x : float) : float :=
  match Prim2SF x with
  | S754_finite s m e =>
      if 0 <=? e then x
      else
        let N := 100 * Zpos m in
        let sh := - e in
        let q := Z.shiftr N sh in
        let r := N - Z.shiftl q sh in
        let half := Z.shiftl 1 (sh - 1) in
        let n := if (half <? r) || ((half =? r) && Z.odd q) then q + 1 else q in
        match n with
        | Zpos p =>
            SF2Prim (SFdiv prec emax (S754_finite s p 0) (S754_finite false 100 0))
        | _ => if s then neg_zero else zero
        end
  | _ => x
  end.

(** [sum(xs)], started at the int [0], which is [+0.0] as a float: the
    floats are added from left to right (CPython before 3.12; later versions
    compensate the rounding errors of the partial sums). *)
Definition py_sum (xs : list float) : float :=
  fold_left PrimFloat.add xs zero.

(** [x / y] on floats raises [ZeroDivisionError] on a zero divisor. *)
Definition truediv (x y : float) : res float :=
  if PrimFloat.eqb y zero then Raise ZeroDivisionError
  else Ok (PrimFloat.div x y).

(** ** Operations on JSON values *)

Fixpoint assoc {V : Type} (k : string) (d : list (string * V)) : option V :=
  match d with
  | (k', v) :: d' => if String.eqb k' k then Some v else assoc k d'
  | [] => None
  end.

(** [o[k]] for a string key [k]. *)
Definition getitem (o : pyval) (k : string) : res pyval :=
  match o with
  | PDict d =>
      match assoc k d with
      | Some v => Ok v
      | None => Raise KeyError
      end
  | _ => Raise TypeError
  end.

(** [o.get(k, default)]; only a dict has the method. *)
Definition py_get (o : pyval) (k : string) (default : pyval) : res pyval :=
  match o with
  | PDict d =>
      match assoc k d with
      | Some v => Ok v
      | None => Ok default
      end
  | _ => Raise AttributeError
  end.

(** [v[:4]]. *)
Definition slice4 (v : pyval) : res pyval :=
  match v with
  | PStr s => Ok (PStr (substring 0 4 s))
  | PList l => Ok (PList (firstn 4 l))
  | _ => Raise TypeError
  end.

(** [int(x)] of a float: truncation towards zero. *)
Definition int_of_float (f : float) : res Z :=
  match Prim2SF f with
  | S754_zero _ => Ok 0
  | S754_finite s m e =>
      let a := if 0 <=? e then Z.shiftl (Zpos m) e else Z.shiftr (Zpos m) (- e) in
      Ok (if s then - a else a)
  | S754_infinity _ => Raise OverflowError
  | S754_nan => Raise ValueError
  end.

(** [int(v)]. *)
Definition py_int (v : pyval) : res Z :=
  match v with
  | PStr s =>
      match int_of_str s with
      | Some z => Ok z
      | None => Raise ValueError
      end
  | PInt z => Ok z
  | PBool b => Ok (if b then 1 else 0)
  | PFloat f => int_of_float f
  | PNone | PList _ | PDict _ => Raise TypeError
  end.

(** [float(v)]. *)
Definition py_float (v : pyval) : res float :=
  match v with
  | PFloat f => Ok f
  | PInt z => float_of_int z
  | PBool b => Ok (if b then one else zero)
  | PStr s =>
      match float_of_str s with
      | Some f => Ok f
      | None => Raise ValueError
      end
  | PNone | PList _ | PDict _ => Raise TypeError
  end.

(** ** Dictionary keys

    A dict finds a key by hash and [==]: [1], [1.0] and [True] are one key.
    A hashable JSON value is therefore kept as its class under [==]: a
    number as the dyadic [m * 2^e] with [m] odd (or [0]).  JSON's [NaN] is
    decoded to one shared object, which a dict finds by identity. *)
Inductive key : Set :=
| KNone
| KStr (s : string)
| KNum (m e : Z)
| KInf (neg : bool)
| KNaN.

Fixpoint strip_twos (p : positive) (e : Z) : positive * Z :=
  match p with
  | xO p' => strip_twos p' (e + 1)
  | _ => (p, e)
  end.

Definition dyadic (neg : bool) (m : positive) (e : Z) : key :=
  let '(p, e') := strip_twos m e in
  KNum (if neg then Zneg p else Zpos p) e'.

(** The key of [v] in a dict; lists and dicts are unhashable. *)
Definition hash_key (v : pyval) : res key :=
  match v with
  | PNone => Ok KNone
  | PStr s => Ok (KStr s)
  | PBool b => Ok (KNum (if b then 1 else 0) 0)
  | PInt Z0 => Ok (KNum 0 0)
  | PInt (Zpos p) => Ok (dyadic false p 0)
  | PInt (Zneg p) => Ok (dyadic true p 0)
  | PFloat f =>
      match Prim2SF f with
      | S754_zero _ => Ok (KNum 0 0)
      | S754_finite s m e => Ok (dyadic s m e)
      | S754_infinity s => Ok (KInf s)
      | S754_nan => Ok KNaN
      end
  | PList _ | PDict _ => Raise TypeError
  end.

Definition key_eq_dec (a b : key) : {a = b} + {a <> b}.
Proof.
  decide equality; auto using string_dec, Z.eq_dec, bool_dec.
Defined.

End Py.

Import Py.

Declare Scope py_scope.
Delimit Scope py_scope with py.
Notation "x <- c ;; k" := (Py.bind c (fun x => k))
  (at level 61, c at next level, right associativity) : py_scope.

(* ================================================================== *)
(** * Insertion-ordered dictionaries *)
(* ================================================================== *)

Module Dict.
Section Dict.
Context {K V : Type} (eq_dec : forall a b : K, {a = b} + {a <> b}).

Definition t := list (K * V).

Fixpoint lookup (k : K) (d : t) : option V :=
  match d with
  | (k', v) :: d' => if eq_dec k' k then Some v else lookup k d'
  | [] => None
  end.

(** [d[k] = v]: an existing key keeps its place, a new key goes last. *)
Fixpoint setitem (k : K) (v : V) (d : t) : t :=
  match d with
  | (k', v') :: d' =>
      if eq_dec k' k then (k', v) :: d' else (k', v') :: setitem k v d'
  | [] => [(k, v)]
  end.

(** [d.get(k, default)]. *)
Definition get (k : K) (default : V) (d : t) : V :=
  match lookup k d with
  | Some v => v
  | None => default
  end.

(** [d[k]] on a [defaultdict]: a missing key is inserted with the default
    before its value is returned. *)
Definition touch (k : K) (default : V) (d : t) : V * t :=
  match lookup k d with
  | Some v => (v, d)
  | None => (default, setitem k default d)
  end.

Definition keys (d : t) : list K := map fst d.
End Dict.
End Dict.

(* ================================================================== *)
(** * The engine: [filter_20_percent_change] *)
(* ================================================================== *)

Module Engine.

(** [award_years]: award identifier -> year -> cumulative amount. *)
Definition years_t := Dict.t (K := Z) (V := float).
Definition award_years_t := Dict.t (K := key) (V := years_t).

(** [award_info]: award identifier -> the dict of its descriptive fields. *)
Definition info_t := list (string * pyval).
Definition award_info_t := Dict.t (K := key) (V := info_t).

Record state : Type := {
  award_years : award_years_t;
  award_info : award_info_t
}.

Definition empty : state := {| award_years := []; award_info := [] |}.

(** An output row.  [award_id] is the identifier as the dict key it is.  The
    columns [funding_<year>] are kept as the list [funding], keyed by the
    year, in column order. *)
Record row : Type := {
  award_id : key;
  recipient_name : pyval;
  awarding_agency_code : pyval;
  first_year : Z;
  first_amount : float;
  last_year : Z;
  last_amount : float;
  change_percent : float;
  trend : string;
  total_5yr_funding : float;
  funding : list (Z * float);
  abs_change : float
}.

(** ** The first loop: accumulation

    A statement of the loop body runs in a state that persists when the
    statement raises. *)
Definition M (A : Type) : Type := state -> res A * state.

Definition ret {A : Type} (a : A) : M A := fun st => (Ok a, st).

Definition mbind {A B : Type} (m : M A) (k : A -> M B) : M B :=
  fun st =>
    match m st with
    | (Ok a, st') => k a st'
    | (Raise e, st') => (Raise e, st')
    end.

Definition lift {A : Type} (r : res A) : M A := fun st => (r, st).

Declare Scope m_scope.
Delimit Scope m_scope with m.
Notation "x <- c ;; k" := (mbind c (fun x => k))
  (at level 61, c at next level, right associativity) : m_scope.

(** [award_years[id]]: the outer [defaultdict] hashes [id] and inserts an
    empty inner dict when the key is new. *)
Definition years_of (id : pyval) : M key :=
  fun st =>
    match hash_key id with
    | Raise e => (Raise e, st)
    | Ok k =>
        let '(_, d) := Dict.touch key_eq_dec k [] (award_years st) in
        (Ok k, {| award_years := d; award_info := award_info st |})
    end.

(** [inner[year]] on the inner [defaultdict(float)]: a new year is inserted
    with [0.0]. *)
Definition cell_of (k : key) (year : Z) : M float :=
  fun st =>
    let inner := Dict.get key_eq_dec k [] (award_years st) in
    let '(v, inner') := Dict.touch Z.eq_dec year zero inner in
    (Ok v, {| award_years := Dict.setitem key_eq_dec k inner' (award_years st);
              award_info := award_info st |}).

(** [inner[year] = v], on the inner dict that [award_years] holds for [k]. *)
Definition store_cell (k : key) (year : Z) (v : float) : M unit :=
  fun st =>
    let inner := Dict.get key_eq_dec k [] (award_years st) in
    (Ok tt, {| award_years :=
                 Dict.setitem key_eq_dec k (Dict.setitem Z.eq_dec year v inner)
                   (award_years st);
               award_info := award_info st |}).

(** [award_info[id] = info]. *)
Definition set_info (id : pyval) (info : info_t) : M unit :=
  fun st =>
    match hash_key id with
    | Raise e => (Raise e, st)
    | Ok k =>
        (Ok tt, {| award_years := award_years st;
                   award_info := Dict.setitem key_eq_dec k info (award_info st) |})
    end.

(** The dict stored in [award_info]; the two scripts differ in it. *)
Definition info_fields := list string.

Fixpoint mk_info (fields : info_fields) (award : pyval) : res info_t :=
  match fields with
  | f :: fs =>
      (v <- py_get award f (PStr "") ;;
       rest <- mk_info fs award ;;
       Ok ((f, v) :: rest))%py
  | [] => Ok []
  end.

Section Loop.
Variable fields : info_fields.

(** The body of [for award in data], inside the [try] (CONSCRAPERFINAL.py,
    lines 76 to 82).  An augmented assignment [t[k] += e] reads [t[k]] before
    it evaluates [e]. *)
Definition accumulate_one (award : pyval) : M unit :=
  ((* year = int(award['action_date'][:4]) *)
   date <- lift (getitem award "action_date") ;;
   head <- lift (slice4 date) ;;
   year <- lift (py_int head) ;;
   (* award_years[award['award_id']][year] += float(award['federal_action_obligation']) *)
   id <- lift (getitem award "award_id") ;;
   k <- years_of id ;;
   old <- cell_of k year ;;
   amount <- lift (getitem award "federal_action_obligation") ;;
   x <- lift (py_float amount) ;;
   _ <- store_cell k year (old + x)%float ;;
   (* award_info[award['award_id']] = {f: award.get(f, "") for the fields} *)
   info <- lift (mk_info fields award) ;;
   id' <- lift (getitem award "award_id") ;;
   set_info id' info)%m.

(** [except (KeyError, ValueError, TypeError): continue]. *)
Definition caught (e : exn) : bool :=
  match e with
  | KeyError | ValueError | TypeError => true
  | _ => false
  end.

Definition try_one (award : pyval) : M unit :=
  fun st =>
    match accumulate_one award st with
    | (Raise e, st') => if caught e then (Ok tt, st') else (Raise e, st')
    | r => r
    end.

Fixpoint accumulate (data : list pyval) : M unit :=
  match data with
  | award :: rest => (_ <- try_one award ;; accumulate rest)%m
  | [] => ret tt
  end.
End Loop.

(** ** The second loop: classification *)

(** [(y1, a1) < (y2, a2)] on tuples. *)
Definition tuple_lt (p q : Z * float) : bool :=
  if fst p =? fst q then PrimFloat.ltb (snd p) (snd q) else fst p <? fst q.

Fixpoint insert_asc (x : Z * float) (l : list (Z * float)) : list (Z * float) :=
  match l with
  | y :: l' => if tuple_lt y x then y :: insert_asc x l' else x :: l
  | [] => [x]
  end.

(** [sorted(years.items())]. *)
Definition sorted (l : list (Z * float)) : list (Z * float) :=
  fold_right insert_asc [] l.

(** [l[-n:]]. *)
Definition lastn {A : Type} (n : nat) (l : list A) : list A :=
  skipn (List.length l - n)%nat l.

(** [[current_year - i for i in range(5, 0, -1)]]. *)
Definition last_5_years (current_year : Z) : list Z :=
  map (fun i => current_year - i) [5; 4; 3; 2; 1].

(** The literal [0.2]. *)
Definition threshold : float := 0x1.999999999999ap-3%float.

Definition info_get (info : info_t) (f : string) : res pyval :=
  match assoc f info with
  | Some v => Ok v
  | None => Raise KeyError
  end.

Definition info_of (infos : award_info_t) (k : key) : res info_t :=
  match Dict.lookup key_eq_dec k infos with
  | Some i => Ok i
  | None => Raise KeyError
  end.

(** The body of [for award_id, years in award_years.items()]
    (CONSCRAPERFINAL.py, lines 87 to 117): [Ok None] is a [continue] or a
    change below the threshold. *)
Definition trend_row (l5 : list Z) (infos : award_info_t)
  (id : key) (years : years_t) : res (option row) :=
  let sorted_years := sorted years in
  let last_3_years := lastn 3 sorted_years in
  match last_3_years with
  | [] | [_] => Ok None
  | (first_year, first_amount) :: rest =>
      let '(last_year, last_amount) := last rest (first_year, first_amount) in
      if (first_amount =? 0)%float then Ok None
      else
        (change <- truediv (last_amount - first_amount)%float first_amount ;;
         let total_5yr := py_sum (map (fun y => Dict.get Z.eq_dec y zero years) l5) in
         if (threshold <=? abs change)%float then
           info1 <- info_of infos id ;;
           rn <- info_get info1 "recipient_name" ;;
           info2 <- info_of infos id ;;
           ac <- info_get info2 "awarding_agency_code" ;;
           Ok (Some {|
             award_id := id;
             recipient_name := rn;
             awarding_agency_code := ac;
             first_year := first_year;
             first_amount := first_amount;
             last_year := last_year;
             last_amount := last_amount;
             change_percent := round2 (change * 100)%float;
             trend := if (0 <? change)%float then "Increase" else "Decrease";
             total_5yr_funding := round2 total_5yr;
             funding :=
               map (fun y => (y, round2 (Dict.get Z.eq_dec y zero years))) l5;
             abs_change := abs (last_amount - first_amount)%float
           |})
         else Ok None)%py
  end.

Fixpoint collect (l5 : list Z) (infos : award_info_t)
  (items : award_years_t) : res (list row) :=
  match items with
  | (id, years) :: rest =>
      (r <- trend_row l5 infos id years ;;
       rs <- collect l5 infos rest ;;
       Ok (match r with Some x => x :: rs | None => rs end))%py
  | [] => Ok []
  end.

(** [filtered.sort(key=lambda x: x['change_percent'], reverse=True)]: stable,
    descending. *)
Fixpoint insert_desc (x : row) (l : list row) : list row :=
  match l with
  | y :: l' =>
      if (change_percent x <? change_percent y)%float
      then y :: insert_desc x l' else x :: l
  | [] => [x]
  end.

Definition sort_desc (l : list row) : list row :=
  fold_right insert_desc [] l.

(** [filter_20_percent_change(data)], with [datetime.now().year] passed in. *)
Definition filter_20_percent_change (fields : info_fields)
  (current_year : Z) (data : list pyval) : res (list row * list Z) :=
  let l5 := last_5_years current_year in
  match accumulate fields data empty with
  | (Raise e, _) => Raise e
  | (Ok _, st) =>
      (filtered <- collect l5 (award_info st) (award_years st) ;;
       Ok (sort_desc filtered, l5))%py
  end.

End Engine.

(** The two scripts' engines differ in the fields kept in [award_info]. *)
Module CONSCRAPERFINAL.
Definition fields : Engine.info_fields :=
  ["recipient_name"; "awarding_agency_code"; "trend"].
Definition filter_20_percent_change :=
  Engine.filter_20_percent_change fields.
End CONSCRAPERFINAL.

(* ================================================================== *)
(** * CONSCRAPERV2.py: the roll-ups and the main sequence *)
(* ================================================================== *)

Module CONSCRAPERV2.
Import Engine.

Definition fields : info_fields := ["recipient_name"; "awarding_agency_code"].

Definition filter_20_percent_change := Engine.filter_20_percent_change fields.

(** [award.get(f"funding_{y}", 0)] on an output row. *)
Definition funding_of (y : Z) (award : row) : float :=
  Dict.get Z.eq_dec y zero (funding award).

(** ** [save_summary_csv] *)

(** The single row written to summary_awards.csv. *)
Record summary_row : Type := {
  s_funding : list (Z * float);
  s_total_5yr_funding : float;
  s_award_count : nat
}.

(** [d[y] += v]; in both roll-ups the key [y] is present, the dict having
    been built from the same [last_5_years]. *)
Definition add_to (y : Z) (v : float) (d : years_t) : years_t :=
  Dict.setitem Z.eq_dec y (Dict.get Z.eq_dec y zero d + v)%float d.

(** [{y: 0 for y in last_5_years}]. *)
Definition zero_by_year (l5 : list Z) : years_t :=
  fold_left (fun d y => Dict.setitem Z.eq_dec y zero d) l5 [].

(** [for y in last_5_years: d[y] += award.get(f"funding_{y}", 0)]. *)
Definition add_funding (l5 : list Z) (d : years_t) (award : row) : years_t :=
  fold_left (fun d y => add_to y (funding_of y award) d) l5 d.

Definition save_summary_csv (data : list row) (l5 : list Z) : summary_row :=
  let totals_by_year := fold_left (add_funding l5) data (zero_by_year l5) in
  let total_funding :=
    fold_left (fun t award => (t + total_5yr_funding award)%float) data zero in
  {| s_funding :=
       map (fun y => (y, round2 (Dict.get Z.eq_dec y zero totals_by_year))) l5;
     s_total_5yr_funding := round2 total_funding;
     s_award_count := List.length data |}.

(** ** [save_recipient_summary] *)

(** A value of the [recipients] defaultdict. *)
Record group : Type := {
  g_award_count : nat;
  g_total_5yr_funding : float;
  g_sum_change_percent : float;
  g_trends : list string;
  g_funding : years_t
}.

(** A row written to recipient_summary.csv. *)
Record recipient_row : Type := {
  r_recipient_name : key;
  r_award_count : nat;
  r_total_5yr_funding : float;
  r_average_change_percent : float;
  r_major_trend : string;
  r_funding : list (Z * float)
}.

Definition new_group (l5 : list Z) : group :=
  {| g_award_count := 0;
     g_total_5yr_funding := zero;
     g_sum_change_percent := zero;
     g_trends := [];
     g_funding := zero_by_year l5 |}.

(** The body of [for award in data]: [recipients[rec]] hashes the name. *)
Definition add_award (l5 : list Z) (recipients : Dict.t (K := key) (V := group))
  (award : row) : res (Dict.t (K := key) (V := group)) :=
  (rec <- hash_key (recipient_name award) ;;
   let g := Dict.get key_eq_dec rec (new_group l5) recipients in
   Ok (Dict.setitem key_eq_dec rec
         {| g_award_count := S (g_award_count g);
            g_total_5yr_funding :=
              (g_total_5yr_funding g + total_5yr_funding award)%float;
            g_sum_change_percent :=
              (g_sum_change_percent g + change_percent award)%float;
            g_trends := g_trends g ++ [trend award];
            g_funding := add_funding l5 (g_funding g) award |}
         recipients))%py.

Fixpoint group_awards (l5 : list Z) (recipients : Dict.t (K := key) (V := group))
  (data : list row) : res (Dict.t (K := key) (V := group)) :=
  match data with
  | award :: rest =>
      (recipients' <- add_award l5 recipients award ;;
       group_awards l5 recipients' rest)%py
  | [] => Ok recipients
  end.

(** [l.count(x)]. *)
Definition count (l : list string) (x : string) : nat :=
  count_occ string_dec l x.

(** [max(xs, key=f)] after its first element: a later element replaces the
    best one only when its key is strictly greater. *)
Fixpoint max_from {A : Type} (f : A -> nat) (best : A) (xs : list A) : A :=
  match xs with
  | x :: xs' => if (f best <? f x)%nat then max_from f x xs' else max_from f best xs'
  | [] => best
  end.

Definition py_max {A : Type} (f : A -> nat) (xs : list A) : res A :=
  match xs with
  | x :: xs' => Ok (max_from f x xs')
  | [] => Raise ValueError
  end.

Section Rollup.
(** The order in which [set(l)] is iterated.  It follows the strings' hashes,
    which CPython salts per process: the order is an input of the model. *)
Variable set_iter : list string -> list string.

(** [max(set(trends), key=trends.count) if trends else ""]. *)
Definition major_trend (trends : list string) : res string :=
  match trends with
  | [] => Ok ""
  | _ => py_max (count trends) (set_iter trends)
  end.

(** [round(sum/count, 2) if count else 0]. *)
Definition average_change (g : group) : res float :=
  match g_award_count g with
  | O => Ok zero
  | S _ =>
      (n <- float_of_int (Z.of_nat (g_award_count g)) ;;
       q <- truediv (g_sum_change_percent g) n ;;
       Ok (round2 q))%py
  end.

Definition pivot_row (l5 : list Z) (rec : key) (info : group)
  : res recipient_row :=
  (avg_change <- average_change info ;;
   trend <- major_trend (g_trends info) ;;
   Ok {| r_recipient_name := rec;
         r_award_count := g_award_count info;
         r_total_5yr_funding := round2 (g_total_5yr_funding info);
         r_average_change_percent := avg_change;
         r_major_trend := trend;
         r_funding :=
           map (fun y => (y, round2 (Dict.get Z.eq_dec y zero (g_funding info))))
             l5 |})%py.

Fixpoint pivot (l5 : list Z) (items : Dict.t (K := key) (V := group))
  : res (list recipient_row) :=
  match items with
  | (rec, info) :: rest =>
      (r <- pivot_row l5 rec info ;;
       rs <- pivot l5 rest ;;
       Ok (r :: rs))%py
  | [] => Ok []
  end.

(** [pivot_data.sort(key=lambda x: x["total_5yr_funding"], reverse=True)]:
    stable, descending (the totals are compared with [<]; the order is
    that of the code when no total is NaN). *)
Fixpoint insert_by_total (x : recipient_row) (l : list recipient_row)
  : list recipient_row :=
  match l with
  | y :: l' =>
      if (r_total_5yr_funding x <? r_total_5yr_funding y)%float
      then y :: insert_by_total x l' else x :: l
  | [] => [x]
  end.

Definition save_recipient_summary (data : list row) (l5 : list Z)
  : res (list recipient_row) :=
  (recipients <- group_awards l5 [] data ;;
   pivot_data <- pivot l5 recipients ;;
   Ok (fold_right insert_by_total [] pivot_data))%py.

(** [[a for a in filtered_awards if a["trend"].lower() == trend_only]],
    skipped when [trend_only] is ["both"]. *)
Definition trend_filter (trend_only : string) (awards : list row) : list row :=
  if String.eqb trend_only "both" then awards
  else filter (fun a => String.eqb (lower (trend a)) trend_only) awards.

Record reports : Type := {
  filtered_awards : list row;
  summary : summary_row;
  recipient_summary : list recipient_row
}.

(** The main sequence on the fetched awards: nothing is written when none
    was fetched; otherwise the engine, the trend filter, the roll-ups. *)
Definition main (trend_only : string) (current_year : Z)
  (all_awards : list pyval) : res (option reports) :=
  match all_awards with
  | [] => Ok None
  | _ =>
      (out <- filter_20_percent_change current_year all_awards ;;
       let '(awards, l5) := out in
       let awards := trend_filter trend_only awards in
       recipients <- save_recipient_summary awards l5 ;;
       Ok (Some {| filtered_awards := awards;
                   summary := save_summary_csv awards l5;
                   recipient_summary := recipients |}))%py
  end.
End Rollup.

End CONSCRAPERV2.

(* ================================================================== *)
(** * Vocabulary of the statements *)
(* ================================================================== *)

Module Spec.
Import Engine.

(** What the loop body extracts from a record, in the order it does. *)
Definition year_of (award : pyval) : res Z :=
  (date <- getitem award "action_date" ;;
   head <- slice4 date ;;
   py_int head)%py.

Definition id_of (award : pyval) : res key :=
  (id <- getitem award "award_id" ;; hash_key id)%py.

Definition amount_of (award : pyval) : res float :=
  (amount <- getitem award "federal_action_obligation" ;; py_float amount)%py.

(** The accumulator after [award_years[id][year]] was read and nothing more:
    the cell exists, at [0.0] when it is new. *)
Definition touch_cell (k : key) (y : Z) (ay : award_years_t) : award_years_t :=
  let inner := Dict.get key_eq_dec k [] ay in
  Dict.setitem key_eq_dec k (snd (Dict.touch Z.eq_dec y zero inner)) ay.

(** The accumulator after [award_years[id][year] += x]. *)
Definition add_cell (k : key) (y : Z) (x : float) (ay : award_years_t)
  : award_years_t :=
  let inner := Dict.get key_eq_dec k [] ay in
  Dict.setitem key_eq_dec k
    (Dict.setitem Z.eq_dec y (Dict.get Z.eq_dec y zero inner + x)%float inner) ay.

(** The effect of one record on the state. *)
Inductive effect : Type :=
| Skip                                        (* dropped before any mutation *)
| Touch (k : key) (y : Z)                     (* dropped after the cell was read *)
| Add (k : key) (y : Z) (x : float) (info : info_t)
| Abort (k : key) (y : Z) (e : exn).          (* an exception that is not caught *)

(** The dict stored in [award_info]; [award] is a dict when it is built. *)
Definition info_for (fields : info_fields) (award : pyval) : info_t :=
  match mk_info fields award with
  | Ok info => info
  | Raise _ => []
  end.

Definition effect_of (fields : info_fields) (award : pyval) : effect :=
  match year_of award with
  | Raise _ => Skip
  | Ok y =>
      match id_of award with
      | Raise _ => Skip
      | Ok k =>
          match amount_of award with
          | Raise e => if caught e then Touch k y else Abort k y e
          | Ok x => Add k y x (info_for fields award)
          end
      end
  end.

Definition apply_effect (ef : effect) (st : state) : res unit * state :=
  match ef with
  | Skip => (Ok tt, st)
  | Touch k y =>
      (Ok tt, {| award_years := touch_cell k y (award_years st);
                 award_info := award_info st |})
  | Add k y x info =>
      (Ok tt, {| award_years := add_cell k y x (award_years st);
                 award_info := Dict.setitem key_eq_dec k info (award_info st) |})
  | Abort k y e =>
      (Raise e, {| award_years := touch_cell k y (award_years st);
                   award_info := award_info st |})
  end.

(** A record is malformed when the extraction of its identifier, year or
    amount raises one of the caught exceptions. *)
Definition malformed (fields : info_fields) (award : pyval) : bool :=
  match effect_of fields award with
  | Skip | Touch _ _ => true
  | _ => false
  end.

(** The accumulator [award_years] at the end of the first loop. *)
Definition accumulator (fields : info_fields) (data : list pyval)
  : award_years_t :=
  award_years (snd (accumulate fields data empty)).

(** The first loop ran to its end. *)
Definition completes (fields : info_fields) (data : list pyval) : Prop :=
  fst (accumulate fields data empty) = Ok tt.

(** The cell [(k, y)] of the accumulator. *)
Definition cell (k : key) (y : Z) (ay : award_years_t) : option float :=
  match Dict.lookup key_eq_dec k ay with
  | Some years => Dict.lookup Z.eq_dec y years
  | None => None
  end.

(** What a record does to the cell [(k, y)]: nothing ([None]), create it
    ([Some None]) or add to it ([Some (Some x)]). *)
Definition cell_event (k : key) (y : Z) (ef : effect) : option (option float) :=
  match ef with
  | Touch k' y' =>
      if key_eq_dec k' k then if Z.eq_dec y' y then Some None else None else None
  | Add k' y' x _ =>
      if key_eq_dec k' k then if Z.eq_dec y' y then Some (Some x) else None
      else None
  | _ => None
  end.

Fixpoint events (k : key) (y : Z) (efs : list effect) : list (option float) :=
  match efs with
  | ef :: rest =>
      match cell_event k y ef with
      | Some ev => ev :: events k y rest
      | None => events k y rest
      end
  | [] => []
  end.

(** The events of the cell [(k, y)] in the records [data], in their order. *)
Definition cell_events (fields : info_fields) (k : key) (y : Z)
  (data : list pyval) : list (option float) :=
  events k y (map (effect_of fields) data).

(** The value of a cell after its events, in order: the cell starts at
    [0.0] and the amounts are added from left to right. *)
Definition cell_step (c : option float) (ev : option float) : option float :=
  let v := match c with Some v => v | None => zero end in
  Some (match ev with Some x => (v + x)%float | None => v end).

Definition cell_value (evs : list (option float)) : option float :=
  fold_left cell_step evs None.

(** The loop over the records, on their effects: it stops at the first
    exception that is not caught. *)
Fixpoint run_effects (efs : list effect) (st : state) : res unit * state :=
  match efs with
  | ef :: rest =>
      match apply_effect ef st with
      | (Ok _, st') => run_effects rest st'
      | (Raise e, st') => (Raise e, st')
      end
  | [] => (Ok tt, st)
  end.

(** The trailing window of a year map: its first and last entries, when it
    has two entries at least. *)
Definition window (years : years_t) : option ((Z * float) * (Z * float)) :=
  match lastn 3 (sorted years) with
  | [] | [_] => None
  | first :: rest => Some (first, last rest first)
  end.

(** [(last - first) / first]. *)
Definition change_of (first_amount last_amount : float) : float :=
  ((last_amount - first_amount) / first_amount)%float.

(** The two tests an award passes to be reported. *)
Definition qualifies (first_amount last_amount : float) : bool :=
  negb (first_amount =? 0)%float
  && (threshold <=? abs (change_of first_amount last_amount))%float.

(** The label of a change. *)
Definition label_of (change : float) : string :=
  if (0 <? change)%float then "Increase" else "Decrease".

(** The row of an award whose window is [first], [last]. *)
Definition row_of (l5 : list Z) (id : key) (years : years_t)
  (rn ac : pyval) (first last : Z * float) : row :=
  let change := change_of (snd first) (snd last) in
  {| award_id := id;
     recipient_name := rn;
     awarding_agency_code := ac;
     first_year := fst first;
     first_amount := snd first;
     last_year := fst last;
     last_amount := snd last;
     change_percent := round2 (change * 100)%float;
     trend := label_of change;
     total_5yr_funding :=
       round2 (py_sum (map (fun y => Dict.get Z.eq_dec y zero years) l5));
     funding := map (fun y => (y, round2 (Dict.get Z.eq_dec y zero years))) l5;
     abs_change := abs (snd last - snd first)%float |}.

(** The row emitted for a qualifying award, after the look-ups in
    [award_info]. *)
Definition emit (l5 : list Z) (infos : award_info_t) (id : key)
  (years : years_t) (first last : Z * float) : res (option row) :=
  (info1 <- info_of infos id ;;
   rn <- info_get info1 "recipient_name" ;;
   info2 <- info_of infos id ;;
   ac <- info_get info2 "awarding_agency_code" ;;
   Ok (Some (row_of l5 id years rn ac first last)))%py.

(** Two records that differ at most in their ["trend"] field. *)
Definition same_but_trend (a b : pyval) : Prop :=
  match a, b with
  | PDict d1, PDict d2 =>
      forall f, f <> "trend" -> assoc f d1 = assoc f d2
  | _, _ => a = b
  end.

(** The labels of the awards of one recipient, in the order of the rows. *)
Definition labels_of (rec : key) (data : list row) : list string :=
  map trend
    (filter (fun a => match hash_key (recipient_name a) with
                      | Ok k => if key_eq_dec k rec then true else false
                      | Raise _ => false
                      end) data).

(** The distinct elements of [l], in the order in which they are first
    met. *)
Definition first_seen (l : list string) : list string :=
  rev (nodup string_dec (rev l)).

(** The tie-break of the specification: the most frequent label, and on a tie
    the one that was met first among the labels. *)
Definition first_seen_mode (trends : list string) : res string :=
  CONSCRAPERV2.py_max (CONSCRAPERV2.count trends) (first_seen trends).

(** ** Predicates of the proofs *)

(** A year map whose cells were all created and never added to. *)
Definition all_zero (years : years_t) : Prop :=
  forall y v, In (y, v) years -> v = zero.

(** The two fields a row reads from [award_info]. *)
Definition good_info (info : info_t) : Prop :=
  assoc "recipient_name" info <> None
  /\ assoc "awarding_agency_code" info <> None.

(** The scripts keep both fields. *)
Definition complete (fields : info_fields) : Prop :=
  In "recipient_name" fields /\ In "awarding_agency_code" fields.

(** What the effects of the records satisfy. *)
Definition effect_ok (ef : effect) : Prop :=
  match ef with
  | Add _ _ _ info => good_info info
  | Abort _ _ e => e = OverflowError
  | _ => True
  end.

(** The invariant of the first loop: an award without descriptive fields has
    only cells at [0.0]. *)
Definition inv (st : state) : Prop :=
  NoDup (Dict.keys (award_years st))
  /\ forall k years,
       Dict.lookup key_eq_dec k (award_years st) = Some years ->
       all_zero years
       \/ exists info, Dict.lookup key_eq_dec k (award_info st) = Some info
                       /\ good_info info.

(** The sign a float compares with: [None] for NaN. *)
Definition sgn (x : spec_float) : option comparison :=
  match x with
  | S754_nan => None
  | S754_zero _ => Some Eq
  | S754_infinity s | S754_finite s _ _ => Some (if s then Lt else Gt)
  end.

(** The sign of the opposite. *)
Definition flip (c : option comparison) : option comparison :=
  match c with
  | Some c => Some (CompOpp c)
  | None => None
  end.

(** Two states that differ at most in the trend hints kept in [award_info]. *)
Definition info_sim (i1 i2 : info_t) : Prop :=
  forall f, f <> "trend" -> assoc f i1 = assoc f i2.

Definition infos_sim (a b : award_info_t) : Prop :=
  Forall2 (fun e1 e2 => fst e1 = fst e2 /\ info_sim (snd e1) (snd e2)) a b.

Definition effect_sim (e1 e2 : effect) : Prop :=
  match e1, e2 with
  | Add k1 y1 x1 i1, Add k2 y2 x2 i2 =>
      k1 = k2 /\ y1 = y2 /\ x1 = x2 /\ info_sim i1 i2
  | _, _ => e1 = e2
  end.

Definition state_sim (s1 s2 : state) : Prop :=
  award_years s1 = award_years s2 /\ infos_sim (award_info s1) (award_info s2).

(** An effect that ends the run. *)
Definition aborts (ef : effect) : bool :=
  match ef with
  | Abort _ _ _ => true
  | _ => false
  end.

(** The [recipients] dict, and the labels it holds for a recipient. *)
Definition groups := Dict.t (K := key) (V := CONSCRAPERV2.group).

Definition trends_of (l5 : list Z) (k : key) (rs : groups) : list string :=
  match Dict.lookup key_eq_dec k rs with
  | Some g => CONSCRAPERV2.g_trends g
  | None => []
  end.

End Spec.

(* ================================================================== *)
(** * Facts about dictionaries *)
(* ================================================================== *)

(* ================================================================== *)
(** * Sample inputs *)
(* ================================================================== *)

Module Examples.

(** A record as the fetcher returns it. *)
Definition award (id : pyval) (recipient : string) (date : string)
  (amount : pyval) : pyval :=
  PDict [("award_id", id); ("recipient_name", PStr recipient);
         ("action_date", PStr date); ("federal_action_obligation", amount)].

(** The dict keys of the ints 1 and 2 ([2 = 1 * 2^1]). *)
Definition key_1 : key := KNum 1 0.
Definition key_2 : key := KNum 1 1.

(** The end-to-end scenario: award 1 has 100 in 2021 and 130 in 2023, award 2
    has 50 in 2022; the reference year is 2023. *)
Definition scenario : list pyval :=
  [award (PInt 1) "ACME" "2021-03-01" (PInt 100);
   award (PInt 1) "ACME" "2023-06-30" (PInt 130);
   award (PInt 2) "Initech" "2022-01-15" (PInt 50)].

(** A record with a trend hint. *)
Definition with_trend (hint : pyval) (a : pyval) : pyval :=
  match a with
  | PDict d => PDict (("trend", hint) :: d)
  | _ => a
  end.

(** The scenario, every record hinting at a decrease. *)
Definition scenario_hinted : list pyval :=
  map (with_trend (PStr "Decrease")) scenario.

(** Two awards of one recipient, one rising from 100 to 130 and one falling
    from 100 to 50. *)
Definition mixed : list pyval :=
  [award (PStr "W91-0001") "ACME" "2021-03-01" (PInt 100);
   award (PStr "W91-0001") "ACME" "2023-06-30" (PInt 130);
   award (PStr "W91-0002") "ACME" "2021-05-01" (PInt 100);
   award (PStr "W91-0002") "ACME" "2023-07-31" (PInt 50)].

(** Two awards whose five-year totals are [0.1] and [0.2]. *)
Definition cents : list pyval :=
  [award (PStr "W91-0001") "ACME" "2021-03-01" (PFloat 0x1.999999999999ap-4);
   award (PStr "W91-0001") "ACME" "2023-06-30" (PInt 5);
   award (PStr "W91-0002") "ACME" "2021-05-01" (PFloat 0x1.999999999999ap-3);
   award (PStr "W91-0002") "ACME" "2023-07-31" (PInt 5)].

(** Three amounts for one cell, and the same three in the opposite order. *)
Definition dimes : list pyval :=
  [award (PStr "W91-0001") "ACME" "2021-03-01" (PFloat 0x1.999999999999ap-4);
   award (PStr "W91-0001") "ACME" "2021-06-30" (PFloat 0x1.999999999999ap-3);
   award (PStr "W91-0001") "ACME" "2021-09-30" (PFloat 0x1.3333333333333p-2)].

(** Two cells fed in turn, and the same records with the cells interleaved
    the other way; the records of each cell keep their order. *)
Definition ledger : list pyval :=
  [award (PStr "W91-0001") "ACME" "2021-03-01" (PFloat 0x1.999999999999ap-4);
   award (PStr "W91-0001") "ACME" "2021-06-30" (PFloat 0x1.999999999999ap-3);
   award (PStr "W91-0002") "ACME" "2021-05-01" (PFloat 0x1.3333333333333p-2);
   award (PStr "W91-0002") "ACME" "2021-07-31" (PFloat 0x1.999999999999ap-4)].

Definition ledger_shuffled : list pyval :=
  [award (PStr "W91-0002") "ACME" "2021-05-01" (PFloat 0x1.3333333333333p-2);
   award (PStr "W91-0001") "ACME" "2021-03-01" (PFloat 0x1.999999999999ap-4);
   award (PStr "W91-0002") "ACME" "2021-07-31" (PFloat 0x1.999999999999ap-4);
   award (PStr "W91-0001") "ACME" "2021-06-30" (PFloat 0x1.999999999999ap-3)].

(** The rows the engine of CONSCRAPERV2.py reports for [data]. *)
Definition rows_of (current_year : Z) (data : list pyval) : list Engine.row :=
  match CONSCRAPERV2.filter_20_percent_change current_year data with
  | Ok (rows, _) => rows
  | Raise _ => []
  end.

(** A set iterated in the order its elements were first met, and one
    iterated in the opposite order. *)
Definition set_first_seen (l : list string) : list string :=
  Spec.first_seen l.

Definition set_last_seen (l : list string) : list string :=
  rev (Spec.first_seen l).

(** One award with [first] in 2021 and [last] in 2023. *)
Definition two_points (first last : pyval) : list pyval :=
  [award (PStr "W91-0001") "ACME" "2021-03-01" first;
   award (PStr "W91-0001") "ACME" "2023-06-30" last].

Definition years_2023 : list Z := [2018; 2019; 2020; 2021; 2022].

(** The row of award 1 of the scenario. *)
Definition scenario_row : Engine.row :=
  {| Engine.award_id := key_1;
     Engine.recipient_name := PStr "ACME";
     Engine.awarding_agency_code := PStr "";
     Engine.first_year := 2021;
     Engine.first_amount := 100%float;
     Engine.last_year := 2023;
     Engine.last_amount := 130%float;
     Engine.change_percent := 30%float;
     Engine.trend := "Increase";
     Engine.total_5yr_funding := 100%float;
     Engine.funding :=
       [(2018, 0%float); (2019, 0%float); (2020, 0%float);
        (2021, 100%float); (2022, 0%float)];
     Engine.abs_change := 30%float |}.

End Examples.

(* ================================================================== *)
(** * Further vocabulary *)
(* ================================================================== *)

Module Order.
Import Engine.

(** The place of a float that is not NaN in the order of the floats: its
    class (negative infinity, negative, zero, positive, positive infinity),
    then exponent and mantissa, reversed for a negative float. *)
Definition rank (x : spec_float) : Z * Z * Z :=
  match x with
  | S754_infinity true => (-2, 0, 0)
  | S754_finite true m e => (-1, - e, - Zpos m)
  | S754_zero _ | S754_nan => (0, 0, 0)
  | S754_finite false m e => (1, e, Zpos m)
  | S754_infinity false => (2, 0, 0)
  end.

Definition lt3 (a b : Z * Z * Z) : Prop :=
  let '(a1, a2, a3) := a in
  let '(b1, b2, b3) := b in
  a1 < b1 \/ (a1 = b1 /\ (a2 < b2 \/ (a2 = b2 /\ a3 < b3))).

Definition le3 (a b : Z * Z * Z) : Prop := lt3 a b \/ a = b.

(** [a] is listed before [b]: [b]'s change is not above [a]'s. *)
Definition ranked (a b : row) : Prop :=
  (change_percent b <=? change_percent a)%float = true.

End Order.

Module Notions.
Import Engine Spec.

(** A record that stops the run: its year and identifier are read, and its
    amount is an int beyond the range of a float. *)
Definition overflows (award : pyval) : bool :=
  match year_of award, id_of award, amount_of award with
  | Ok _, Ok _, Raise OverflowError => true
  | _, _, _ => false
  end.

(** The accumulator is a dict of dicts: no key is held twice. *)
Definition wf (ay : award_years_t) : Prop :=
  NoDup (Dict.keys ay)
  /\ forall k years, In (k, years) ay -> NoDup (Dict.keys years).

(** Entries in the order of their years. *)
Definition by_year (p q : Z * float) : Prop := fst p < fst q.

(** The value [award_info] holds for [k] after the effects [efs], from
    [cur]. *)
Fixpoint last_info (k : key) (efs : list effect) (cur : option info_t)
  : option info_t :=
  match efs with
  | Add k' _ _ info :: rest =>
      last_info k rest (if key_eq_dec k' k then Some info else cur)
  | _ :: rest => last_info k rest cur
  | [] => cur
  end.

(** The awards of one recipient, in the order of the rows. *)
Definition of_recipient (rec : key) (a : row) : bool :=
  match hash_key (recipient_name a) with
  | Ok k => if key_eq_dec k rec then true else false
  | Raise _ => false
  end.

Definition awards_of (rec : key) (data : list row) : list row :=
  filter (of_recipient rec) data.

(** What [recipients[rec]] holds after the awards [mine] were added to [g]. *)
Definition grown (l5 : list Z) (g g' : CONSCRAPERV2.group) (mine : list row)
  : Prop :=
  CONSCRAPERV2.g_award_count g'
  = (CONSCRAPERV2.g_award_count g + List.length mine)%nat
  /\ CONSCRAPERV2.g_total_5yr_funding g'
     = fold_left PrimFloat.add (map total_5yr_funding mine)
         (CONSCRAPERV2.g_total_5yr_funding g)
  /\ CONSCRAPERV2.g_sum_change_percent g'
     = fold_left PrimFloat.add (map change_percent mine)
         (CONSCRAPERV2.g_sum_change_percent g)
  /\ CONSCRAPERV2.g_funding g'
     = fold_left (CONSCRAPERV2.add_funding l5) mine (CONSCRAPERV2.g_funding g).

End Notions.

(* ================================================================== *)
(** * CONSCRAPERV2.py: the CSV files *)
(* ================================================================== *)

Module Reports.
Import Engine CONSCRAPERV2.

(** What a CSV file holds: the funding years of its header, and its rows.
    The other columns of a sheet are the same in all its rows. *)
Inductive sheet : Type :=
| Awards (header : list Z) (rows : list row)
| Summary (s : summary_row)
| Recipients (header : list Z) (rows : list recipient_row).

(** The files of the working directory, by name. *)
Definition files := Dict.t (K := string) (V := sheet).

(** A statement that writes files; what was written stays when it raises. *)
Definition W (A : Type) : Type := files -> res A * files.

Definition wret {A : Type} (a : A) : W A := fun fs => (Ok a, fs).

Definition wbind {A B : Type} (m : W A) (k : A -> W B) : W B :=
  fun fs =>
    match m fs with
    | (Ok a, fs') => k a fs'
    | (Raise e, fs') => (Raise e, fs')
    end.

Definition wlift {A : Type} (r : res A) : W A := fun fs => (r, fs).

Declare Scope w_scope.
Delimit Scope w_scope with w.
Notation "x <- c ;; k" := (wbind c (fun x => k))
  (at level 61, c at next level, right associativity) : w_scope.

Section Csv.
Context {A : Type}.
(** The funding years among the keys of a row, and the sheet of a list of
    rows. *)
Variable cols : A -> list Z.
Variable wrap : list Z -> list A -> sheet.

(** [writer.writerows(data)]: a row with a key that the header lacks raises
    [ValueError], after the rows before it were written. *)
Fixpoint writerows (header : list Z) (data : list A) : res unit * list A :=
  match data with
  | r :: rest =>
      if forallb (fun y => existsb (Z.eqb y) header) (cols r)
      then let '(o, written) := writerows header rest in (o, r :: written)
      else (Raise ValueError, [])
  | [] => (Ok tt, [])
  end.

(** [save_to_csv(data, filename)]: nothing is written, and no file is opened,
    for an empty list; the header is the keys of the first row. *)
Definition save_to_csv (data : list A) (filename : string) : W unit :=
  fun fs =>
    match data with
    | [] => (Ok tt, fs)
    | first :: _ =>
        let headers := cols first in
        let '(o, written) := writerows headers data in
        (o, Dict.setitem string_dec filename (wrap headers written) fs)
    end.
End Csv.

Definition award_cols (r : row) : list Z := Dict.keys (funding r).
Definition recipient_cols (r : recipient_row) : list Z := Dict.keys (r_funding r).

(** [save_top_increases_decreases(data, top_n)]. *)
Definition save_top_increases_decreases (data : list row) (top_n : nat) : W unit :=
  (let increases :=
     firstn top_n (filter (fun d => String.eqb (trend d) "Increase") data) in
   let decreases :=
     firstn top_n (filter (fun d => String.eqb (trend d) "Decrease") data) in
   _ <- save_to_csv award_cols Awards increases "top_10_increases.csv" ;;
   save_to_csv award_cols Awards decreases "top_10_decreases.csv")%w.

(** [max(xs, key=f)] on float keys, after its first element: a later element
    replaces the best one only when its key is strictly greater. *)
Fixpoint max_by {A : Type} (f : A -> float) (best : A) (xs : list A) : A :=
  match xs with
  | x :: xs' => if (f best <? f x)%float then max_by f x xs' else max_by f best xs'
  | [] => best
  end.

(** [save_biggest_absolute_change(data)]. *)
Definition save_biggest_absolute_change (data : list row) : W unit :=
  match data with
  | [] => wret tt
  | first :: rest =>
      let biggest := max_by abs_change first rest in
      save_to_csv award_cols Awards [biggest] "biggest_absolute_change.csv"
  end.

(** The file written by [save_summary_csv], whatever [data] is. *)
Definition write_summary (data : list row) (l5 : list Z) : W unit :=
  fun fs =>
    (Ok tt, Dict.setitem string_dec "summary_awards.csv"
              (Summary (save_summary_csv data l5)) fs).

Section Main.
Variable set_iter : list string -> list string.

(** The file written by [save_recipient_summary]. *)
Definition write_recipient_summary (data : list row) (l5 : list Z) : W unit :=
  (pivot_data <- wlift (save_recipient_summary set_iter data l5) ;;
   save_to_csv recipient_cols Recipients pivot_data "recipient_summary.csv")%w.

(** The main block after the fetch (CONSCRAPERV2.py, lines 238 to 252).  The
    [try] around it catches every exception: [Raise e] is the script logging
    that it failed with [e]. *)
Definition main (cgac trend_only : string) (current_year : Z)
  (all_awards : list pyval) : W unit :=
  match all_awards with
  | [] => wret tt
  | _ =>
      (out <- wlift (filter_20_percent_change current_year all_awards) ;;
       let '(filtered_awards, last_5_years) := out in
       let filtered_awards := trend_filter trend_only filtered_awards in
       _ <- save_to_csv award_cols Awards filtered_awards
              ("DoD_awards_20percent_change_filtered_" ++ cgac ++ ".csv") ;;
       _ <- save_top_increases_decreases filtered_awards 10 ;;
       _ <- save_biggest_absolute_change filtered_awards ;;
       _ <- write_summary filtered_awards last_5_years ;;
       write_recipient_summary filtered_awards last_5_years)%w
  end.
End Main.

End Reports.

Module Sheets.
Import Engine CONSCRAPERV2 Reports.


(** The first rows of a label, ten at most. *)
Definition top (label : string) (awards : list row) : list row :=
  firstn 10 (filter (fun d => String.eqb (trend d) label) awards).

(** A sheet of rows written under a name; an empty list writes nothing. *)
Definition put {A : Type} (wrap : list A -> sheet) (name : string)
  (rows : list A) (fs : files) : files :=
  match rows with
  | [] => fs
  | _ => Dict.setitem string_dec name (wrap rows) fs
  end.

Definition biggest (awards : list row) : list row :=
  match awards with
  | [] => []
  | a :: rest => [max_by abs_change a rest]
  end.


End Sheets.

(* ================================================================== *)
(** * The fetch: [get_awards_last_5_years] *)
(* ================================================================== *)

Module Net.

(** What [requests.post], [raise_for_status] and [response.json] give for one
    request: the decoded body, a [requests.RequestException] (no connection,
    a timeout, an error status and, in the versions of requests that derive
    their JSON error from it, a body that is not JSON), or a [ValueError] that
    is not a [RequestException]. *)
Inductive reply : Type :=
| Json (data : pyval)
| RequestException
| OtherValueError.

(** The body of a request.  [time_period] is the pair of dates
    [<start_year>-01-01] and [<end_year>-12-31]. *)
Record payload : Type := {
  awarding_agency_codes : list string;
  start_year : Z;
  end_year : Z;
  fields : list string;
  page : Z;
  limit : Z
}.

(** The service: its reply to the request number [n] of the run. *)
Definition service := nat -> payload -> reply.

(** [bool(v)]. *)
Definition truthy (v : pyval) : bool :=
  match v with
  | PNone => false
  | PBool b => b
  | PInt z => negb (z =? 0)
  | PFloat f => negb (f =? 0)%float
  | PStr s => negb (String.eqb s "")
  | PList l => match l with [] => false | _ => true end
  | PDict d => match d with [] => false | _ => true end
  end.

(** The truth value of an optional argument: [None] and [""] are false. *)
Definition given (kw : option string) : option string :=
  match kw with
  | Some k => if String.eqb k "" then None else Some k
  | None => None
  end.

(** [list(v)]: the items of a list, the characters of a string, the keys of
    a dict. *)
Definition iterate (v : pyval) : res (list pyval) :=
  match v with
  | PList l => Ok l
  | PStr s => Ok (map (fun c => PStr (String c EmptyString)) (list_ascii_of_string s))
  | PDict d => Ok (map (fun kv => PStr (fst kv)) d)
  | PNone | PBool _ | PInt _ | PFloat _ => Raise TypeError
  end.

(** [v.lower()]; only a string has the method. *)
Definition py_lower (v : pyval) : res string :=
  match v with
  | PStr s => Ok (lower s)
  | _ => Raise AttributeError
  end.

(** [needle in hay] on strings. *)
Fixpoint contains (needle hay : string) : bool :=
  String.prefix needle hay
  || match hay with
     | String _ hay' => contains needle hay'
     | EmptyString => false
     end.

(** [[CGAC] if CGAC else []]. *)
Definition agency_codes (CGAC : option string) : list string :=
  match given CGAC with
  | Some c => [c]
  | None => []
  end.

(** [max_pages and page > max_pages]. *)
Definition reached (max_pages : option Z) (page : Z) : bool :=
  match max_pages with
  | Some m => negb (m =? 0) && (m <? page)
  | None => false
  end.

(** A service that has results for every request. *)
Definition always_results (net : service) : Prop :=
  forall n p, exists d r rest,
    net n p = Json (PDict d) /\ assoc "results" d = Some (PList (r :: rest)).

(** A record whose [field] is a string that holds [kw], whatever the case of
    the letters. *)
Definition matches (kw field : string) (r : pyval) : Prop :=
  exists name, py_get r field (PStr "") = Ok (PStr name)
               /\ contains (lower kw) (lower name) = true.

End Net.

(** CONSCRAPERFINAL.py, lines 15 to 62.  The loop has no bound of its own:
    [fuel] bounds the pages, and [None] is a run that has not ended within
    it.  A result comes with the number of requests made. *)
Module FetchFINAL.
Import Net.

Section Fetch.
Variable net : service.
Variable CGAC : option string.
Variable current_year : Z.
Variable max_pages : option Z.

Definition payload_of (page : Z) : payload :=
  {| awarding_agency_codes := agency_codes CGAC;
     start_year := current_year - 5;
     end_year := current_year;
     fields := ["award_id"; "recipient_name"; "action_date";
                "federal_action_obligation"; "awarding_agency_code";
                "awarding_agency_name"; "trend"];
     page := page;
     limit := 50 |}.

Fixpoint pages (fuel : nat) (page : Z) (n : nat) (output : list pyval)
  : option (res (list pyval) * nat) :=
  match fuel with
  | O => None
  | S fuel' =>
      match net n (payload_of page) with
      | RequestException => Some (Ok output, S n)
      | OtherValueError => Some (Raise ValueError, S n)
      | Json data =>
          match py_get data "results" (PList []) with
          | Raise e => Some (Raise e, S n)
          | Ok results =>
              if negb (truthy results) then Some (Ok output, S n)
              else
                match iterate results with
                | Raise e => Some (Raise e, S n)
                | Ok items =>
                    let output := output ++ items in
                    let page := page + 1 in
                    if reached max_pages page then Some (Ok output, S n)
                    else pages fuel' page (S n) output
                end
          end
      end
  end.

Definition get_awards_last_5_years (fuel : nat)
  : option (res (list pyval) * nat) :=
  pages fuel 1 0 [].
End Fetch.

End FetchFINAL.

(** CONSCRAPERV2.py, lines 23 to 89. *)
Module FetchV2.
Import Net.

Section Fetch.
Variable net : service.
Variable CGAC : option string.
Variable current_year : Z.
Variable max_pages : option Z.
Variables recipient_keyword agency_keyword : option string.
Variable max_retries : Z.

Definition payload_of (page : Z) : payload :=
  {| awarding_agency_codes := agency_codes CGAC;
     start_year := current_year - 5;
     end_year := current_year;
     fields := ["award_id"; "recipient_name"; "action_date";
                "federal_action_obligation"; "awarding_agency_code";
                "awarding_agency_name"];
     page := page;
     limit := 50 |}.

(** [while retries < max_retries and not success], with [left] the retries
    that remain: [Some data] is a success. *)
Fixpoint attempts (left : nat) (p : payload) (n : nat) : option pyval * nat :=
  match left with
  | O => (None, n)
  | S left' =>
      match net n p with
      | Json data => (Some data, S n)
      | RequestException => attempts left' p (S n)
      | OtherValueError => (None, S n)
      end
  end.

(** [[r for r in results if kw.lower() in r.get(field, "").lower()]]. *)
Fixpoint keep (kw field : string) (rs : list pyval) : res (list pyval) :=
  match rs with
  | r :: rest =>
      (name <- py_get r field (PStr "") ;;
       low <- py_lower name ;;
       rest' <- keep kw field rest ;;
       Ok (if contains (lower kw) low then r :: rest' else rest'))%py
  | [] => Ok []
  end.

(** [if kw: results = [...]]. *)
Definition filter_by (kw : option string) (field : string) (results : pyval)
  : res pyval :=
  match given kw with
  | Some k =>
      (rs <- iterate results ;;
       kept <- keep k field rs ;;
       Ok (PList kept))%py
  | None => Ok results
  end.

Fixpoint pages (fuel : nat) (page : Z) (n : nat) (output : list pyval)
  : option (res (list pyval) * nat) :=
  match fuel with
  | O => None
  | S fuel' =>
      match attempts (Z.to_nat max_retries) (payload_of page) n with
      | (None, n') => Some (Ok output, n')
      | (Some data, n') =>
          match py_get data "results" (PList []) with
          | Raise e => Some (Raise e, n')
          | Ok results =>
              if negb (truthy results) then Some (Ok output, n')
              else
                match (r1 <- filter_by recipient_keyword "recipient_name" results ;;
                       r2 <- filter_by agency_keyword "awarding_agency_name" r1 ;;
                       iterate r2)%py with
                | Raise e => Some (Raise e, n')
                | Ok items =>
                    let output := output ++ items in
                    let page := page + 1 in
                    if reached max_pages page then Some (Ok output, n')
                    else pages fuel' page n' output
                end
          end
      end
  end.

Definition get_awards_last_5_years (fuel : nat)
  : option (res (list pyval) * nat) :=
  pages fuel 1 0 [].
End Fetch.

End FetchV2.

(* ================================================================== *)
(** * More sample inputs *)
(* ================================================================== *)

Module Samples.
Import Net Examples.

(** One award over four years: 10, 100, 110 and 150. *)
Definition four_years : list pyval :=
  [award (PStr "W91-0001") "ACME" "2019-02-01" (PInt 10);
   award (PStr "W91-0001") "ACME" "2020-03-01" (PInt 100);
   award (PStr "W91-0001") "ACME" "2021-04-01" (PInt 110);
   award (PStr "W91-0001") "ACME" "2022-05-01" (PInt 150)].

(** An award whose recipient changes its name, and a last record without an
    amount. *)
Definition renamed : list pyval :=
  [award (PStr "W91-0001") "ACME" "2021-03-01" (PInt 100);
   award (PStr "W91-0001") "ACME Holdings" "2022-06-30" (PInt 130);
   award (PStr "W91-0001") "ACME Group" "2022-07-31" PNone].


(** A page of results. *)
Definition page_of (rs : list pyval) : reply :=
  Json (PDict [("results", PList rs)]).

(** A service with two pages of one record, and no results after them. *)
Definition two_pages : service :=
  fun _ p =>
    if page p =? 1 then
      page_of [award (PStr "W91-0001") "ACME" "2021-03-01" (PInt 100)]
    else if page p =? 2 then
      page_of [award (PStr "W91-0002") "Initech" "2022-01-15" (PInt 50)]
    else page_of [].

(** A service that has the same record on every page. *)
Definition endless : service :=
  fun _ _ => page_of [award (PStr "W91-0001") "ACME" "2021-03-01" (PInt 100)].

(** A service that fails every request. *)
Definition down : service := fun _ _ => RequestException.

(** A service whose first page holds a record without a recipient. *)
Definition nameless : service :=
  fun _ _ =>
    page_of [award (PStr "W91-0001") "ACME" "2021-03-01" (PInt 100);
             PDict [("award_id", PStr "W91-0002"); ("recipient_name", PNone)]].

(** The awards of two recipients: the rise and the fall of ACME, and a rise
    of Initech from 100 to 150. *)
Definition two_recipients : list pyval :=
  mixed
  ++ [award (PStr "W91-0003") "Initech" "2021-02-01" (PInt 100);
      award (PStr "W91-0003") "Initech" "2022-02-01" (PInt 150)].

(** The recipient rows of [data], for a set iterated in first-met order. *)
Definition pivot_of (data : list Engine.row) : list CONSCRAPERV2.recipient_row :=
  match CONSCRAPERV2.save_recipient_summary set_first_seen data years_2023 with
  | Ok rows => rows
  | Raise _ => []
  end.

(** A file of decreases that a run of the year before has left. *)
Definition old_row : Engine.row :=
  {| Engine.award_id := KStr "W90-0009";
     Engine.recipient_name := PStr "Globex";
     Engine.awarding_agency_code := PStr "";
     Engine.first_year := 2019;
     Engine.first_amount := 200%float;
     Engine.last_year := 2021;
     Engine.last_amount := 100%float;
     Engine.change_percent := (-50)%float;
     Engine.trend := "Decrease";
     Engine.total_5yr_funding := 300%float;
     Engine.funding :=
       [(2017, 0%float); (2018, 0%float); (2019, 200%float);
        (2020, 0%float); (2021, 100%float)];
     Engine.abs_change := 100%float |}.

Definition stale : Reports.files :=
  [("top_10_decreases.csv",
    Reports.Awards [2017; 2018; 2019; 2020; 2021] [old_row])].

End Samples.

Unset Implicit Arguments.

Module DictFacts.
Section Facts.
Context {K V : Type} (eq_dec : forall a b : K, {a = b} + {a <> b}).
Implicit Types (d : Dict.t (K := K) (V := V)) (k : K) (v : V).

Lemma lookup_setitem_eq k v d :
  Dict.lookup eq_dec k (Dict.setitem eq_dec k v d) = Some v.
Proof.
  induction d as [|[k' v'] d IH]; simpl.
  - destruct (eq_dec k k); congruence.
  - destruct (eq_dec k' k) as [E|E]; simpl.
    + destruct (eq_dec k' k); congruence.
    + destruct (eq_dec k' k); [contradiction | exact IH].
Qed.

Lemma lookup_setitem_neq k k' v d :
  k <> k' ->
  Dict.lookup eq_dec k' (Dict.setitem eq_dec k v d) = Dict.lookup eq_dec k' d.
Proof.
  intros N. induction d as [|[k0 v0] d IH]; simpl.
  - destruct (eq_dec k k'); [contradiction | reflexivity].
  - destruct (eq_dec k0 k) as [E|E]; simpl.
    + subst k0. destruct (eq_dec k k'); [contradiction | reflexivity].
    + destruct (eq_dec k0 k'); [reflexivity | exact IH].
Qed.

Lemma lookup_setitem k k' v d :
  Dict.lookup eq_dec k' (Dict.setitem eq_dec k v d)
  = if eq_dec k k' then Some v else Dict.lookup eq_dec k' d.
Proof.
  destruct (eq_dec k k') as [E|E].
  - subst. apply lookup_setitem_eq.
  - apply lookup_setitem_neq; assumption.
Qed.

Lemma setitem_setitem k v v' d :
  Dict.setitem eq_dec k v' (Dict.setitem eq_dec k v d) = Dict.setitem eq_dec k v' d.
Proof.
  induction d as [|[k0 v0] d IH]; simpl.
  - destruct (eq_dec k k); congruence.
  - destruct (eq_dec k0 k) as [E|E]; simpl.
    + destruct (eq_dec k0 k); congruence.
    + destruct (eq_dec k0 k); [contradiction | now rewrite IH].
Qed.

Lemma get_setitem_eq k v dflt d :
  Dict.get eq_dec k dflt (Dict.setitem eq_dec k v d) = v.
Proof. unfold Dict.get. now rewrite lookup_setitem_eq. Qed.

Lemma setitem_touch k v dflt d :
  Dict.setitem eq_dec k v (snd (Dict.touch eq_dec k dflt d))
  = Dict.setitem eq_dec k v d.
Proof.
  unfold Dict.touch. destruct (Dict.lookup eq_dec k d); simpl.
  - reflexivity.
  - apply setitem_setitem.
Qed.

Lemma get_touch k dflt d :
  Dict.get eq_dec k dflt (snd (Dict.touch eq_dec k dflt d))
  = Dict.get eq_dec k dflt d.
Proof.
  unfold Dict.touch, Dict.get.
  destruct (Dict.lookup eq_dec k d) eqn:E; simpl.
  - now rewrite E.
  - now rewrite lookup_setitem_eq.
Qed.

Lemma fst_touch k dflt d :
  fst (Dict.touch eq_dec k dflt d) = Dict.get eq_dec k dflt d.
Proof.
  unfold Dict.touch, Dict.get. now destruct (Dict.lookup eq_dec k d).
Qed.

Lemma lookup_touch k k' dflt d :
  Dict.lookup eq_dec k' (snd (Dict.touch eq_dec k dflt d))
  = if eq_dec k k' then Some (Dict.get eq_dec k dflt d)
    else Dict.lookup eq_dec k' d.
Proof.
  unfold Dict.touch, Dict.get.
  destruct (Dict.lookup eq_dec k d) eqn:E; simpl.
  - destruct (eq_dec k k'); [subst; exact E | reflexivity].
  - apply lookup_setitem.
Qed.

Lemma lookup_In k v d : Dict.lookup eq_dec k d = Some v -> In (k, v) d.
Proof.
  induction d as [|[k0 v0] d IH]; simpl; [discriminate|].
  destruct (eq_dec k0 k); intros H.
  - left. congruence.
  - right. auto.
Qed.

Lemma In_lookup k v d :
  NoDup (Dict.keys d) -> In (k, v) d -> Dict.lookup eq_dec k d = Some v.
Proof.
  induction d as [|[k0 v0] d IH]; simpl; [contradiction|].
  intros ND [H|H].
  - inversion H; subst. destruct (eq_dec k k); congruence.
  - inversion ND as [|? ? NI ND']; subst.
    destruct (eq_dec k0 k) as [E|E].
    + subst. exfalso. apply NI. change k with (fst (k, v)). now apply in_map.
    + auto.
Qed.

Lemma keys_setitem k v d :
  Dict.keys (Dict.setitem eq_dec k v d)
  = match Dict.lookup eq_dec k d with
    | Some _ => Dict.keys d
    | None => Dict.keys d ++ [k]
    end.
Proof.
  induction d as [|[k0 v0] d IH]; simpl; [reflexivity|].
  destruct (eq_dec k0 k); simpl; [reflexivity|].
  rewrite IH. unfold Dict.keys. now destruct (Dict.lookup eq_dec k d).
Qed.

Lemma lookup_None_keys k d :
  Dict.lookup eq_dec k d = None -> ~ In k (Dict.keys d).
Proof.
  induction d as [|[k0 v0] d IH]; simpl; [tauto|].
  destruct (eq_dec k0 k); [discriminate|]. intros H [E|I]; [contradiction|].
  now apply IH.
Qed.

Lemma NoDup_setitem k v d :
  NoDup (Dict.keys d) -> NoDup (Dict.keys (Dict.setitem eq_dec k v d)).
Proof.
  intros ND. rewrite keys_setitem.
  destruct (Dict.lookup eq_dec k d) eqn:E; [assumption|].
  apply NoDup_app; [assumption | repeat constructor; simpl; tauto |].
  intros x Hx [<-|[]]. now apply (lookup_None_keys _ _ E).
Qed.
End Facts.
End DictFacts.

(* ================================================================== *)
(** * Facts about the engine *)
(* ================================================================== *)

Import Engine Spec.

Module EngineFacts.

Lemma getitem_dict award f v : getitem award f = Ok v -> exists d, award = PDict d.
Proof. destruct award; simpl; try discriminate. eauto. Qed.

Lemma mk_info_dict fields d :
  exists info, mk_info fields (PDict d) = Ok info
    /\ forall f, In f fields -> assoc f info <> None.
Proof.
  induction fields as [|f fs [info [E H]]]; simpl.
  - exists []. split; [reflexivity|]. simpl. tauto.
  - rewrite E. simpl.
    destruct (assoc f d); simpl; eexists; (split; [reflexivity|]); intros g; simpl;
      (destruct (String.eqb_spec f g) as [->|N]; [congruence|]);
      intros [?|?]; [contradiction | auto | contradiction | auto].
Qed.

Lemma year_of_caught award e : year_of award = Raise e -> caught e = true.
Proof.
  unfold year_of. destruct award; simpl; try (intros [= <-]; reflexivity).
  destruct (assoc "action_date" d) as [v|]; simpl; [|intros [= <-]; reflexivity].
  destruct v; simpl; try (intros [= <-]; reflexivity).
  - destruct (int_of_str _); intros [= <-]; reflexivity.
Qed.

Lemma id_of_caught award e : id_of award = Raise e -> caught e = true.
Proof.
  unfold id_of. destruct award; simpl; try (intros [= <-]; reflexivity).
  destruct (assoc "award_id" d) as [v|]; simpl; [|intros [= <-]; reflexivity].
  destruct v as [| | [| |] | f | | |]; simpl; try discriminate;
    try (intros [= <-]; reflexivity).
  destruct (Prim2SF f); discriminate.
Qed.

Lemma years_cell_state k y ay :
  let '(_, d) := Dict.touch key_eq_dec k [] ay in
  let inner := Dict.get key_eq_dec k [] d in
  Dict.setitem key_eq_dec k (snd (Dict.touch Z.eq_dec y zero inner)) d
  = touch_cell k y ay
  /\ fst (Dict.touch Z.eq_dec y zero inner)
     = Dict.get Z.eq_dec y zero (Dict.get key_eq_dec k [] ay).
Proof.
  unfold touch_cell, Dict.touch at 1.
  destruct (Dict.lookup key_eq_dec k ay) as [ys|] eqn:E; cbv zeta.
  - split; [reflexivity | apply DictFacts.fst_touch].
  - rewrite DictFacts.get_setitem_eq, DictFacts.setitem_setitem.
    assert (G : Dict.get key_eq_dec k [] ay = []) by (unfold Dict.get; now rewrite E).
    rewrite G. split; [reflexivity | apply DictFacts.fst_touch].
Qed.

Lemma store_after_touch k y v ay :
  Dict.setitem key_eq_dec k
    (Dict.setitem Z.eq_dec y v (Dict.get key_eq_dec k [] (touch_cell k y ay)))
    (touch_cell k y ay)
  = Dict.setitem key_eq_dec k
      (Dict.setitem Z.eq_dec y v (Dict.get key_eq_dec k [] ay)) ay.
Proof.
  unfold touch_cell.
  rewrite DictFacts.get_setitem_eq, DictFacts.setitem_setitem, DictFacts.setitem_touch.
  reflexivity.
Qed.

Theorem try_one_spec fields award st :
  try_one fields award st = apply_effect (effect_of fields award) st.
Proof.
  unfold try_one, accumulate_one, effect_of, year_of, id_of, amount_of, mbind, lift.
  destruct award as [| | | | | |d]; try reflexivity.
  simpl.
  destruct (assoc "action_date" d) as [date|]; [|reflexivity]. simpl.
  destruct (slice4 date) as [head|e] eqn:Eh; simpl.
  2:{ destruct date; simpl in Eh; try discriminate; injection Eh as <-; reflexivity. }
  destruct (py_int head) as [year|e] eqn:Ey; simpl.
  2:{ destruct date; simpl in Eh; try discriminate; injection Eh as <-; simpl in Ey.
      - destruct (int_of_str _); [discriminate | injection Ey as <-; reflexivity].
      - injection Ey as <-; reflexivity. }
  destruct (assoc "award_id" d) as [id|]; [|reflexivity]. simpl.
  unfold years_of.
  destruct (hash_key id) as [k|e] eqn:Ek.
  2:{ destruct id as [| | [| |] | f | | |]; simpl in Ek; try discriminate;
        try (injection Ek as <-; reflexivity).
      destruct (Prim2SF f); discriminate. }
  pose proof (years_cell_state k year (award_years st)) as YC.
  destruct (Dict.touch key_eq_dec k [] (award_years st)) as [u ay1].
  unfold cell_of. simpl. cbv beta iota zeta in YC.
  destruct (Dict.touch Z.eq_dec year zero (Dict.get key_eq_dec k [] ay1)) as [old inner'].
  simpl in YC. destruct YC as [YC1 YC2]. rewrite YC1. subst old.
  destruct (assoc "federal_action_obligation" d) as [amount|]; [|reflexivity]. simpl.
  destruct (py_float amount) as [x|e] eqn:Ex; simpl.
  2:{ destruct (caught e); reflexivity. }
  rewrite store_after_touch.
  unfold info_for.
  destruct (mk_info_dict fields d) as [info [Em _]]. rewrite Em. simpl.
  unfold set_info. rewrite Ek. simpl. reflexivity.
Qed.

Lemma accumulate_spec fields data st :
  accumulate fields data st = run_effects (map (effect_of fields) data) st.
Proof.
  revert st. induction data as [|award rest IH]; intros st; simpl; [reflexivity|].
  unfold mbind. rewrite try_one_spec.
  destruct (apply_effect (effect_of fields award) st) as [[[]|e] st']; auto.
Qed.

(** ** The second loop *)

Lemma trend_row_spec l5 infos id years :
  trend_row l5 infos id years
  = match window years with
    | None => Ok None
    | Some (first, last) =>
        if qualifies (snd first) (snd last)
        then emit l5 infos id years first last
        else Ok None
    end.
Proof.
  unfold trend_row, window.
  destruct (lastn 3 (sorted years)) as [|[fy fa] [|second rest]]; try reflexivity.
  destruct (last (second :: rest) (fy, fa)) as [ly la] eqn:EL.
  unfold qualifies, truediv, change_of, zero. cbn [fst snd].
  destruct (fa =? 0)%float; cbn [negb andb bind]; [reflexivity|].
  destruct (threshold <=? abs ((la - fa) / fa))%float; reflexivity.
Qed.

Lemma collect_In l5 infos items rows :
  collect l5 infos items = Ok rows ->
  forall r, In r rows <->
    exists id years, In (id, years) items
                     /\ trend_row l5 infos id years = Ok (Some r).
Proof.
  revert rows. induction items as [|[id years] rest IH]; simpl; intros rows H r.
  - injection H as <-. simpl. split; [tauto | intros (? & ? & [] & _)].
  - destruct (trend_row l5 infos id years) as [o|e] eqn:ET; simpl in H; [|discriminate].
    destruct (collect l5 infos rest) as [rs|e] eqn:EC; simpl in H; [|discriminate].
    injection H as <-. specialize (IH rs eq_refl r).
    split.
    + intros HI. destruct o as [x|].
      * destruct HI as [<-|HI].
        -- exists id, years. split; [now left | assumption].
        -- apply IH in HI. destruct HI as (i & y & HI & HT).
           exists i, y. split; [now right | assumption].
      * apply IH in HI. destruct HI as (i & y & HI & HT).
        exists i, y. split; [now right | assumption].
    + intros (i & y & [HE|HI] & HT).
      * injection HE as <- <-. rewrite ET in HT. injection HT as ->. now left.
      * assert (In r rs) by (apply IH; eauto).
        destruct o; [now right | assumption].
Qed.

Lemma insert_desc_perm x l : Permutation (insert_desc x l) (x :: l).
Proof.
  induction l as [|y l IH]; simpl; [reflexivity|].
  destruct (change_percent x <? change_percent y)%float; [|reflexivity].
  rewrite IH. apply perm_swap.
Qed.

Lemma sort_desc_perm l : Permutation (sort_desc l) l.
Proof.
  induction l as [|x l IH]; simpl; [reflexivity|].
  rewrite insert_desc_perm. now constructor.
Qed.

Lemma insert_asc_perm x l : Permutation (insert_asc x l) (x :: l).
Proof.
  induction l as [|y l IH]; simpl; [reflexivity|].
  destruct (tuple_lt y x); [|reflexivity].
  rewrite IH. apply perm_swap.
Qed.

Lemma sorted_perm l : Permutation (sorted l) l.
Proof.
  induction l as [|x l IH]; simpl; [reflexivity|].
  rewrite insert_asc_perm. now constructor.
Qed.

Lemma lastn_incl {A} n (l : list A) x : In x (lastn n l) -> In x l.
Proof.
  unfold lastn. intros H. rewrite <- (firstn_skipn (List.length l - n) l).
  apply in_or_app. now right.
Qed.

Lemma lastn_length {A} n (l : list A) :
  List.length (lastn n l) = Nat.min n (List.length l).
Proof. unfold lastn. rewrite length_skipn. lia. Qed.

Lemma window_length years :
  window years = None <-> (List.length (lastn 3 (sorted years)) < 2)%nat.
Proof.
  unfold window.
  destruct (lastn 3 (sorted years)) as [|a [|b l]]; simpl; split;
    (reflexivity || lia || discriminate).
Qed.

Lemma window_years_length years :
  (List.length (lastn 3 (sorted years)) < 2)%nat
  <-> (List.length years < 2)%nat.
Proof.
  rewrite lastn_length, (Permutation_length (sorted_perm years)). lia.
Qed.

Lemma last_In {A} (l : list A) d : l <> [] -> In (last l d) l.
Proof.
  induction l as [|x [|y l] IH]; intros N; [contradiction | now left |].
  right. apply IH. discriminate.
Qed.

Lemma window_In years first last :
  window years = Some (first, last) -> In first years /\ In last years.
Proof.
  unfold window.
  destruct (lastn 3 (sorted years)) as [|a [|b l]] eqn:E; try discriminate.
  intros [= <- <-].
  assert (I : forall x, In x (a :: b :: l) -> In x years).
  { intros x Hx. rewrite <- E in Hx. apply lastn_incl in Hx.
    eapply Permutation_in; [apply sorted_perm | exact Hx]. }
  split; [apply I; now left|].
  apply I. right. change (In (last (b :: l) a) (b :: l)).
  apply last_In. discriminate.
Qed.

(** ** Invariants of the accumulation *)

Lemma amount_of_raise award e :
  amount_of award = Raise e -> caught e = false -> e = OverflowError.
Proof.
  unfold amount_of. destruct award; simpl; try (intros [= <-]; discriminate).
  destruct (assoc _ d) as [v|]; simpl; [|intros [= <-]; discriminate].
  destruct v; simpl; try (intros [= <-]; discriminate).
  - unfold float_of_int. destruct (is_infinity _); [|discriminate].
    intros [= <-]. reflexivity.
  - destruct (float_of_str s); [discriminate | intros [= <-]; discriminate].
Qed.

Lemma effect_of_ok fields award : complete fields -> effect_ok (effect_of fields award).
Proof.
  intros [C1 C2]. unfold effect_of.
  destruct (year_of award); simpl; [|exact I].
  destruct (id_of award); simpl; [|exact I].
  destruct (amount_of award) as [x|e] eqn:EA; simpl.
  - unfold amount_of in EA.
    destruct (getitem award "federal_action_obligation") as [v|] eqn:EG; [|discriminate].
    destruct (getitem_dict _ _ _ EG) as [d ->].
    unfold info_for. destruct (mk_info_dict fields d) as [info [-> H]].
    split; apply H; assumption.
  - destruct (caught e) eqn:EC; simpl; [exact I|].
    eapply amount_of_raise; eassumption.
Qed.

Lemma In_setitem {K V} (eq_dec : forall a b : K, {a = b} + {a <> b})
  k (v : V) d k' v' :
  In (k', v') (Dict.setitem eq_dec k v d) ->
  (k' = k /\ v' = v) \/ In (k', v') d.
Proof.
  induction d as [|[k0 v0] d IH]; simpl.
  - intros [[= <- <-]|[]]. now left.
  - destruct (eq_dec k0 k) as [E|E]; simpl.
    + intros [[= <- <-]|H]; [left; split; congruence | right; now right].
    + intros [H|H]; [right; now left|].
      destruct (IH H) as [?|?]; [now left | right; now right].
Qed.

Lemma get_Some {K V} (eq_dec : forall a b : K, {a = b} + {a <> b}) k (dflt v : V) d :
  Dict.lookup eq_dec k d = Some v -> Dict.get eq_dec k dflt d = v.
Proof. unfold Dict.get. now intros ->. Qed.

Lemma get_None {K V} (eq_dec : forall a b : K, {a = b} + {a <> b}) k (dflt : V) d :
  Dict.lookup eq_dec k d = None -> Dict.get eq_dec k dflt d = dflt.
Proof. unfold Dict.get. now intros ->. Qed.

Lemma all_zero_touch y years :
  all_zero years -> all_zero (snd (Dict.touch Z.eq_dec y zero years)).
Proof.
  intros AZ. unfold Dict.touch.
  destruct (Dict.lookup Z.eq_dec y years); simpl; [assumption|].
  intros y' v' H. apply In_setitem in H. destruct H as [[_ ->]|H]; [reflexivity|].
  eapply AZ; eassumption.
Qed.

Lemma inv_empty : inv empty.
Proof. split; simpl; [constructor | discriminate]. Qed.

Lemma inv_step ef st st' u :
  effect_ok ef -> inv st -> apply_effect ef st = (Ok u, st') -> inv st'.
Proof.
  intros OK [ND I] H. destruct ef as [|k y|k y x info|k y e]; simpl in H.
  - injection H as _ <-. split; assumption.
  - injection H as _ <-. split; simpl.
    + apply DictFacts.NoDup_setitem; assumption.
    + intros k0 years. unfold touch_cell. rewrite DictFacts.lookup_setitem.
      destruct (key_eq_dec k k0) as [<-|N].
      * intros [= <-].
        destruct (Dict.lookup key_eq_dec k (award_years st)) as [ys|] eqn:E.
        -- rewrite (get_Some _ _ _ _ _ E).
           destruct (I _ _ E) as [AZ|HI]; [left; now apply all_zero_touch | right; exact HI].
        -- rewrite (get_None _ _ _ _ E). left. apply all_zero_touch. intros ? ? [].
      * apply I.
  - injection H as _ <-. split; simpl.
    + apply DictFacts.NoDup_setitem; assumption.
    + intros k0 years. unfold add_cell.
      rewrite !DictFacts.lookup_setitem.
      destruct (key_eq_dec k k0) as [<-|N].
      * intros _. right. exists info. split; [reflexivity | exact OK].
      * apply I.
  - discriminate.
Qed.

Lemma run_effects_inv efs : forall st st' u,
  Forall effect_ok efs -> inv st -> run_effects efs st = (Ok u, st') -> inv st'.
Proof.
  induction efs as [|ef efs IH]; simpl; intros st st' u F I H.
  - injection H as _ <-. assumption.
  - inversion F as [|? ? OK F']; subst.
    destruct (apply_effect ef st) as [[[]|e] st1] eqn:E; [|discriminate].
    eapply IH; [eassumption | | eassumption].
    eapply inv_step; eassumption.
Qed.

Lemma run_effects_raise efs : forall st st' e,
  Forall effect_ok efs -> run_effects efs st = (Raise e, st') -> e = OverflowError.
Proof.
  induction efs as [|ef efs IH]; simpl; intros st st' e F H; [discriminate|].
  inversion F as [|? ? OK F']; subst.
  destruct (apply_effect ef st) as [[[]|e1] st1] eqn:E.
  - eapply IH; eassumption.
  - injection H as <- <-. destruct ef; simpl in E; try discriminate.
    injection E as <- _. exact OK.
Qed.

Lemma effects_ok fields data :
  complete fields -> Forall effect_ok (map (effect_of fields) data).
Proof.
  intros C. apply Forall_forall. intros ef H. apply in_map_iff in H.
  destruct H as (a & <- & _). now apply effect_of_ok.
Qed.

Lemma accumulate_inv fields data u st :
  complete fields -> accumulate fields data empty = (Ok u, st) -> inv st.
Proof.
  intros C H. rewrite accumulate_spec in H.
  eapply run_effects_inv; [| | eassumption];
    [apply effects_ok; assumption | apply inv_empty].
Qed.

Lemma emit_ok l5 infos id years first last info :
  Dict.lookup key_eq_dec id infos = Some info -> good_info info ->
  exists rn ac, emit l5 infos id years first last
                = Ok (Some (row_of l5 id years rn ac first last)).
Proof.
  intros L [G1 G2]. unfold emit, info_of, info_get. rewrite L. simpl.
  destruct (assoc "recipient_name" info) as [rn|]; [|contradiction].
  destruct (assoc "awarding_agency_code" info) as [ac|]; [|contradiction].
  simpl. eauto.
Qed.

Lemma trend_row_ok l5 st id years :
  inv st -> In (id, years) (award_years st) ->
  exists o, trend_row l5 (award_info st) id years = Ok o.
Proof.
  intros [ND I] HI. rewrite trend_row_spec.
  destruct (window years) as [[first last]|] eqn:W; [|eauto].
  destruct (qualifies (snd first) (snd last)) eqn:Q; [|eauto].
  apply DictFacts.In_lookup with (eq_dec := key_eq_dec) in HI; [|assumption].
  destruct (I _ _ HI) as [AZ|(info & L & G)].
  - exfalso. apply window_In in W. destruct W as [W _].
    destruct first as [fy fa]. rewrite (AZ _ _ W) in Q. vm_compute in Q. discriminate.
  - destruct (emit_ok l5 _ _ years first last _ L G) as (rn & ac & ->). eauto.
Qed.

Lemma collect_ok l5 infos items :
  (forall id years, In (id, years) items ->
                    exists o, trend_row l5 infos id years = Ok o) ->
  exists rows, collect l5 infos items = Ok rows.
Proof.
  induction items as [|[id years] rest IH]; simpl; intros H; [eauto|].
  destruct (H id years (or_introl eq_refl)) as [o ->]. simpl.
  destruct IH as [rs ->]; [intros; apply H; now right|]. simpl. eauto.
Qed.

(** The engine returns, unless an integer amount is beyond the range of a
    float. *)
Theorem filter_returns fields cy data :
  complete fields ->
  (exists rows, filter_20_percent_change fields cy data
                = Ok (rows, last_5_years cy))
  \/ filter_20_percent_change fields cy data = Raise OverflowError.
Proof.
  intros C. unfold filter_20_percent_change.
  destruct (accumulate fields data empty) as [[[]|e] st] eqn:E.
  - left. pose proof (accumulate_inv _ _ _ _ C E) as I.
    destruct (collect_ok (last_5_years cy) (award_info st) (award_years st)) as [rows ->].
    + intros. now apply trend_row_ok.
    + simpl. eauto.
  - right. rewrite accumulate_spec in E.
    apply run_effects_raise in E; [now subst | now apply effects_ok].
Qed.

Lemma complete_final : complete CONSCRAPERFINAL.fields.
Proof. split; simpl; tauto. Qed.


Lemma filter_rows fields cy data rows l5 :
  filter_20_percent_change fields cy data = Ok (rows, l5) ->
  completes fields data
  /\ l5 = last_5_years cy
  /\ forall r, In r rows <->
       exists id years,
         In (id, years) (accumulator fields data)
         /\ trend_row l5 (award_info (snd (accumulate fields data empty))) id years
            = Ok (Some r).
Proof.
  unfold filter_20_percent_change, completes, accumulator.
  destruct (accumulate fields data empty) as [[[]|e] st]; [|discriminate].
  destruct (collect _ _ _) as [filtered|e] eqn:EC; simpl; [|discriminate].
  intros [= <- <-]. split; [reflexivity|]. split; [reflexivity|].
  intros r. rewrite <- (collect_In _ _ _ _ EC r).
  split; apply Permutation_in; [|symmetry]; apply sort_desc_perm.
Qed.

Lemma row_shape l5 infos id years r :
  trend_row l5 infos id years = Ok (Some r) ->
  exists first last rn ac,
    window years = Some (first, last)
    /\ qualifies (snd first) (snd last) = true
    /\ r = row_of l5 id years rn ac first last.
Proof.
  rewrite trend_row_spec.
  destruct (window years) as [[first last]|]; [|discriminate].
  destruct (qualifies _ _) eqn:Q; [|discriminate].
  unfold emit, info_get.
  destruct (info_of infos id) as [info|]; simpl; [|discriminate].
  destruct (assoc "recipient_name" info) as [rn|]; simpl; [|discriminate].
  destruct (assoc "awarding_agency_code" info) as [ac|]; simpl; [|discriminate].
  intros [= <-]. exists first, last, rn, ac. repeat split. exact Q.
Qed.

Lemma accumulator_NoDup fields data :
  complete fields -> completes fields data ->
  NoDup (Dict.keys (accumulator fields data)).
Proof.
  unfold completes, accumulator. intros C H.
  destruct (accumulate fields data empty) as [r st] eqn:E. simpl in *. subst r.
  apply (accumulate_inv _ _ _ _ C E).
Qed.

(** Every row is the row of one entry of the accumulator. *)
Lemma row_of_entry fields cy data rows l5 r :
  complete fields ->
  filter_20_percent_change fields cy data = Ok (rows, l5) ->
  In r rows ->
  exists years first last rn ac,
    Dict.lookup key_eq_dec (award_id r) (accumulator fields data) = Some years
    /\ window years = Some (first, last)
    /\ qualifies (snd first) (snd last) = true
    /\ r = row_of l5 (award_id r) years rn ac first last.
Proof.
  intros C F HI. destruct (filter_rows _ _ _ _ _ F) as (Hc & -> & HR).
  apply HR in HI. destruct HI as (id & years & HI & HT).
  destruct (row_shape _ _ _ _ _ HT) as (first & last & rn & ac & W & Q & ->).
  exists years, first, last, rn, ac. simpl. repeat split; try assumption.
  apply DictFacts.In_lookup; [|assumption]. now apply accumulator_NoDup.
Qed.

End EngineFacts.

Import EngineFacts.

Module FloatFacts.

Lemma Prim2SF_zero : Prim2SF 0 = S754_zero false.
Proof. reflexivity. Qed.

Lemma ltb_zero_r x : (x <? 0)%float = true <-> sgn (Prim2SF x) = Some Lt.
Proof.
  rewrite ltb_spec, Prim2SF_zero. unfold SFltb.
  destruct (Prim2SF x) as [s|s| |s m e]; simpl; try destruct s; simpl;
    split; congruence.
Qed.

Lemma ltb_zero_l x : (0 <? x)%float = true <-> sgn (Prim2SF x) = Some Gt.
Proof.
  rewrite ltb_spec, Prim2SF_zero. unfold SFltb.
  destruct (Prim2SF x) as [s|s| |s m e]; simpl; try destruct s; simpl;
    split; congruence.
Qed.

Lemma eqb_zero_r x : (x =? 0)%float = true <-> sgn (Prim2SF x) = Some Eq.
Proof.
  rewrite eqb_spec, Prim2SF_zero. unfold SFeqb.
  destruct (Prim2SF x) as [s|s| |s m e]; simpl; try destruct s; simpl;
    split; congruence.
Qed.

Lemma round_aux_sgn s m e l :
  let r := binary_round_aux prec emax s m e l in
  sgn r = None \/ sgn r = Some Eq \/ sgn r = Some (if s then Lt else Gt).
Proof.
  cbv zeta. unfold binary_round_aux.
  destruct (shr_fexp prec emax m e l) as [mrs' e'].
  destruct (shr_fexp prec emax _ e' loc_Exact) as [mrs'' e''].
  destruct (shr_m mrs''); simpl; auto.
  destruct (e'' <=? 971); simpl; auto.
Qed.

(** The sign of a quotient by a negative divisor: NaN, zero, or the
    opposite of the dividend's. *)
Lemma div_neg_sgn d f :
  sgn (Prim2SF f) = Some Lt ->
  let c := Prim2SF (d / f) in
  sgn c = None \/ sgn c = Some Eq
  \/ (sgn c = flip (sgn (Prim2SF d)) /\ sgn (Prim2SF d) <> Some Eq).
Proof.
  cbv zeta. rewrite div_spec. unfold SF64div.
  destruct (Prim2SF f) as [sf|sf| |sf mf ef]; simpl; try discriminate;
    destruct sf; try discriminate; intros _;
    destruct (Prim2SF d) as [sd|sd| |sd md ed]; simpl; auto.
  - destruct sd; simpl; right; right; split; congruence.
  - destruct (SFdiv_core_binary prec emax (Z.pos md) ed (Z.pos mf) ef) as [[mz ez] lz].
    destruct (round_aux_sgn (xorb sd true) mz ez lz) as [H|[H|H]]; auto.
    right; right. rewrite H. destruct sd; simpl; split; congruence.
Qed.

Lemma threshold_sgn c :
  (threshold <=? abs c)%float = true ->
  sgn (Prim2SF c) = Some Lt \/ sgn (Prim2SF c) = Some Gt.
Proof.
  rewrite leb_spec, abs_spec.
  set (T := Prim2SF threshold). vm_compute in T. subst T.
  unfold SFleb.
  destruct (Prim2SF c) as [s|s| |s m e]; simpl; try discriminate;
    destruct s; auto.
Qed.

Lemma bool_eq_iff (a b : bool) : (a = true <-> b = true) -> a = b.
Proof. destruct a, b; intros [H1 H2]; auto; try (symmetry; auto). Qed.

Theorem negative_baseline_signs f l :
  (f <? 0)%float = true ->
  let c := change_of f l in
  let d := (l - f)%float in
  (f =? 0)%float = false
  /\ ((0 <? d)%float = true -> (0 <? c)%float = false)
  /\ ((d <? 0)%float = true -> (c <? 0)%float = false)
  /\ ((threshold <=? abs c)%float = true ->
      (0 <? c)%float = (d <? 0)%float /\ (c <? 0)%float = (0 <? d)%float).
Proof.
  intros N. cbv zeta. unfold change_of. apply ltb_zero_r in N.
  pose proof (div_neg_sgn (l - f) f N) as S. cbv zeta in S.
  set (c := ((l - f) / f)%float) in *. set (d := (l - f)%float) in *.
  clearbody c d.
  split.
  { destruct (f =? 0)%float eqn:E; [|reflexivity].
    apply eqb_zero_r in E. congruence. }
  split.
  { intros P. apply ltb_zero_l in P. rewrite P in S.
    destruct (0 <? c)%float eqn:E; [|reflexivity].
    apply ltb_zero_l in E. simpl in S.
    destruct S as [S|[S|[S _]]]; congruence. }
  split.
  { intros P. apply ltb_zero_r in P. rewrite P in S.
    destruct (c <? 0)%float eqn:E; [|reflexivity].
    apply ltb_zero_r in E. simpl in S.
    destruct S as [S|[S|[S _]]]; congruence. }
  intros T. apply threshold_sgn in T.
  destruct S as [S|[S|[S SD]]]; [destruct T; congruence | destruct T; congruence|].
  split; apply bool_eq_iff; rewrite ?ltb_zero_l, ?ltb_zero_r, S;
    destruct (sgn (Prim2SF d)) as [[]|]; simpl; split; congruence.
Qed.

End FloatFacts.

Module HintFacts.

Lemma getitem_sim a b f :
  same_but_trend a b -> f <> "trend" -> getitem a f = getitem b f.
Proof.
  destruct a, b; simpl; intros H N; try discriminate; try reflexivity;
    try (injection H as <-; reflexivity).
  now rewrite (H f N).
Qed.

Lemma if_in_cons {A} (f g : string) fs (x y : A) :
  (if in_dec string_dec f (g :: fs) then x else y)
  = if String.eqb g f then x else if in_dec string_dec f fs then x else y.
Proof.
  destruct (in_dec string_dec f (g :: fs)) as [I|I],
           (String.eqb_spec g f) as [E|E],
           (in_dec string_dec f fs) as [J|J]; try reflexivity; exfalso.
  - destruct I; contradiction.
  - apply I. now left.
  - apply I. now left.
  - apply I. now right.
Qed.

Lemma assoc_mk_info fields d f :
  assoc f (info_for fields (PDict d))
  = if in_dec string_dec f fields
    then Some (match assoc f d with Some v => v | None => PStr "" end)
    else None.
Proof.
  unfold info_for. induction fields as [|g fs IH]; [reflexivity|].
  rewrite if_in_cons. cbn [mk_info]. unfold py_get at 1.
  destruct (mk_info fs (PDict d)) as [rest|e] eqn:E.
  - destruct (assoc g d) as [v|] eqn:Ev; cbn [bind assoc];
      destruct (String.eqb_spec g f) as [->|N]; try (rewrite Ev; reflexivity);
      exact IH.
  - exfalso. destruct (mk_info_dict fs d) as [info [E' _]]. congruence.
Qed.

Lemma effect_of_sim fields a b :
  same_but_trend a b ->
  effect_sim (effect_of fields a) (effect_of fields b).
Proof.
  intros S. unfold effect_of, year_of, id_of, amount_of.
  rewrite !(getitem_sim a b) by (assumption || discriminate).
  destruct (bind (getitem b "action_date") _); simpl; [|reflexivity].
  destruct (bind (getitem b "award_id") _); simpl; [|reflexivity].
  destruct (getitem b "federal_action_obligation") as [v|e] eqn:G; simpl.
  2:{ destruct (caught e); reflexivity. }
  destruct (py_float v) as [x|e]; [|destruct (caught e); reflexivity].
  repeat split.
  destruct (getitem_dict _ _ _ G) as [d2 ->].
  destruct a as [| | | | | |d1]; cbn [same_but_trend] in S; try discriminate.
  intros f N. rewrite !assoc_mk_info, (S f N). reflexivity.
Qed.

Lemma infos_sim_setitem k i1 i2 a b :
  info_sim i1 i2 -> infos_sim a b ->
  infos_sim (Dict.setitem key_eq_dec k i1 a) (Dict.setitem key_eq_dec k i2 b).
Proof.
  intros I F. induction F as [|[k1 v1] [k2 v2] a b [E S] F IH]; simpl.
  - repeat constructor; assumption.
  - simpl in E. subst k2. destruct (key_eq_dec k1 k).
    + constructor; [split; [reflexivity | assumption] | assumption].
    + constructor; [split; [reflexivity | assumption] | exact IH].
Qed.

Lemma apply_effect_sim e1 e2 s1 s2 :
  effect_sim e1 e2 -> state_sim s1 s2 ->
  fst (apply_effect e1 s1) = fst (apply_effect e2 s2)
  /\ state_sim (snd (apply_effect e1 s1)) (snd (apply_effect e2 s2)).
Proof.
  intros E [Y I].
  destruct e1 as [|k1 y1|k1 y1 x1 i1|k1 y1 x1], e2 as [|k2 y2|k2 y2 x2 i2|k2 y2 x2];
    simpl in E; try discriminate.
  - simpl. repeat split; assumption.
  - injection E as <- <-. simpl. unfold state_sim. simpl. rewrite Y. auto.
  - destruct E as (<- & <- & <- & S). simpl. unfold state_sim. simpl. rewrite Y.
    split; [reflexivity|]. split; [reflexivity|]. now apply infos_sim_setitem.
  - injection E as <- <- <-. simpl. unfold state_sim. simpl. rewrite Y. auto.
Qed.

Lemma run_effects_sim l1 l2 :
  Forall2 effect_sim l1 l2 -> forall s1 s2, state_sim s1 s2 ->
  fst (run_effects l1 s1) = fst (run_effects l2 s2)
  /\ state_sim (snd (run_effects l1 s1)) (snd (run_effects l2 s2)).
Proof.
  induction 1 as [|e1 e2 l1 l2 E F IH]; intros s1 s2 S; simpl; [auto|].
  destruct (apply_effect_sim _ _ _ _ E S) as [A B].
  destruct (apply_effect e1 s1) as [r1 t1], (apply_effect e2 s2) as [r2 t2].
  simpl in A, B. subst r2. destruct r1 as [[]|e]; [now apply IH | auto].
Qed.

Lemma lookup_sim k a b :
  infos_sim a b ->
  match Dict.lookup key_eq_dec k a, Dict.lookup key_eq_dec k b with
  | Some i1, Some i2 => info_sim i1 i2
  | None, None => True
  | _, _ => False
  end.
Proof.
  induction 1 as [|[k1 v1] [k2 v2] a b [E S] F IH]; simpl; [exact I|].
  simpl in E. subst k2. destruct (key_eq_dec k1 k); assumption.
Qed.

Lemma emit_sim l5 a b id years first last :
  infos_sim a b ->
  emit l5 a id years first last = emit l5 b id years first last.
Proof.
  intros S. unfold emit, info_of, info_get.
  pose proof (lookup_sim id _ _ S) as L.
  destruct (Dict.lookup key_eq_dec id a) as [i1|],
           (Dict.lookup key_eq_dec id b) as [i2|]; try contradiction;
    [|reflexivity].
  simpl. rewrite !(L "recipient_name"), !(L "awarding_agency_code") by discriminate.
  reflexivity.
Qed.

Lemma collect_sim l5 a b items :
  infos_sim a b -> collect l5 a items = collect l5 b items.
Proof.
  intros S. induction items as [|[id years] rest IH]; simpl; [reflexivity|].
  rewrite IH, !trend_row_spec.
  destruct (window years) as [[first last]|]; [|reflexivity].
  destruct (qualifies _ _); [|reflexivity].
  now rewrite (emit_sim l5 a b).
Qed.

Theorem hint_ignored fields cy d1 d2 :
  Forall2 same_but_trend d1 d2 ->
  filter_20_percent_change fields cy d1 = filter_20_percent_change fields cy d2.
Proof.
  intros F.
  unfold filter_20_percent_change.
  rewrite !accumulate_spec.
  assert (FE : Forall2 effect_sim (map (effect_of fields) d1)
                                  (map (effect_of fields) d2)).
  { induction F; simpl; constructor; [now apply effect_of_sim | assumption]. }
  destruct (run_effects_sim _ _ FE empty empty) as [A [Y I]].
  { split; [reflexivity | constructor]. }
  destruct (run_effects _ empty) as [r1 s1], (run_effects _ empty) as [r2 s2].
  simpl in A, Y, I. subst r2. destruct r1 as [[]|e]; [|reflexivity].
  now rewrite Y, (collect_sim _ _ _ _ I).
Qed.

End HintFacts.

Module CellFacts.

Lemma cell_setitem k y k' inner (ay : award_years_t) :
  cell k y (Dict.setitem key_eq_dec k' inner ay)
  = if key_eq_dec k' k then Dict.lookup Z.eq_dec y inner else cell k y ay.
Proof.
  unfold cell. rewrite DictFacts.lookup_setitem.
  destruct (key_eq_dec k' k); reflexivity.
Qed.

Lemma lookup_get k y (ay : award_years_t) :
  Dict.lookup Z.eq_dec y (Dict.get key_eq_dec k [] ay) = cell k y ay.
Proof.
  unfold cell. destruct (Dict.lookup key_eq_dec k ay) as [ys|] eqn:E.
  - now rewrite (get_Some _ _ _ _ _ E).
  - now rewrite (get_None _ _ _ _ E).
Qed.

Lemma get_cell k y (ay : award_years_t) :
  Dict.get Z.eq_dec y zero (Dict.get key_eq_dec k [] ay)
  = match cell k y ay with Some v => v | None => zero end.
Proof. unfold Dict.get at 1. now rewrite lookup_get. Qed.

Lemma cell_touch k y k' y' (ay : award_years_t) :
  cell k y (touch_cell k' y' ay)
  = if key_eq_dec k' k
    then if Z.eq_dec y' y then cell_step (cell k y ay) None else cell k y ay
    else cell k y ay.
Proof.
  unfold touch_cell. rewrite cell_setitem.
  destruct (key_eq_dec k' k) as [->|N]; [|reflexivity].
  rewrite DictFacts.lookup_touch, lookup_get.
  destruct (Z.eq_dec y' y) as [->|N]; [|reflexivity].
  rewrite get_cell. unfold cell_step. now destruct (cell k y ay).
Qed.

Lemma cell_add k y k' y' x (ay : award_years_t) :
  cell k y (add_cell k' y' x ay)
  = if key_eq_dec k' k
    then if Z.eq_dec y' y then cell_step (cell k y ay) (Some x) else cell k y ay
    else cell k y ay.
Proof.
  unfold add_cell. rewrite cell_setitem.
  destruct (key_eq_dec k' k) as [->|N]; [|reflexivity].
  rewrite DictFacts.lookup_setitem, lookup_get.
  destruct (Z.eq_dec y' y) as [->|N]; [|reflexivity].
  rewrite get_cell. reflexivity.
Qed.

Lemma cell_apply ef st st' u k y :
  apply_effect ef st = (Ok u, st') ->
  cell k y (award_years st')
  = match cell_event k y ef with
    | Some ev => cell_step (cell k y (award_years st)) ev
    | None => cell k y (award_years st)
    end.
Proof.
  destruct ef as [|k' y'|k' y' x info|k' y' e]; cbn [apply_effect cell_event];
    intros H; try discriminate; injection H as _ <-; cbn [award_years];
    try reflexivity.
  - rewrite cell_touch. destruct (key_eq_dec k' k), (Z.eq_dec y' y); reflexivity.
  - rewrite cell_add. destruct (key_eq_dec k' k), (Z.eq_dec y' y); reflexivity.
Qed.

Lemma cell_run efs : forall st st' u k y,
  run_effects efs st = (Ok u, st') ->
  cell k y (award_years st')
  = fold_left cell_step (events k y efs) (cell k y (award_years st)).
Proof.
  induction efs as [|ef efs IH]; simpl; intros st st' u k y H.
  - injection H as _ <-. reflexivity.
  - destruct (apply_effect ef st) as [[v|e] st1] eqn:E; [|discriminate].
    rewrite (IH _ _ _ k y H), (cell_apply _ _ _ _ k y E).
    destruct (cell_event k y ef); reflexivity.
Qed.

(** Every cell holds the left-to-right sum of its own records. *)
Theorem cell_accumulated fields data k y :
  completes fields data ->
  cell k y (accumulator fields data)
  = cell_value (cell_events fields k y data).
Proof.
  unfold completes, accumulator, cell_events. rewrite accumulate_spec.
  destruct (run_effects _ empty) as [r st] eqn:E. simpl. intros ->.
  now rewrite (cell_run _ _ _ _ k y E).
Qed.

Lemma run_completes efs : forall st,
  fst (run_effects efs st) = Ok tt <-> Forall (fun ef => aborts ef = false) efs.
Proof.
  induction efs as [|ef efs IH]; simpl; intros st.
  - split; [constructor | reflexivity].
  - destruct ef as [|k y|k y x info|k y e]; simpl;
      try (rewrite IH; split; [intros H; constructor; [reflexivity | exact H]
                              | intros H; now inversion H]).
    split; [discriminate | intros H; inversion H; discriminate].
Qed.

Lemma completes_perm fields d1 d2 :
  Permutation d1 d2 -> completes fields d1 -> completes fields d2.
Proof.
  unfold completes. rewrite !accumulate_spec, !run_completes.
  intros P F. eapply Permutation_Forall; [|exact F].
  now apply Permutation_map.
Qed.

Lemma cell_value_None evs : cell_value evs = None <-> evs = [].
Proof.
  unfold cell_value. destruct evs as [|ev evs]; simpl; [tauto|].
  split; [|discriminate]. intros H. exfalso. revert H.
  assert (G : forall l c0, c0 <> None -> fold_left cell_step l c0 <> None).
  { induction l as [|e l IH]; simpl; intros c0 N; [assumption|].
    apply IH. unfold cell_step. discriminate. }
  apply G. unfold cell_step. discriminate.
Qed.

Lemma events_nil k y efs :
  events k y efs = [] <-> Forall (fun ef => cell_event k y ef = None) efs.
Proof.
  induction efs as [|ef efs IH]; simpl; [split; [constructor | reflexivity]|].
  destruct (cell_event k y ef) eqn:E.
  - split; [discriminate | intros H; inversion H; congruence].
  - rewrite IH. split; [intros H; now constructor | intros H; now inversion H].
Qed.

Lemma cell_None_perm fields d1 d2 k y :
  Permutation d1 d2 -> completes fields d1 -> completes fields d2 ->
  cell k y (accumulator fields d1) = None ->
  cell k y (accumulator fields d2) = None.
Proof.
  intros P C1 C2. rewrite !cell_accumulated, !cell_value_None by assumption.
  unfold cell_events. rewrite !events_nil.
  apply Permutation_Forall. now apply Permutation_map.
Qed.

End CellFacts.

Import CONSCRAPERV2.
Import Engine.

Module RollupFacts.

Lemma get_setitem (y y' : Z) (v : float) (d : years_t) :
  Dict.get Z.eq_dec y zero (Dict.setitem Z.eq_dec y' v d)
  = if Z.eq_dec y' y then v else Dict.get Z.eq_dec y zero d.
Proof.
  unfold Dict.get. rewrite DictFacts.lookup_setitem.
  destruct (Z.eq_dec y' y); reflexivity.
Qed.

Lemma get_add_to y y' v d :
  Dict.get Z.eq_dec y zero (add_to y' v d)
  = if Z.eq_dec y' y then (Dict.get Z.eq_dec y zero d + v)%float
    else Dict.get Z.eq_dec y zero d.
Proof.
  unfold add_to. rewrite get_setitem.
  destruct (Z.eq_dec y' y) as [->|]; reflexivity.
Qed.

Lemma get_zero_by_year y l5 : Dict.get Z.eq_dec y zero (zero_by_year l5) = zero.
Proof.
  unfold zero_by_year.
  assert (G : forall d, Dict.get Z.eq_dec y zero d = zero ->
                        Dict.get Z.eq_dec y zero
                          (fold_left (fun d y => Dict.setitem Z.eq_dec y zero d) l5 d)
                        = zero).
  { induction l5 as [|y' l IH]; simpl; intros d H; [assumption|].
    apply IH. rewrite get_setitem. now destruct (Z.eq_dec y' y). }
  apply G. reflexivity.
Qed.

Lemma get_add_funding y award l5 : forall d,
  NoDup l5 -> In y l5 ->
  Dict.get Z.eq_dec y zero (add_funding l5 d award)
  = (Dict.get Z.eq_dec y zero d + funding_of y award)%float.
Proof.
  unfold add_funding.
  assert (Out : forall l d, ~ In y l ->
            Dict.get Z.eq_dec y zero
              (fold_left (fun d y => add_to y (funding_of y award) d) l d)
            = Dict.get Z.eq_dec y zero d).
  { induction l as [|y' l IH]; simpl; intros d N; [reflexivity|].
    rewrite IH by tauto. rewrite get_add_to.
    destruct (Z.eq_dec y' y); [exfalso; tauto | reflexivity]. }
  induction l5 as [|y' l IH]; simpl; intros d ND HI; [contradiction|].
  inversion ND as [|? ? NI ND']; subst.
  destruct (Z.eq_dec y' y) as [->|N].
  - rewrite Out by assumption. rewrite get_add_to.
    destruct (Z.eq_dec y y); [reflexivity | contradiction].
  - destruct HI as [E|HI]; [contradiction|].
    rewrite IH by assumption. rewrite get_add_to.
    destruct (Z.eq_dec y' y); [contradiction | reflexivity].
Qed.

Lemma totals_by_year y l5 data : forall d,
  NoDup l5 -> In y l5 ->
  Dict.get Z.eq_dec y zero (fold_left (add_funding l5) data d)
  = fold_left PrimFloat.add (map (funding_of y) data) (Dict.get Z.eq_dec y zero d).
Proof.
  induction data as [|a rest IH]; simpl; intros d ND HI; [reflexivity|].
  rewrite IH by assumption. now rewrite get_add_funding.
Qed.

Lemma total_funding data : forall t,
  fold_left (fun t award => (t + total_5yr_funding award)%float) data t
  = fold_left PrimFloat.add (map total_5yr_funding data) t.
Proof. induction data as [|a rest IH]; simpl; intros t; [reflexivity | apply IH]. Qed.

Lemma last_5_years_NoDup cy : NoDup (last_5_years cy).
Proof.
  unfold last_5_years. simpl.
  repeat (constructor; [simpl; lia|]). constructor.
Qed.

(** The summary row is the rounded column sums of its rows. *)
Theorem summary_sums data l5 :
  NoDup l5 ->
  s_total_5yr_funding (save_summary_csv data l5)
  = round2 (py_sum (map total_5yr_funding data))
  /\ s_award_count (save_summary_csv data l5) = List.length data
  /\ s_funding (save_summary_csv data l5)
     = map (fun y => (y, round2 (py_sum (map (funding_of y) data)))) l5.
Proof.
  intros ND. unfold save_summary_csv, py_sum. simpl.
  split; [now rewrite total_funding|]. split; [reflexivity|].
  apply map_ext_in. intros y HI.
  now rewrite totals_by_year, get_zero_by_year.
Qed.

Lemma trend_filter_In trend_only rows r :
  In r (trend_filter trend_only rows)
  <-> In r rows /\ (trend_only = "both" \/ lower (trend r) = trend_only).
Proof.
  unfold trend_filter. destruct (String.eqb_spec trend_only "both") as [->|N].
  - tauto.
  - rewrite filter_In. destruct (String.eqb_spec (lower (trend r)) trend_only); split;
      intros [H1 H2]; split; auto; try discriminate.
    destruct H2; [contradiction | congruence].
Qed.

End RollupFacts.

Module GroupFacts.

Lemma labels_of_cons_eq rec a data :
  hash_key (recipient_name a) = Ok rec ->
  labels_of rec (a :: data) = trend a :: labels_of rec data.
Proof.
  intros H. unfold labels_of. simpl. rewrite H.
  destruct (key_eq_dec rec rec); [reflexivity | contradiction].
Qed.

Lemma labels_of_cons_neq rec k a data :
  hash_key (recipient_name a) = Ok rec -> rec <> k ->
  labels_of k (a :: data) = labels_of k data.
Proof.
  intros H N. unfold labels_of. simpl. rewrite H.
  destruct (key_eq_dec rec k); [contradiction | reflexivity].
Qed.

Lemma add_award_spec l5 (rs rs' : groups) a :
  add_award l5 rs a = Ok rs' ->
  exists rec, hash_key (recipient_name a) = Ok rec
    /\ (forall k, trends_of l5 k rs'
                  = if key_eq_dec rec k then trends_of l5 k rs ++ [trend a]
                    else trends_of l5 k rs)
    /\ (NoDup (Dict.keys rs) -> NoDup (Dict.keys rs'))
    /\ (forall k, In k (Dict.keys rs') -> In k (Dict.keys rs) \/ k = rec).
Proof.
  unfold add_award. destruct (hash_key (recipient_name a)) as [rec|e]; simpl;
    [|discriminate].
  intros [= <-]. exists rec. split; [reflexivity|]. split; [|split].
  - intros k. unfold trends_of. rewrite DictFacts.lookup_setitem.
    destruct (key_eq_dec rec k) as [<-|N]; [|reflexivity].
    simpl. unfold Dict.get. destruct (Dict.lookup key_eq_dec rec rs); reflexivity.
  - apply DictFacts.NoDup_setitem.
  - intros k. rewrite DictFacts.keys_setitem.
    destruct (Dict.lookup key_eq_dec rec rs); [now left|].
    intros H. apply in_app_or in H. destruct H as [H|[<-|[]]]; auto.
Qed.

Lemma group_awards_spec l5 data : forall (rs rs' : groups),
  group_awards l5 rs data = Ok rs' ->
  (forall k, trends_of l5 k rs' = trends_of l5 k rs ++ labels_of k data)
  /\ (NoDup (Dict.keys rs) -> NoDup (Dict.keys rs'))
  /\ (forall k, In k (Dict.keys rs') ->
                In k (Dict.keys rs) \/ labels_of k data <> []).
Proof.
  induction data as [|a rest IH]; simpl; intros rs rs' H.
  - injection H as <-. split; [|auto]. intros k. unfold labels_of. simpl.
    now rewrite app_nil_r.
  - destruct (add_award l5 rs a) as [rs1|e] eqn:E; simpl in H; [|discriminate].
    destruct (add_award_spec _ _ _ _ E) as (rec & Hk & T & ND & K).
    destruct (IH _ _ H) as (T' & ND' & K'). split; [|split; [auto|]].
    + intros k. rewrite T', T.
      destruct (key_eq_dec rec k) as [<-|N].
      * rewrite (labels_of_cons_eq _ _ _ Hk), <- app_assoc. reflexivity.
      * now rewrite (labels_of_cons_neq _ _ _ _ Hk N).
    + intros k HI. destruct (K' k HI) as [H1|H1].
      * destruct (K k H1) as [H2| ->]; [now left|].
        right. rewrite (labels_of_cons_eq _ _ _ Hk). discriminate.
      * right. destruct (key_eq_dec rec k) as [<-|N].
        -- rewrite (labels_of_cons_eq _ _ _ Hk). discriminate.
        -- now rewrite (labels_of_cons_neq _ _ _ _ Hk N).
Qed.

Lemma pivot_In set_iter l5 items rows :
  pivot set_iter l5 items = Ok rows ->
  forall r, In r rows ->
    exists rec info, In (rec, info) items
      /\ r_recipient_name r = rec
      /\ major_trend set_iter (g_trends info) = Ok (r_major_trend r).
Proof.
  revert rows. induction items as [|[rec info] rest IH]; simpl; intros rows H r HI.
  - injection H as <-. contradiction.
  - destruct (pivot_row set_iter l5 rec info) as [x|e] eqn:EP; simpl in H; [|discriminate].
    destruct (pivot set_iter l5 rest) as [rs|e] eqn:ER; simpl in H; [|discriminate].
    injection H as <-. destruct HI as [<-|HI].
    + exists rec, info. split; [now left|].
      unfold pivot_row in EP.
      destruct (average_change info); simpl in EP; [|discriminate].
      destruct (major_trend set_iter (g_trends info)) as [t|]; simpl in EP; [|discriminate].
      injection EP as <-. simpl. auto.
    + destruct (IH _ eq_refl r HI) as (rec' & info' & I' & P).
      exists rec', info'. split; [now right | exact P].
Qed.

Lemma insert_by_total_perm x l : Permutation (insert_by_total x l) (x :: l).
Proof.
  induction l as [|y l IH]; simpl; [reflexivity|].
  destruct (r_total_5yr_funding x <? r_total_5yr_funding y)%float; [|reflexivity].
  rewrite IH. apply perm_swap.
Qed.

Lemma sort_by_total_perm l : Permutation (fold_right insert_by_total [] l) l.
Proof.
  induction l as [|x l IH]; simpl; [reflexivity|].
  rewrite insert_by_total_perm. now constructor.
Qed.

(** Every recipient row carries the majority label of the labels of the
    recipient's awards. *)
Theorem recipient_rows set_iter data l5 rows :
  save_recipient_summary set_iter data l5 = Ok rows ->
  forall r, In r rows ->
    labels_of (r_recipient_name r) data <> []
    /\ major_trend set_iter (labels_of (r_recipient_name r) data)
       = Ok (r_major_trend r).
Proof.
  unfold save_recipient_summary.
  destruct (group_awards l5 [] data) as [rs|e] eqn:G; simpl; [|discriminate].
  destruct (pivot set_iter l5 rs) as [pv|e] eqn:P; simpl; [|discriminate].
  intros [= <-] r HI.
  apply (Permutation_in _ (sort_by_total_perm pv)) in HI.
  destruct (pivot_In _ _ _ _ P r HI) as (rec & info & I & <- & M).
  destruct (group_awards_spec _ _ _ _ G) as (T & ND & K).
  specialize (T (r_recipient_name r)). unfold trends_of in T. simpl in T.
  rewrite (DictFacts.In_lookup key_eq_dec _ _ _ (ND (NoDup_nil _)) I) in T.
  rewrite <- T. split; [|exact M].
  rewrite T. destruct (K (r_recipient_name r)) as [[]|N]; [|exact N].
  change (r_recipient_name r) with (fst (r_recipient_name r, info)).
  now apply in_map.
Qed.

(** ** The majority label *)

Lemma max_from_spec {A} (f : A -> nat) xs : forall best,
  exists l1 l2,
    best :: xs = l1 ++ max_from f best xs :: l2
    /\ (forall x, In x l1 -> (f x < f (max_from f best xs))%nat)
    /\ (forall x, In x l2 -> (f x <= f (max_from f best xs))%nat)
    /\ (f best <= f (max_from f best xs))%nat.
Proof.
  induction xs as [|x xs IH]; intros best; cbn [max_from].
  - exists [], []. split; [reflexivity|]. split; [intros ? []|].
    split; [intros ? [] | lia].
  - destruct (Nat.ltb_spec (f best) (f x)) as [L|L].
    + destruct (IH x) as (l1 & l2 & E & H1 & H2 & H3).
      remember (max_from f x xs) as t.
      exists (best :: l1), l2. split; [simpl; now rewrite E|].
      split; [|split; [assumption | lia]].
      intros y [<-|HI]; [lia | now apply H1].
    + destruct (IH best) as (l1 & l2 & E & H1 & H2 & H3).
      remember (max_from f best xs) as t.
      destruct l1 as [|b l1].
      * simpl in E. injection E as E1 E2. subst t. rewrite <- E1.
        exists [], (x :: l2). split; [simpl; now rewrite E2|].
        split; [intros ? []|]. split; [|lia].
        intros y [<-|HI]; [lia|]. rewrite E1. now apply H2.
      * simpl in E. injection E as E1 E2. subst b.
        exists (best :: x :: l1), l2. split; [simpl; now rewrite E2|].
        assert (B : (f best < f t)%nat) by (apply H1; now left).
        split; [|split; [assumption | lia]].
        intros y [<-|[<-|HI]]; [assumption | lia | apply H1; now right].
Qed.

Lemma count_zero l x : ~ In x l -> count l x = 0%nat.
Proof. unfold count. apply count_occ_not_In. Qed.

Theorem major_trend_mode set_iter trends t :
  (forall x, In x (set_iter trends) <-> In x trends) ->
  trends <> [] ->
  major_trend set_iter trends = Ok t ->
  In t trends
  /\ (forall x, (count trends x <= count trends t)%nat)
  /\ exists l1 l2,
       set_iter trends = l1 ++ t :: l2
       /\ (forall x, In x l1 -> (count trends x < count trends t)%nat).
Proof.
  intros S N. unfold major_trend, py_max.
  destruct trends as [|t0 ts] eqn:ET; [contradiction|]. rewrite <- ET in *.
  destruct (set_iter trends) as [|b xs] eqn:EI; [discriminate|].
  intros [= <-].
  destruct (max_from_spec (count trends) xs b) as (l1 & l2 & E & H1 & H2 & _).
  set (t := max_from (count trends) b xs) in *.
  assert (IT : In t (b :: xs)) by (rewrite E; apply in_or_app; right; now left).
  split; [now apply S|]. split.
  - intros x. destruct (in_dec string_dec x trends) as [I|I].
    + apply S in I. rewrite E in I. apply in_app_or in I.
      destruct I as [I|[<-|I]]; [apply Nat.lt_le_incl; now apply H1 | lia | now apply H2].
    + rewrite (count_zero _ _ I). lia.
  - exists l1, l2. split; assumption.
Qed.

Lemma first_seen_In l x : In x (first_seen l) <-> In x l.
Proof.
  unfold first_seen. rewrite <- in_rev, nodup_In, <- in_rev. reflexivity.
Qed.

End GroupFacts.

(* ================================================================== *)
(** * The claims *)
(* ================================================================== *)

Import CONSCRAPERV2.
Import Engine Spec Examples.
Import EngineFacts FloatFacts HintFacts CellFacts RollupFacts GroupFacts.

(** The ints 1 and 2 as dict keys; [1], [1.0] and [True] are one key. *)
Lemma keys_of_ints :
  hash_key (PInt 1) = Ok key_1 /\ hash_key (PInt 2) = Ok key_2
  /\ hash_key (PFloat 1) = Ok key_1 /\ hash_key (PBool true) = Ok key_1.
Proof. vm_compute. repeat split. Qed.

(** An integer amount beyond the range of a float: [float] raises
    [OverflowError], which the loop does not catch, and the engine raises. *)
Lemma huge_amount_aborts :
  CONSCRAPERFINAL.filter_20_percent_change 2023
    [award (PInt 1) "ACME" "2021-03-01" (PInt (10 ^ 400))]
  = Raise OverflowError.
Proof. vm_compute. reflexivity. Qed.

(** A record that fails on its year or on its identifier is dropped before
    anything was mutated: the engine returns what it returns without it. *)
Lemma skip_no_effect fields cy l1 a l2 :
  effect_of fields a = Skip ->
  filter_20_percent_change fields cy (l1 ++ a :: l2)
  = filter_20_percent_change fields cy (l1 ++ l2).
Proof.
  intros E. unfold filter_20_percent_change. rewrite !accumulate_spec.
  rewrite !map_app. cbn [map]. rewrite E.
  assert (R : forall efs st, run_effects (efs ++ Skip :: map (effect_of fields) l2) st
                             = run_effects (efs ++ map (effect_of fields) l2) st).
  { induction efs as [|ef efs IH]; intros st; simpl; [reflexivity|].
    destruct (apply_effect ef st) as [[u|e] st']; [apply IH | reflexivity]. }
  now rewrite R.
Qed.

(** C1, on the code: a record whose amount is missing or is not a number is
    caught and skipped, yet it is not without effect.  The statement
    [award_years[id][year] += float(...)] reads the cell before [float]
    raises, and reading a [defaultdict] creates the cell at [0.0].  Award 2
    has one record, 50 in 2022, and is not reported.  With a second record for
    2023 whose amount is [None] (or the text N/A) the accumulator holds the
    cell (2, 2023) at 0.0 and the award is reported, falling by 100 percent. *)
Theorem C1_unparsable_amount_leaves_cell :
  let good := award (PInt 2) "Initech" "2022-01-15" (PInt 50) in
  let no_amount := award (PInt 2) "Initech" "2023-02-01" PNone in
  let bad_amount := award (PInt 2) "Initech" "2023-02-01" (PStr "N/A") in
  malformed CONSCRAPERFINAL.fields no_amount = true
  /\ malformed CONSCRAPERFINAL.fields bad_amount = true
  /\ CONSCRAPERFINAL.filter_20_percent_change 2023 [good] = Ok ([], years_2023)
  /\ cell (key_2) 2023 (accumulator CONSCRAPERFINAL.fields [good]) = None
  /\ cell (key_2) 2023 (accumulator CONSCRAPERFINAL.fields [good; no_amount])
     = Some 0%float
  /\ cell (key_2) 2023 (accumulator CONSCRAPERFINAL.fields [good; bad_amount])
     = Some 0%float
  /\ (exists r,
        CONSCRAPERFINAL.filter_20_percent_change 2023 [good; no_amount]
        = Ok ([r], years_2023)
        /\ CONSCRAPERFINAL.filter_20_percent_change 2023 [good; bad_amount]
           = Ok ([r], years_2023)
        /\ award_id r = key_2
        /\ first_year r = 2022 /\ first_amount r = 50%float
        /\ last_year r = 2023 /\ last_amount r = 0%float
        /\ change_percent r = (-100)%float
        /\ trend r = "Decrease").
Proof.
  cbv zeta. repeat (split; [vm_compute; reflexivity|]).
  eexists. split; [vm_compute; reflexivity|]. vm_compute. repeat split.
Qed.

(** C2, as amended: the five funding columns and [total_5yr_funding] of every
    reported award cover the five calendar years before the reference year,
    from [current_year - 5] to [current_year - 1], the reference year itself
    left out.  Each column is the award's accumulated amount for that year,
    [0.0] for a year absent from the accumulator, rounded to two decimals, and
    the total is the rounded sum over the same five years; neither depends on
    the three-year window. *)
Theorem C2_five_year_window cy data rows l5 :
  CONSCRAPERFINAL.filter_20_percent_change cy data = Ok (rows, l5) ->
  l5 = [cy - 5; cy - 4; cy - 3; cy - 2; cy - 1]
  /\ forall r, In r rows ->
       exists years,
         Dict.lookup key_eq_dec (award_id r)
           (accumulator CONSCRAPERFINAL.fields data) = Some years
         /\ funding r
            = map (fun y => (y, round2 (Dict.get Z.eq_dec y zero years))) l5
         /\ total_5yr_funding r
            = round2 (py_sum (map (fun y => Dict.get Z.eq_dec y zero years) l5)).
Proof.
  intros F. split.
  - destruct (filter_rows _ _ _ _ _ F) as (_ & -> & _). reflexivity.
  - intros r HI.
    destruct (row_of_entry _ _ _ _ _ _ complete_final F HI)
      as (years & first & last & rn & ac & L & _ & _ & E).
    exists years. split; [exact L|]. rewrite E. simpl. auto.
Qed.

(** C2, the amended statement at the end-to-end scenario, reference year
    2023. *)
Lemma C2_five_year_window_witness :
  CONSCRAPERFINAL.filter_20_percent_change 2023 scenario
  = Ok ([scenario_row], years_2023)
  /\ years_2023 = [2023 - 5; 2023 - 4; 2023 - 3; 2023 - 2; 2023 - 1]
  /\ forall r, In r [scenario_row] ->
       exists years,
         Dict.lookup key_eq_dec (award_id r)
           (accumulator CONSCRAPERFINAL.fields scenario) = Some years
         /\ funding r
            = map (fun y => (y, round2 (Dict.get Z.eq_dec y zero years))) years_2023
         /\ total_5yr_funding r
            = round2 (py_sum (map (fun y => Dict.get Z.eq_dec y zero years) years_2023)).
Proof.
  split; [vm_compute; reflexivity|].
  apply (C2_five_year_window 2023 scenario). vm_compute. reflexivity.
Defined.

(** C2, counterexample: with reference year 2023 the columns of award 1 are
    those of 2018 to 2022.  The award holds 130 in 2023, which no column
    shows; its total is 100, where the five years up to and including 2023
    sum to 230. *)
Lemma C2_reference_year_left_out :
  CONSCRAPERFINAL.filter_20_percent_change 2023 scenario
  = Ok ([scenario_row], [2018; 2019; 2020; 2021; 2022])
  /\ cell (key_1) 2023 (accumulator CONSCRAPERFINAL.fields scenario)
     = Some 130%float
  /\ map fst (funding scenario_row) = [2018; 2019; 2020; 2021; 2022]
  /\ total_5yr_funding scenario_row = 100%float
  /\ round2 (py_sum (map (fun y => Dict.get Z.eq_dec y zero
                                     [(2021, 100%float); (2023, 130%float)])
                       [2019; 2020; 2021; 2022; 2023])) = 230%float.
Proof. vm_compute. repeat split. Qed.

(** C3: an award is reported exactly when its trailing window has two entries
    at least, its first amount is not zero and
    [abs((last - first) / first) >= 0.2]; the bound is inclusive.  From 100
    to 120 the change is the float [0.2] and the award is reported with a
    change of 20 percent; from 100 to 119 it is not reported. *)
Theorem C3_threshold_inclusive :
  (forall l5 infos id years,
     trend_row l5 infos id years
     = match window years with
       | None => Ok None
       | Some (first, last) =>
           if qualifies (snd first) (snd last)
           then emit l5 infos id years first last
           else Ok None
       end)
  /\ (forall first_amount last_amount,
        qualifies first_amount last_amount
        = negb (first_amount =? 0)%float
          && (0x1.999999999999ap-3
              <=? abs ((last_amount - first_amount) / first_amount))%float)
  /\ change_of 100 120 = 0x1.999999999999ap-3%float
  /\ qualifies 100 120 = true
  /\ qualifies 100 119 = false
  /\ (exists r,
        CONSCRAPERFINAL.filter_20_percent_change 2023
          (two_points (PInt 100) (PInt 120)) = Ok ([r], years_2023)
        /\ first_amount r = 100%float /\ last_amount r = 120%float
        /\ change_percent r = 20%float)
  /\ CONSCRAPERFINAL.filter_20_percent_change 2023
       (two_points (PInt 100) (PInt 119)) = Ok ([], years_2023).
Proof.
  split; [exact trend_row_spec|].
  split; [reflexivity|].
  split; [vm_compute; reflexivity|].
  split; [vm_compute; reflexivity|].
  split; [vm_compute; reflexivity|].
  split; [|vm_compute; reflexivity].
  eexists. split; [vm_compute; reflexivity|]. vm_compute. repeat split.
Qed.

(** C4, as amended: the majority label of a recipient is a most frequent
    label among the labels of the recipient's awards, and on a tie it is the
    first of the most frequent labels in the order in which [set(trends)] is
    iterated, whatever that order is. *)
Theorem C4_majority_trend set_iter data l5 rows :
  (forall l x, In x (set_iter l) <-> In x l) ->
  save_recipient_summary set_iter data l5 = Ok rows ->
  forall r, In r rows ->
    let trends := labels_of (r_recipient_name r) data in
    let t := r_major_trend r in
    In t trends
    /\ (forall x, (count trends x <= count trends t)%nat)
    /\ exists l1 l2,
         set_iter trends = l1 ++ t :: l2
         /\ forall x, In x l1 -> (count trends x < count trends t)%nat.
Proof.
  intros S H r HI. cbv zeta.
  destruct (recipient_rows _ _ _ _ H r HI) as [N M].
  exact (major_trend_mode set_iter _ _ (S _) N M).
Qed.

(** C4, the amended statement on the two awards of ACME, one rising and one
    falling, with a set iterated in first-met order. *)
Lemma C4_majority_trend_witness :
  (forall l x, In x (set_first_seen l) <-> In x l)
  /\ exists r,
       save_recipient_summary set_first_seen (rows_of 2023 mixed) years_2023
       = Ok [r]
       /\ r_recipient_name r = KStr "ACME"
       /\ labels_of (KStr "ACME") (rows_of 2023 mixed) = ["Increase"; "Decrease"]
       /\ r_major_trend r = "Increase"
       /\ forall x,
            (count (labels_of (r_recipient_name r) (rows_of 2023 mixed)) x
             <= count (labels_of (r_recipient_name r) (rows_of 2023 mixed))
                  (r_major_trend r))%nat.
Proof.
  split; [exact first_seen_In|].
  eexists. split; [vm_compute; reflexivity|].
  repeat (split; [vm_compute; reflexivity|]).
  refine (proj1 (proj2 (C4_majority_trend set_first_seen (rows_of 2023 mixed)
                          years_2023 [_] first_seen_In _ _ (or_introl eq_refl)))).
  vm_compute; reflexivity.
Defined.

(** C4, counterexample: ACME's labels are Increase then Decrease, a tie.  With
    a set iterated as Decrease, Increase the majority label is Decrease, while
    the first label met among the awards is Increase. *)
Lemma C4_tie_follows_set_order :
  (forall l x, In x (set_last_seen l) <-> In x l)
  /\ exists r,
       save_recipient_summary set_last_seen (rows_of 2023 mixed) years_2023
       = Ok [r]
       /\ labels_of (r_recipient_name r) (rows_of 2023 mixed)
          = ["Increase"; "Decrease"]
       /\ set_last_seen ["Increase"; "Decrease"] = ["Decrease"; "Increase"]
       /\ r_major_trend r = "Decrease"
       /\ first_seen_mode ["Increase"; "Decrease"] = Ok "Increase".
Proof.
  split.
  - intros l x. unfold set_last_seen. rewrite <- in_rev. apply first_seen_In.
  - eexists. split; [vm_compute; reflexivity|]. vm_compute. repeat split.
Qed.

(** C5, as amended: under any permutation of the records the accumulator has
    the same cells; every cell holds the float sum of its own records' amounts
    added from left to right to [0.0]; and a cell whose records keep their
    relative order holds the same total.  (The run is assumed to reach the end
    of the first loop; a permutation does not change that.) *)
Theorem C5_order_within_cells fields d1 d2 :
  Permutation d1 d2 ->
  completes fields d1 ->
  completes fields d2
  /\ (forall k y,
        cell k y (accumulator fields d1) = None
        <-> cell k y (accumulator fields d2) = None)
  /\ (forall k y,
        cell k y (accumulator fields d1)
        = cell_value (cell_events fields k y d1)
        /\ cell k y (accumulator fields d2)
           = cell_value (cell_events fields k y d2))
  /\ (forall k y,
        cell_events fields k y d1 = cell_events fields k y d2 ->
        cell k y (accumulator fields d1) = cell k y (accumulator fields d2)).
Proof.
  intros P C1. assert (C2 := completes_perm _ _ _ P C1).
  split; [exact C2|]. split; [|split].
  - intros k y. split; apply cell_None_perm; (assumption || now symmetry).
  - intros k y. split; now apply cell_accumulated.
  - intros k y E. rewrite !cell_accumulated by assumption. now rewrite E.
Qed.

(** C5, the amended statement on two cells fed in two interleavings. *)
Lemma C5_order_within_cells_witness :
  Permutation ledger ledger_shuffled
  /\ completes CONSCRAPERFINAL.fields ledger
  /\ cell_events CONSCRAPERFINAL.fields (KStr "W91-0001") 2021 ledger
     = cell_events CONSCRAPERFINAL.fields (KStr "W91-0001") 2021 ledger_shuffled
  /\ cell (KStr "W91-0001") 2021 (accumulator CONSCRAPERFINAL.fields ledger)
     = cell (KStr "W91-0001") 2021
         (accumulator CONSCRAPERFINAL.fields ledger_shuffled).
Proof.
  assert (P : Permutation ledger ledger_shuffled).
  { unfold ledger, ledger_shuffled.
    eapply perm_trans; [apply perm_skip, perm_swap|].
    eapply perm_trans; [apply perm_swap|].
    apply perm_skip. eapply perm_trans; [apply perm_skip, perm_swap|].
    reflexivity. }
  split; [exact P|].
  split; [vm_compute; reflexivity|].
  split; [vm_compute; reflexivity|].
  apply (proj2 (proj2 (proj2
           (C5_order_within_cells CONSCRAPERFINAL.fields ledger ledger_shuffled P
              ltac:(vm_compute; reflexivity))))).
  vm_compute; reflexivity.
Defined.

(** C5, counterexample: the amounts 0.1, 0.2, 0.3 of one cell add up to
    0.6000000000000001, and in the opposite order to 0.6: float addition is
    commutative but not associative. *)
Lemma C5_total_depends_on_order :
  Permutation dimes (rev dimes)
  /\ cell (KStr "W91-0001") 2021 (accumulator CONSCRAPERFINAL.fields dimes)
     = Some 0x1.3333333333334p-1%float
  /\ cell (KStr "W91-0001") 2021
       (accumulator CONSCRAPERFINAL.fields (rev dimes))
     = Some 0x1.3333333333333p-1%float
  /\ (0x1.3333333333334p-1 =? 0x1.3333333333333p-1)%float = false.
Proof.
  split; [apply Permutation_rev|]. vm_compute. repeat split.
Qed.

(** C6, as amended: the roll-ups are computed on the awards that passed the
    trend filter, and the summary row holds their number, the sum of their
    [total_5yr_funding] rounded to two decimals and, for every year, the sum
    of that year's funding column rounded to two decimals. *)
Theorem C6_rollups_after_filter set_iter trend_only cy data rep :
  main set_iter trend_only cy data = Ok (Some rep) ->
  exists rows l5,
    CONSCRAPERV2.filter_20_percent_change cy data = Ok (rows, l5)
    /\ filtered_awards rep = trend_filter trend_only rows
    /\ (forall r, In r (filtered_awards rep)
                  <-> In r rows
                      /\ (trend_only = "both" \/ lower (trend r) = trend_only))
    /\ summary rep = save_summary_csv (filtered_awards rep) l5
    /\ save_recipient_summary set_iter (filtered_awards rep) l5
       = Ok (recipient_summary rep)
    /\ s_total_5yr_funding (summary rep)
       = round2 (py_sum (map total_5yr_funding (filtered_awards rep)))
    /\ s_award_count (summary rep) = List.length (filtered_awards rep)
    /\ s_funding (summary rep)
       = map (fun y => (y, round2 (py_sum (map (funding_of y)
                                                (filtered_awards rep))))) l5.
Proof.
  unfold main. destruct data as [|a data]; [discriminate|].
  destruct (CONSCRAPERV2.filter_20_percent_change cy (a :: data))
    as [[rows l5]|e] eqn:F; simpl; [|discriminate].
  destruct (save_recipient_summary set_iter (trend_filter trend_only rows) l5)
    as [recs|e] eqn:R; simpl; [|discriminate].
  intros [= <-]. exists rows, l5. simpl.
  split; [reflexivity|]. split; [reflexivity|].
  split; [intros r; apply trend_filter_In|].
  split; [reflexivity|]. split; [exact R|].
  apply summary_sums.
  destruct (filter_rows _ _ _ _ _ F) as (_ & -> & _). apply last_5_years_NoDup.
Qed.

(** C6, the amended statement for [trend_only = decrease] on one rising and
    one falling award. *)
Lemma C6_rollups_after_filter_witness :
  exists rep,
    main set_first_seen "decrease" 2023 mixed = Ok (Some rep)
    /\ map award_id (filtered_awards rep) = [KStr "W91-0002"]
    /\ map trend (filtered_awards rep) = ["Decrease"]
    /\ s_award_count (summary rep) = 1%nat
    /\ s_total_5yr_funding (summary rep) = 100%float
    /\ s_total_5yr_funding (summary rep)
       = round2 (py_sum (map total_5yr_funding (filtered_awards rep))).
Proof.
  eexists. split; [vm_compute; reflexivity|].
  repeat (split; [vm_compute; reflexivity|]).
  destruct (C6_rollups_after_filter set_first_seen "decrease" 2023 mixed _
              ltac:(vm_compute; reflexivity))
    as (rows & l5 & _ & _ & _ & _ & _ & T & _).
  exact T.
Defined.

(** C6, counterexample: two rising awards with totals 0.1 and 0.2.  The sum of
    the rows' [total_5yr_funding] is 0.30000000000000004; the summary row
    holds its rounding, 0.3. *)
Lemma C6_summary_total_is_rounded :
  exists rep,
    main set_first_seen "increase" 2023 cents = Ok (Some rep)
    /\ map total_5yr_funding (filtered_awards rep)
       = [0x1.999999999999ap-4; 0x1.999999999999ap-3]%float
    /\ py_sum (map total_5yr_funding (filtered_awards rep))
       = 0x1.3333333333334p-2%float
    /\ s_total_5yr_funding (summary rep) = 0x1.3333333333333p-2%float
    /\ (0x1.3333333333333p-2 =? 0x1.3333333333334p-2)%float = false.
Proof.
  eexists. split; [vm_compute; reflexivity|]. vm_compute. repeat split.
Qed.

(** C7: no reported row has a first amount equal to zero, and an award whose
    trailing window starts with an amount equal to zero is not reported,
    whatever its last amount; the engine never raises [ZeroDivisionError],
    nor does the classification of any award. *)
Theorem C7_zero_baseline_excluded cy data rows l5 :
  CONSCRAPERFINAL.filter_20_percent_change cy data = Ok (rows, l5) ->
  (forall r, In r rows -> (first_amount r =? 0)%float = false)
  /\ (forall k years first last,
        Dict.lookup key_eq_dec k (accumulator CONSCRAPERFINAL.fields data)
        = Some years ->
        window years = Some (first, last) ->
        (snd first =? 0)%float = true ->
        forall r, In r rows -> award_id r <> k)
  /\ (forall cy' data',
        CONSCRAPERFINAL.filter_20_percent_change cy' data'
        <> Raise ZeroDivisionError)
  /\ (forall l5' infos id years,
        trend_row l5' infos id years <> Raise ZeroDivisionError).
Proof.
  intros F. repeat split.
  - intros r HI.
    destruct (row_of_entry _ _ _ _ _ _ complete_final F HI)
      as (years & first & last & rn & ac & L & W & Q & E).
    rewrite E. simpl. unfold qualifies in Q.
    destruct (snd first =? 0)%float; [discriminate | reflexivity].
  - intros k years first last L W Z r HI <-.
    destruct (row_of_entry _ _ _ _ _ _ complete_final F HI)
      as (years' & first' & last' & rn & ac & L' & W' & Q & E).
    rewrite L in L'. injection L' as <-. rewrite W in W'. injection W' as <- <-.
    unfold qualifies in Q. rewrite Z in Q. discriminate.
  - intros cy' data' H.
    destruct (filter_returns CONSCRAPERFINAL.fields cy' data' complete_final)
      as [[rows' H']|H']; unfold CONSCRAPERFINAL.filter_20_percent_change in H;
      rewrite H' in H; discriminate.
  - intros l5' infos id years. rewrite trend_row_spec.
    destruct (window years) as [[first last]|]; [|discriminate].
    destruct (qualifies _ _); [|discriminate].
    unfold emit, info_get.
    destruct (info_of infos id) as [info|e] eqn:EI; simpl.
    + destruct (assoc "recipient_name" info); simpl; [|discriminate].
      destruct (assoc "awarding_agency_code" info); simpl; discriminate.
    + unfold info_of in EI. destruct (Dict.lookup _ _ _); [discriminate|].
      injection EI as <-. discriminate.
Qed.

(** C7 on the scenario with one more award, 0 in 2021 and 500 in 2023. *)
Lemma C7_zero_baseline_excluded_witness :
  CONSCRAPERFINAL.filter_20_percent_change 2023
    (scenario ++ two_points (PInt 0) (PInt 500))
  = Ok ([scenario_row], years_2023)
  /\ Dict.lookup key_eq_dec (KStr "W91-0001")
       (accumulator CONSCRAPERFINAL.fields
          (scenario ++ two_points (PInt 0) (PInt 500)))
     = Some [(2021, 0%float); (2023, 500%float)]
  /\ window [(2021, 0%float); (2023, 500%float)]
     = Some ((2021, 0%float), (2023, 500%float))
  /\ forall r, In r [scenario_row] -> award_id r <> KStr "W91-0001".
Proof.
  split; [vm_compute; reflexivity|].
  split; [vm_compute; reflexivity|].
  split; [vm_compute; reflexivity|].
  refine (proj1 (proj2 (C7_zero_baseline_excluded 2023
            (scenario ++ two_points (PInt 0) (PInt 500)) [scenario_row] years_2023 _))
          (KStr "W91-0001") [(2021, 0%float); (2023, 500%float)]
          (2021, 0%float) (2023, 500%float) _ _ _);
    vm_compute; reflexivity.
Defined.

(** C8: an award with fewer than two entries in its trailing window, or with
    fewer than two (year, amount) entries in all, is not reported. *)
Theorem C8_insufficient_history cy data rows l5 k years :
  CONSCRAPERFINAL.filter_20_percent_change cy data = Ok (rows, l5) ->
  Dict.lookup key_eq_dec k (accumulator CONSCRAPERFINAL.fields data)
  = Some years ->
  (List.length (lastn 3 (sorted years)) < 2)%nat
  \/ (List.length years < 2)%nat ->
  forall r, In r rows -> award_id r <> k.
Proof.
  intros F L H r HI <-.
  destruct (row_of_entry _ _ _ _ _ _ complete_final F HI)
    as (years' & first & last & rn & ac & L' & W & _).
  rewrite L in L'. injection L' as <-.
  assert (N : window years = None).
  { apply window_length. destruct H as [H|H]; [exact H|].
    now apply window_years_length. }
  rewrite N in W. discriminate.
Qed.

(** C8 on the scenario: award 2 has the single entry (2022, 50). *)
Lemma C8_insufficient_history_witness :
  CONSCRAPERFINAL.filter_20_percent_change 2023 scenario
  = Ok ([scenario_row], years_2023)
  /\ Dict.lookup key_eq_dec (key_2)
       (accumulator CONSCRAPERFINAL.fields scenario) = Some [(2022, 50%float)]
  /\ (List.length [(2022, 50%float)] < 2)%nat
  /\ forall r, In r [scenario_row] -> award_id r <> key_2.
Proof.
  split; [vm_compute; reflexivity|].
  split; [vm_compute; reflexivity|].
  split; [simpl; lia|].
  apply (C8_insufficient_history 2023 scenario [scenario_row] years_2023
           (key_2) [(2022, 50%float)]).
  - vm_compute; reflexivity.
  - vm_compute; reflexivity.
  - right. simpl. lia.
Defined.

(** C9: two inputs whose records differ at most in the ["trend"] field give
    the same result, and the label of every reported row is Increase when
    [(last_amount - first_amount) / first_amount > 0] and Decrease
    otherwise. *)
Theorem C9_trend_recomputed cy d1 d2 :
  Forall2 same_but_trend d1 d2 ->
  CONSCRAPERFINAL.filter_20_percent_change cy d1
  = CONSCRAPERFINAL.filter_20_percent_change cy d2
  /\ forall rows l5,
       CONSCRAPERFINAL.filter_20_percent_change cy d1 = Ok (rows, l5) ->
       forall r, In r rows ->
         trend r
         = if (0 <? (last_amount r - first_amount r) / first_amount r)%float
           then "Increase" else "Decrease".
Proof.
  intros F. split; [now apply hint_ignored|].
  intros rows l5 H r HI.
  destruct (row_of_entry _ _ _ _ _ _ complete_final H HI)
    as (years & first & last & rn & ac & _ & _ & _ & ->).
  reflexivity.
Qed.

(** C9 on the scenario, with and without a hint of a decrease on every
    record. *)
Lemma C9_trend_recomputed_witness :
  Forall2 same_but_trend scenario_hinted scenario
  /\ CONSCRAPERFINAL.filter_20_percent_change 2023 scenario_hinted
     = Ok ([scenario_row], years_2023)
  /\ CONSCRAPERFINAL.filter_20_percent_change 2023 scenario_hinted
     = CONSCRAPERFINAL.filter_20_percent_change 2023 scenario
  /\ trend scenario_row = "Increase".
Proof.
  assert (S : Forall2 same_but_trend scenario_hinted scenario).
  { cbv [scenario_hinted scenario map with_trend award].
    repeat (constructor; [intros f N; cbn [assoc];
      destruct (String.eqb_spec "trend" f) as [E|E]; [congruence | reflexivity]|]).
    constructor. }
  split; [exact S|].
  split; [vm_compute; reflexivity|].
  destruct (C9_trend_recomputed 2023 scenario_hinted scenario S) as [E L].
  split; [exact E|].
  exact (L [scenario_row] years_2023 ltac:(vm_compute; reflexivity)
           scenario_row (or_introl eq_refl)).
Defined.

(** C10, as amended: when the first amount of the trailing window is strictly
    negative, the zero guard does not exclude the award, so that it is
    reported exactly when [abs(change) >= 0.2]; [change] is never positive
    when [last - first] is positive and never negative when it is negative,
    and for a reported award it has exactly the opposite sign; the label
    follows the sign of [change], so a reported award whose last amount
    exceeds its first is labelled Decrease. *)
Theorem C10_negative_baseline l5 infos id years first last :
  window years = Some (first, last) ->
  (snd first <? 0)%float = true ->
  let change := change_of (snd first) (snd last) in
  let diff := (snd last - snd first)%float in
  (snd first =? 0)%float = false
  /\ trend_row l5 infos id years
     = (if (threshold <=? abs change)%float
        then emit l5 infos id years first last else Ok None)
  /\ ((0 <? diff)%float = true -> (0 <? change)%float = false)
  /\ ((diff <? 0)%float = true -> (change <? 0)%float = false)
  /\ ((threshold <=? abs change)%float = true ->
      (0 <? change)%float = (diff <? 0)%float
      /\ (change <? 0)%float = (0 <? diff)%float)
  /\ (forall r, trend_row l5 infos id years = Ok (Some r) ->
        trend r = (if (0 <? change)%float then "Increase" else "Decrease")
        /\ trend r = (if (diff <? 0)%float then "Increase" else "Decrease")).
Proof.
  intros W N. cbv zeta.
  destruct (negative_baseline_signs (snd first) (snd last) N) as (Z & P1 & P2 & P3).
  cbv zeta in P1, P2, P3.
  assert (TR : trend_row l5 infos id years
               = (if (threshold <=? abs (change_of (snd first) (snd last)))%float
                  then emit l5 infos id years first last else Ok None)).
  { rewrite trend_row_spec, W. unfold qualifies. rewrite Z. reflexivity. }
  repeat (split; [assumption|]).
  intros r HR. rewrite TR in HR.
  destruct (threshold <=? abs (change_of (snd first) (snd last)))%float eqn:T;
    [|discriminate].
  destruct (P3 eq_refl) as [P _]. rewrite <- P.
  unfold emit, info_get in HR.
  destruct (info_of infos id) as [info|]; simpl in HR; [|discriminate].
  destruct (assoc "recipient_name" info); simpl in HR; [|discriminate].
  destruct (assoc "awarding_agency_code" info); simpl in HR; [|discriminate].
  injection HR as <-. simpl. unfold label_of. split; reflexivity.
Qed.

(** C10 from -100 to -50: the change is -0.5, the award is reported with a
    change of -50 percent and labelled Decrease. *)
Lemma C10_negative_baseline_witness :
  let years := [(2021, (-100)%float); (2023, (-50)%float)] in
  let infos := [(KStr "W91-0001",
                 [("recipient_name", PStr "ACME");
                  ("awarding_agency_code", PStr "097")])] in
  window years = Some ((2021, (-100)%float), (2023, (-50)%float))
  /\ ((-100) <? 0)%float = true
  /\ change_of (-100) (-50) = (-0.5)%float
  /\ (exists r,
        trend_row years_2023 infos (KStr "W91-0001") years = Ok (Some r)
        /\ change_percent r = (-50)%float)
  /\ forall r,
       trend_row years_2023 infos (KStr "W91-0001") years = Ok (Some r) ->
       trend r = "Decrease".
Proof.
  cbv zeta.
  split; [vm_compute; reflexivity|].
  split; [vm_compute; reflexivity|].
  split; [vm_compute; reflexivity|].
  split; [eexists; split; vm_compute; reflexivity|].
  intros r H.
  pose proof (C10_negative_baseline years_2023
                [(KStr "W91-0001",
                  [("recipient_name", PStr "ACME");
                   ("awarding_agency_code", PStr "097")])]
                (KStr "W91-0001")
                [(2021, (-100)%float); (2023, (-50)%float)]
                (2021, (-100)%float) (2023, (-50)%float)
                ltac:(vm_compute; reflexivity) ltac:(vm_compute; reflexivity)) as T.
  cbv zeta in T.
  exact (proj1 (proj2 (proj2 (proj2 (proj2 (proj2 T)))) r H)).
Defined.

(** C10, counterexample: a first amount of minus infinity, which [float]
    reads from the text -inf, and a last amount of 5.  The first amount is
    strictly negative and [last - first] is positive, yet
    [change = inf / -inf] is NaN: it is not negative, it has no sign, and the
    award is not reported. *)
Lemma C10_change_without_sign :
  let years := [(2021, neg_infinity); (2023, 5%float)] in
  py_float (PStr "-inf") = Ok neg_infinity
  /\ accumulator CONSCRAPERFINAL.fields (two_points (PStr "-inf") (PInt 5))
     = [(KStr "W91-0001", years)]
  /\ window years = Some ((2021, neg_infinity), (2023, 5%float))
  /\ (neg_infinity <? 0)%float = true
  /\ (neg_infinity =? 0)%float = false
  /\ (0 <? 5 - neg_infinity)%float = true
  /\ (change_of neg_infinity 5 <? 0)%float = false
  /\ (0 <? change_of neg_infinity 5)%float = false
  /\ is_nan (change_of neg_infinity 5) = true
  /\ CONSCRAPERFINAL.filter_20_percent_change 2023
       (two_points (PStr "-inf") (PInt 5)) = Ok ([], years_2023).
Proof. vm_compute. repeat split. Qed.

(* ================================================================== *)
(** * Further facts *)
(* ================================================================== *)

Import Order Notions Reports Sheets Samples.

Module OrderFacts.

Lemma is_nan_sgn x : is_nan x = false <-> sgn (Prim2SF x) <> None.
Proof.
  unfold is_nan. rewrite eqb_spec. unfold SFeqb.
  destruct (Prim2SF x) as [s|s| |s m e]; simpl.
  - split; [discriminate | reflexivity].
  - destruct s; split; (discriminate || reflexivity).
  - split; [discriminate | congruence].
  - rewrite Z.compare_refl, Pos.compare_cont_refl.
    destruct s; simpl; split; (discriminate || reflexivity).
Qed.

Lemma SFcompare_rank x y :
  sgn x <> None -> sgn y <> None ->
  match SFcompare x y with
  | Some Lt => lt3 (rank x) (rank y)
  | Some Eq => rank x = rank y
  | Some Gt => lt3 (rank y) (rank x)
  | None => False
  end.
Proof.
  destruct x as [sx|sx| |sx mx ex], y as [sy|sy| |sy my ey]; simpl;
    intros Nx Ny; try congruence;
    try destruct sx; try destruct sy; simpl; try lia; try reflexivity.
  - destruct (Z.compare_spec ex ey) as [->|L|L]; simpl; try lia.
    rewrite Pos.compare_cont_spec. simpl.
    destruct (Pos.compare_spec mx my) as [->|M|M]; simpl; try reflexivity; lia.
  - destruct (Z.compare_spec ex ey) as [->|L|L]; simpl; try lia.
    rewrite Pos.compare_cont_spec. simpl.
    destruct (Pos.compare_spec mx my) as [->|M|M]; simpl; try reflexivity; lia.
Qed.

Lemma lt3_irrefl a : ~ lt3 a a.
Proof. destruct a as [[a1 a2] a3]. simpl. lia. Qed.

Lemma lt3_trans a b c : lt3 a b -> lt3 b c -> lt3 a c.
Proof. destruct a as [[a1 a2] a3], b as [[b1 b2] b3], c as [[c1 c2] c3]. simpl. lia. Qed.

Lemma lt3_asym a b : lt3 a b -> ~ lt3 b a.
Proof. intros H1 H2. exact (lt3_irrefl _ (lt3_trans _ _ _ H1 H2)). Qed.

Lemma leb_rank x y :
  (x <=? y)%float = true
  <-> is_nan x = false /\ is_nan y = false /\ le3 (rank (Prim2SF x)) (rank (Prim2SF y)).
Proof.
  rewrite leb_spec, !is_nan_sgn. unfold SFleb, le3.
  destruct (sgn (Prim2SF x)) as [cx|] eqn:Ex.
  2:{ split; [|intros [N _]; congruence].
      destruct (Prim2SF x); simpl in *; try destruct s; discriminate. }
  destruct (sgn (Prim2SF y)) as [cy|] eqn:Ey.
  2:{ split; [|intros (_ & N & _); congruence].
      destruct (Prim2SF x) as [s|s| |s m e], (Prim2SF y) as [s'|s'| |s' m' e'];
        simpl in *; try destruct s; try discriminate. }
  assert (Nx : sgn (Prim2SF x) <> None) by congruence.
  assert (Ny : sgn (Prim2SF y) <> None) by congruence.
  pose proof (SFcompare_rank _ _ Nx Ny) as R.
  destruct (SFcompare (Prim2SF x) (Prim2SF y)) as [[]|]; try contradiction.
  - split; [intros _; repeat split; try discriminate; now right | reflexivity].
  - split; [intros _; repeat split; try discriminate; now left | reflexivity].
  - split; [discriminate|]. intros (_ & _ & [L|E]).
    + exfalso. exact (lt3_asym _ _ R L).
    + rewrite E in R. exfalso. exact (lt3_irrefl _ R).
Qed.

Lemma ltb_rank x y :
  (x <? y)%float = true
  <-> is_nan x = false /\ is_nan y = false /\ lt3 (rank (Prim2SF x)) (rank (Prim2SF y)).
Proof.
  rewrite ltb_spec, !is_nan_sgn. unfold SFltb.
  destruct (sgn (Prim2SF x)) as [cx|] eqn:Ex.
  2:{ split; [|intros [N _]; congruence].
      destruct (Prim2SF x); simpl in *; try destruct s; discriminate. }
  destruct (sgn (Prim2SF y)) as [cy|] eqn:Ey.
  2:{ split; [|intros (_ & N & _); congruence].
      destruct (Prim2SF x) as [s|s| |s m e], (Prim2SF y) as [s'|s'| |s' m' e'];
        simpl in *; try destruct s; try discriminate. }
  assert (Nx : sgn (Prim2SF x) <> None) by congruence.
  assert (Ny : sgn (Prim2SF y) <> None) by congruence.
  pose proof (SFcompare_rank _ _ Nx Ny) as R.
  destruct (SFcompare (Prim2SF x) (Prim2SF y)) as [[]|]; try contradiction.
  - split; [discriminate|]. intros (_ & _ & L). rewrite R in L.
    exfalso. exact (lt3_irrefl _ L).
  - split; [intros _; repeat split; try discriminate; assumption | reflexivity].
  - split; [discriminate|]. intros (_ & _ & L). exfalso. exact (lt3_asym _ _ R L).
Qed.

Lemma le3_total a b : le3 a b \/ lt3 b a.
Proof.
  destruct a as [[a1 a2] a3], b as [[b1 b2] b3]. unfold le3. simpl.
  destruct (Z.eq_dec a1 b1), (Z.eq_dec a2 b2), (Z.eq_dec a3 b3); subst;
    try (left; right; reflexivity); lia.
Qed.

(** On floats that are not NaN, [<=] is a total order up to [==]. *)
Lemma leb_trans x y z :
  (x <=? y)%float = true -> (y <=? z)%float = true -> (x <=? z)%float = true.
Proof.
  rewrite !leb_rank. intros (Nx & Ny & [L1|E1]) (_ & Nz & [L2|E2]);
    repeat split; try assumption.
  - left. eapply lt3_trans; eassumption.
  - left. now rewrite <- E2.
  - left. now rewrite E1.
  - right. congruence.
Qed.

Lemma ltb_leb x y : (x <? y)%float = true -> (x <=? y)%float = true.
Proof. rewrite ltb_rank, leb_rank. intros (Nx & Ny & L). repeat split; auto. now left. Qed.

Lemma not_ltb_leb x y :
  is_nan x = false -> is_nan y = false ->
  (x <? y)%float = false -> (y <=? x)%float = true.
Proof.
  intros Nx Ny H. apply leb_rank. repeat split; try assumption.
  destruct (le3_total (rank (Prim2SF y)) (rank (Prim2SF x))) as [L|L]; [exact L|].
  assert (T : (x <? y)%float = true) by (apply ltb_rank; auto). congruence.
Qed.

Lemma leb_not_ltb x y : (y <=? x)%float = true -> (x <? y)%float = false.
Proof.
  intros H. destruct (x <? y)%float eqn:E; [|reflexivity].
  apply ltb_rank in E. apply leb_rank in H.
  destruct E as (_ & _ & L). destruct H as (_ & _ & [L'|E']).
  - exfalso. exact (lt3_asym _ _ L L').
  - rewrite E' in L. exfalso. exact (lt3_irrefl _ L).
Qed.

Lemma leb_refl x : is_nan x = false -> (x <=? x)%float = true.
Proof. intros N. apply leb_rank. repeat split; auto. now right. Qed.

Lemma ltb_leb_trans x y z :
  (x <? y)%float = true -> (y <=? z)%float = true -> (x <? z)%float = true.
Proof.
  rewrite !ltb_rank, leb_rank. intros (Nx & Ny & L1) (_ & Nz & [L2|E2]);
    repeat split; try assumption.
  - eapply lt3_trans; eassumption.
  - now rewrite <- E2.
Qed.

Lemma leb_ltb_trans x y z :
  (x <=? y)%float = true -> (y <? z)%float = true -> (x <? z)%float = true.
Proof.
  rewrite !ltb_rank, leb_rank. intros (Nx & Ny & [L1|E1]) (_ & Nz & L2);
    repeat split; try assumption.
  - eapply lt3_trans; eassumption.
  - now rewrite E1.
Qed.

End OrderFacts.

Import OrderFacts.

Module NanFacts.

Lemma shr_1_nonneg mrs : 0 <= shr_m mrs -> 0 <= shr_m (shr_1 mrs).
Proof.
  destruct mrs as [m r s]. simpl.
  destruct m as [|p|p]; simpl; try lia; intros _; destruct p; simpl; lia.
Qed.

Lemma iter_shr_1_nonneg p : forall mrs,
  0 <= shr_m mrs -> 0 <= shr_m (iter_pos shr_1 p mrs).
Proof.
  induction p; intros mrs H; simpl; auto using shr_1_nonneg.
Qed.

Lemma shr_fexp_nonneg m e l :
  0 <= m -> 0 <= shr_m (fst (shr_fexp prec emax m e l)).
Proof.
  intros H. unfold shr_fexp, shr.
  assert (R : 0 <= shr_m (shr_record_of_loc m l))
    by (destruct l as [|[]]; simpl; exact H).
  destruct (fexp prec emax (Zdigits2 m + e) - e); simpl; auto.
  apply iter_shr_1_nonneg, R.
Qed.

Lemma round_nearest_even_nonneg m l : 0 <= m -> 0 <= round_nearest_even m l.
Proof.
  intros H. destruct l as [|[]]; simpl; try lia. destruct (Z.even m); lia.
Qed.

(** Rounding a non-negative mantissa never gives NaN. *)
Lemma round_aux_not_nan s m e l :
  0 <= m -> sgn (binary_round_aux prec emax s m e l) <> None.
Proof.
  intros H. unfold binary_round_aux.
  pose proof (shr_fexp_nonneg m e l H) as H1.
  destruct (shr_fexp prec emax m e l) as [mrs' e']. simpl in H1.
  pose proof (shr_fexp_nonneg _ e' loc_Exact
                (round_nearest_even_nonneg _ (loc_of_shr_record mrs') H1)) as H2.
  destruct (shr_fexp prec emax _ e' loc_Exact) as [mrs'' e'']. simpl in H2.
  destruct (shr_m mrs'') as [|p|p]; try lia.
  - destruct s; discriminate.
  - destruct (e'' <=? emax - prec); destruct s; discriminate.
Qed.

Lemma round_not_nan s m e : sgn (binary_round prec emax s m e) <> None.
Proof.
  unfold binary_round. destruct (shl_align _ _ _) as [mz ez].
  apply round_aux_not_nan. lia.
Qed.

Lemma normalize_not_nan m e z : sgn (binary_normalize prec emax m e z) <> None.
Proof.
  destruct m; simpl; try apply round_not_nan. destruct z; discriminate.
Qed.

Lemma sgn_opp x : sgn (SFopp x) = None <-> sgn x = None.
Proof. destruct x as [s|s| |s m e]; simpl; try destruct s; simpl; split; congruence. Qed.

Lemma SF2Prim_not_nan x : sgn x <> None -> is_nan (SF2Prim x) = false.
Proof.
  intros H. apply is_nan_sgn.
  destruct x as [s|s| |s m e]; simpl in *; try congruence.
  - destruct s; vm_compute; discriminate.
  - destruct s; vm_compute; discriminate.
  - assert (L : sgn (Prim2SF (Z.ldexp (of_uint63 (Uint63.of_Z (Z.pos m))) e)) <> None).
    { rewrite Z_ldexp_spec, of_uint63_spec.
      pose proof (normalize_not_nan (Uint63.to_Z (Uint63.of_Z (Z.pos m))) 0 false) as B.
      destruct (binary_normalize prec emax _ 0 false) as [s0|s0| |s0 m0 e0];
        simpl in *.
      - destruct s0; discriminate.
      - destruct s0; discriminate.
      - congruence.
      - apply round_not_nan. }
    destruct s; [|exact L].
    rewrite opp_spec. intros N. apply (proj1 (sgn_opp _)) in N. exact (L N).
Qed.

Lemma div_core_nonneg m1 e1 m2 e2 :
  0 <= fst (fst (SFdiv_core_binary prec emax (Zpos m1) e1 (Zpos m2) e2)).
Proof.
  unfold SFdiv_core_binary.
  set (s := _ - _ - _). 
  set (m' := match s with Z0 => _ | Zpos _ => _ | Zneg _ => _ end).
  assert (M : 0 <= m').
  { subst m'. destruct s; try lia. apply Z.shiftl_nonneg. lia. }
  pose proof (Z_div_mod m' (Zpos m2) ltac:(lia)) as D.
  destruct (Z.div_eucl m' (Zpos m2)) as [q r]. simpl.
  destruct D as [D1 D2]. nia.
Qed.

Lemma SFdiv_finite_not_nan s1 m1 e1 s2 m2 e2 :
  sgn (SFdiv prec emax (S754_finite s1 m1 e1) (S754_finite s2 m2 e2)) <> None.
Proof.
  unfold SFdiv.
  pose proof (div_core_nonneg m1 e1 m2 e2) as Q.
  destruct (SFdiv_core_binary prec emax (Zpos m1) e1 (Zpos m2) e2) as [[q e] l].
  apply round_aux_not_nan. exact Q.
Qed.

(** [round(x, 2)] of a number is a number. *)
Lemma round2_not_nan x : is_nan x = false -> is_nan (round2 x) = false.
Proof.
  intros H. unfold round2.
  destruct (Prim2SF x) as [s|s| |s m e] eqn:E; try exact H.
  destruct (0 <=? e); [exact H|]. cbv zeta.
  match goal with |- context [match ?n with Z0 => _ | Zpos _ => _ | Zneg _ => _ end] =>
    destruct n end.
  - destruct s; reflexivity.
  - apply SF2Prim_not_nan, SFdiv_finite_not_nan.
  - destruct s; reflexivity.
Qed.

Lemma mul_100_not_nan x : is_nan x = false -> is_nan (x * 100)%float = false.
Proof.
  rewrite !is_nan_sgn, mul_spec. unfold SF64mul.
  set (h := Prim2SF 100). vm_compute in h. subst h.
  destruct (Prim2SF x) as [s|s| |s m e]; simpl; try congruence; intros _.
  apply round_aux_not_nan. lia.
Qed.

Lemma abs_not_nan x : is_nan (abs x) = is_nan x.
Proof.
  apply bool_eq_iff.
  destruct (is_nan x) eqn:E.
  - split; auto. intros _.
    destruct (is_nan (abs x)) eqn:E'; [reflexivity|].
    apply is_nan_sgn in E'. rewrite abs_spec in E'.
    assert (N : is_nan x <> false) by congruence.
    exfalso. apply N. apply is_nan_sgn.
    destruct (Prim2SF x) as [s|s| |s m e]; simpl in *; try congruence; destruct s; discriminate.
  - split; [|congruence]. intros A. apply is_nan_sgn in E.
    assert (N : is_nan (abs x) = false).
    { apply is_nan_sgn. rewrite abs_spec.
      destruct (Prim2SF x) as [s|s| |s m e]; simpl in *; try congruence; discriminate. }
    congruence.
Qed.

(** A quotient that is a number has a dividend that is a number. *)
Lemma div_not_nan_l x y : is_nan (x / y)%float = false -> is_nan x = false.
Proof.
  rewrite !is_nan_sgn, div_spec. unfold SF64div.
  destruct (Prim2SF x) as [s|s| |s m e]; simpl; try (destruct s; discriminate).
  congruence.
Qed.

Lemma threshold_not_nan c :
  (threshold <=? abs c)%float = true -> is_nan c = false.
Proof.
  intros T. apply is_nan_sgn. destruct (threshold_sgn c T); congruence.
Qed.

End NanFacts.

Import NanFacts.

Module RankFacts.

(** The numbers of a reported row are numbers. *)
Lemma row_numbers l5 infos id years r :
  trend_row l5 infos id years = Ok (Some r) ->
  is_nan (change_percent r) = false /\ is_nan (abs_change r) = false.
Proof.
  intros H. destruct (row_shape _ _ _ _ _ H) as (first & last & rn & ac & W & Q & ->).
  unfold qualifies in Q. apply andb_true_iff in Q. destruct Q as [_ T].
  pose proof (threshold_not_nan _ T) as C. simpl. split.
  - apply round2_not_nan, mul_100_not_nan, C.
  - rewrite abs_not_nan. exact (div_not_nan_l _ _ C).
Qed.

Lemma insert_desc_In x l y : In y (insert_desc x l) <-> y = x \/ In y l.
Proof.
  split; intros H.
  - apply (Permutation_in _ (insert_desc_perm x l)) in H. destruct H; auto.
  - apply (Permutation_in _ (Permutation_sym (insert_desc_perm x l))).
    destruct H; [left; auto | right; auto].
Qed.

Lemma insert_desc_sorted x l :
  is_nan (change_percent x) = false ->
  Forall (fun r => is_nan (change_percent r) = false) l ->
  StronglySorted ranked l -> StronglySorted ranked (insert_desc x l).
Proof.
  intros Nx Nl S. induction S as [|y l S IH F]; simpl.
  - repeat constructor.
  - inversion Nl as [|? ? Ny Nl']; subst.
    destruct (change_percent x <? change_percent y)%float eqn:E.
    + constructor; [auto|]. apply Forall_forall. intros z Hz.
      apply insert_desc_In in Hz. destruct Hz as [->|Hz].
      * unfold ranked. now apply ltb_leb.
      * rewrite Forall_forall in F. auto.
    + assert (R : ranked x y) by (unfold ranked; now apply not_ltb_leb).
      constructor; [constructor; assumption|].
      constructor; [exact R|]. apply Forall_forall. intros z Hz.
      rewrite Forall_forall in F. specialize (F z Hz). unfold ranked in *.
      eapply leb_trans; eassumption.
Qed.

Lemma sort_desc_sorted l :
  Forall (fun r => is_nan (change_percent r) = false) l ->
  StronglySorted ranked (sort_desc l).
Proof.
  induction 1 as [|x l Nx Nl IH]; simpl; [constructor|].
  apply insert_desc_sorted; auto.
  apply Forall_forall. intros y Hy.
  apply (Permutation_in _ (sort_desc_perm l)) in Hy.
  rewrite Forall_forall in Nl. auto.
Qed.

Lemma rows_numbers fields cy data rows l5 :
  filter_20_percent_change fields cy data = Ok (rows, l5) ->
  Forall (fun r => is_nan (change_percent r) = false
                   /\ is_nan (abs_change r) = false) rows.
Proof.
  intros H. destruct (filter_rows _ _ _ _ _ H) as (_ & _ & R).
  apply Forall_forall. intros r Hr. apply R in Hr.
  destruct Hr as (id & years & _ & T). exact (row_numbers _ _ _ _ _ T).
Qed.

Lemma filter_sorted fields cy data rows l5 :
  filter_20_percent_change fields cy data = Ok (rows, l5) ->
  StronglySorted ranked rows.
Proof.
  intros H. pose proof (rows_numbers _ _ _ _ _ H) as N.
  unfold filter_20_percent_change in H.
  destruct (accumulate fields data empty) as [[u|e] st]; [|discriminate].
  destruct (collect _ _ _) as [filtered|e] eqn:C; [|discriminate].
  simpl in H. injection H as <- <-.
  apply sort_desc_sorted. apply Forall_forall. intros r Hr.
  rewrite Forall_forall in N.
  apply (N r). apply (Permutation_in _ (Permutation_sym (sort_desc_perm filtered))), Hr.
Qed.

End RankFacts.

Import RankFacts.

Module WindowFacts.

Lemma wf_empty : wf [].
Proof. split; [constructor | intros k years []]. Qed.

Lemma get_NoDup k (ay : award_years_t) :
  wf ay -> NoDup (Dict.keys (Dict.get key_eq_dec k [] ay)).
Proof.
  intros [_ W].
  destruct (Dict.lookup key_eq_dec k ay) as [years|] eqn:E.
  - rewrite (get_Some key_eq_dec k [] years ay E).
    apply (W k). now apply (DictFacts.lookup_In key_eq_dec).
  - rewrite (get_None key_eq_dec k [] ay E). constructor.
Qed.

Lemma wf_setitem k years (ay : award_years_t) :
  wf ay -> NoDup (Dict.keys years) -> wf (Dict.setitem key_eq_dec k years ay).
Proof.
  intros [N W] Y. split.
  - now apply DictFacts.NoDup_setitem.
  - intros k' years' I. apply In_setitem in I. destruct I as [[_ ->]|I]; eauto.
Qed.

Lemma wf_touch k y ay : wf ay -> wf (touch_cell k y ay).
Proof.
  intros W. unfold touch_cell. apply wf_setitem; [exact W|].
  unfold Dict.touch.
  destruct (Dict.lookup Z.eq_dec y _); simpl;
    [|apply DictFacts.NoDup_setitem]; now apply get_NoDup.
Qed.

Lemma wf_add k y x ay : wf ay -> wf (add_cell k y x ay).
Proof.
  intros W. unfold add_cell. apply wf_setitem; [exact W|].
  apply DictFacts.NoDup_setitem. now apply get_NoDup.
Qed.

Lemma wf_apply ef st : wf (award_years st) -> wf (award_years (snd (apply_effect ef st))).
Proof.
  intros W. destruct ef; simpl; auto using wf_touch, wf_add.
Qed.

Lemma wf_run efs : forall st,
  wf (award_years st) -> wf (award_years (snd (run_effects efs st))).
Proof.
  induction efs as [|ef efs IH]; intros st W; simpl; [exact W|].
  pose proof (wf_apply ef st W) as W'.
  destruct (apply_effect ef st) as [[u|e] st']; simpl in *; auto.
Qed.

Lemma accumulator_wf fields data : wf (accumulator fields data).
Proof.
  unfold accumulator. rewrite accumulate_spec. apply wf_run, wf_empty.
Qed.

(** ** [sorted] orders the entries by their years *)

Lemma insert_asc_In x l p : In p (insert_asc x l) <-> p = x \/ In p l.
Proof.
  split; intros H.
  - apply (Permutation_in _ (insert_asc_perm x l)) in H. destruct H; auto.
  - apply (Permutation_in _ (Permutation_sym (insert_asc_perm x l))).
    destruct H; [left; auto | right; auto].
Qed.

Lemma insert_asc_sorted x l :
  ~ In (fst x) (map fst l) ->
  StronglySorted by_year l -> StronglySorted by_year (insert_asc x l).
Proof.
  intros N S. induction S as [|y l S IH F]; simpl.
  - repeat constructor.
  - simpl in N. unfold tuple_lt.
    destruct (Z.eqb_spec (fst y) (fst x)) as [E|E]; [tauto|].
    destruct (Z.ltb_spec (fst y) (fst x)) as [L|L].
    + constructor; [apply IH; tauto|]. apply Forall_forall. intros z Hz.
      apply insert_asc_In in Hz. destruct Hz as [->|Hz]; [exact L|].
      rewrite Forall_forall in F. auto.
    + assert (L' : by_year x y) by (unfold by_year; lia).
      constructor; [constructor; assumption|].
      constructor; [exact L'|]. apply Forall_forall. intros z Hz.
      rewrite Forall_forall in F. specialize (F z Hz). unfold by_year in *. lia.
Qed.

Lemma sorted_sorted (years : years_t) :
  NoDup (Dict.keys years) -> StronglySorted by_year (sorted years).
Proof.
  unfold Dict.keys. induction years as [|x l IH]; simpl; intros N; [constructor|].
  inversion N as [|? ? NI N']; subst.
  apply insert_asc_sorted; [|auto].
  intros I. apply NI. apply in_map_iff in I. destruct I as (p & E & I).
  apply in_map_iff. exists p. split; [exact E|].
  exact (Permutation_in _ (sorted_perm l) I).
Qed.

Lemma sorted_app_lt (l1 l2 : list (Z * float)) :
  StronglySorted by_year (l1 ++ l2) ->
  forall p q, In p l1 -> In q l2 -> fst p < fst q.
Proof.
  induction l1 as [|a l1 IH]; simpl; intros S p q Hp Hq; [contradiction|].
  inversion S as [|? ? S' F]; subst. destruct Hp as [->|Hp].
  - rewrite Forall_forall in F. apply F, in_or_app. now right.
  - eauto.
Qed.

Lemma sorted_last_max (l : list (Z * float)) d :
  StronglySorted by_year l -> forall p, In p l -> fst p <= fst (last l d).
Proof.
  induction 1 as [|a l S IH F]; intros p Hp; [contradiction|].
  destruct l as [|b l'].
  - destruct Hp as [->|[]]. simpl. lia.
  - change (last (a :: b :: l') d) with (last (b :: l') d).
    destruct Hp as [->|Hp]; [|auto].
    rewrite Forall_forall in F.
    assert (I : In (last (b :: l') d) (b :: l')) by (apply last_In; discriminate).
    specialize (F _ I). unfold by_year in F. lia.
Qed.

Lemma sorted_app_r (l1 l2 : list (Z * float)) :
  StronglySorted by_year (l1 ++ l2) -> StronglySorted by_year l2.
Proof.
  induction l1 as [|a l1 IH]; simpl; intros S; [exact S|].
  inversion S; subst. auto.
Qed.

Lemma filter_length_perm {A} (f : A -> bool) l l' :
  Permutation l l' -> List.length (filter f l) = List.length (filter f l').
Proof.
  induction 1 as [|x l l' P IH|x y l|l l' l'' P1 IH1 P2 IH2]; simpl.
  - reflexivity.
  - destruct (f x); simpl; congruence.
  - destruct (f x), (f y); reflexivity.
  - congruence.
Qed.

Lemma filter_all {A} (f : A -> bool) l :
  (forall x, In x l -> f x = true) -> filter f l = l.
Proof.
  induction l as [|a l IH]; simpl; intros H; [reflexivity|].
  rewrite (H a) by now left. f_equal. apply IH. intros x Hx. apply H. now right.
Qed.

Lemma filter_none {A} (f : A -> bool) l :
  (forall x, In x l -> f x = false) -> filter f l = [].
Proof.
  induction l as [|a l IH]; simpl; intros H; [reflexivity|].
  rewrite (H a) by now left. apply IH. intros x Hx. apply H. now right.
Qed.

Lemma last_app_r {A} (l1 l2 : list A) d :
  l2 <> [] -> last (l1 ++ l2) d = last l2 d.
Proof.
  intros N. induction l1 as [|a l1 IH]; [reflexivity|].
  simpl. destruct (l1 ++ l2) eqn:E; [|exact IH].
  apply app_eq_nil in E. destruct E; contradiction.
Qed.

(** The window of a year map without repeated years. *)
Lemma window_shape (years : years_t) first last :
  NoDup (Dict.keys years) ->
  window years = Some (first, last) ->
  In first years /\ In last years
  /\ fst first < fst last
  /\ (forall p, In p years -> fst p <= fst last)
  /\ List.length (filter (fun p => fst first <=? fst p) years)
     = Nat.min 3 (List.length years).
Proof.
  intros N W. destruct (window_In _ _ _ W) as [I1 I2].
  pose proof (sorted_sorted years N) as S.
  unfold window in W. unfold lastn in W.
  set (s := sorted years) in *.
  set (n := (List.length s - 3)%nat) in *.
  pose proof (firstn_skipn n s) as D.
  pose proof (lastn_length 3 s) as Len. unfold lastn in Len. fold n in Len.
  destruct (skipn n s) as [|f rest] eqn:K; [discriminate|].
  destruct rest as [|g rest]; [discriminate|].
  injection W as <- <-.
  rewrite <- D in S.
  pose proof (sorted_app_r _ _ S) as S2.
  assert (Ilast : In (last (g :: rest) f) (g :: rest))
    by (apply last_In; discriminate).
  split; [exact I1|]. split; [exact I2|]. split.
  { inversion S2 as [|? ? _ F]; subst. rewrite Forall_forall in F. exact (F _ Ilast). }
  split.
  { intros p Hp. apply (Permutation_in _ (Permutation_sym (sorted_perm years))) in Hp.
    fold s in Hp. rewrite <- D in Hp.
    assert (E : last (g :: rest) f = last (firstn n s ++ f :: g :: rest) f).
    { rewrite last_app_r by discriminate. reflexivity. }
    change (fst p <= fst (last (g :: rest) f)). rewrite E. apply sorted_last_max; assumption. }
  rewrite (filter_length_perm _ _ _ (Permutation_sym (sorted_perm years))).
  fold s. rewrite <- D at 1. rewrite filter_app, length_app.
  rewrite filter_none, filter_all.
  - simpl List.length at 1. rewrite Len. unfold s.
    rewrite (Permutation_length (sorted_perm years)). reflexivity.
  - intros p Hp. apply Z.leb_le. destruct Hp as [<-|Hp]; [lia|].
    inversion S2 as [|? ? _ F]; subst. rewrite Forall_forall in F.
    specialize (F _ Hp). unfold by_year in F. lia.
  - intros p Hp. apply Z.leb_gt.
    apply (sorted_app_lt _ _ S p f Hp). now left.
Qed.

(** The entry of the accumulator behind a reported row. *)
Lemma row_entry fields cy data rows l5 r :
  filter_20_percent_change fields cy data = Ok (rows, l5) ->
  In r rows ->
  exists years first last rn ac,
    Dict.lookup key_eq_dec (award_id r) (accumulator fields data) = Some years
    /\ NoDup (Dict.keys years)
    /\ window years = Some (first, last)
    /\ qualifies (snd first) (snd last) = true
    /\ r = row_of l5 (award_id r) years rn ac first last.
Proof.
  intros H I. destruct (filter_rows _ _ _ _ _ H) as (_ & _ & R).
  apply R in I. destruct I as (id & years & I & T).
  destruct (row_shape _ _ _ _ _ T) as (first & last & rn & ac & W & Q & E).
  destruct (accumulator_wf fields data) as [N1 N2].
  exists years, first, last, rn, ac.
  assert (A : award_id r = id) by (rewrite E; reflexivity).
  rewrite A. repeat split; auto.
  - now apply (DictFacts.In_lookup key_eq_dec).
  - eauto.
Qed.

(** The rows of [collect] follow the items. *)
Lemma collect_ids l5 infos items : forall rows,
  collect l5 infos items = Ok rows ->
  NoDup (Dict.keys items) ->
  NoDup (map award_id rows)
  /\ forall r, In r rows -> In (award_id r) (Dict.keys items).
Proof.
  induction items as [|[id years] rest IH]; simpl; intros rows H N.
  - injection H as <-. split; [constructor | intros r []].
  - destruct (trend_row l5 infos id years) as [o|e] eqn:T; [|discriminate].
    destruct (collect l5 infos rest) as [rs|e] eqn:C; [|discriminate].
    simpl in H. injection H as <-.
    inversion N as [|? ? NI N']; subst.
    destruct (IH rs eq_refl N') as [D S].
    destruct o as [x|].
    + destruct (row_shape _ _ _ _ _ T) as (first & last & rn & ac & _ & _ & E).
      assert (A : award_id x = id) by (rewrite E; reflexivity).
      split.
      * simpl. constructor; [|exact D]. rewrite A. intros I.
        apply in_map_iff in I. destruct I as (r & Er & Ir).
        apply NI. rewrite <- Er. now apply S.
      * intros r [<-|Ir]; [left; now rewrite A | right; now apply S].
    + split; [exact D|]. intros r Ir. right. now apply S.
Qed.

Lemma rows_distinct fields cy data rows l5 :
  filter_20_percent_change fields cy data = Ok (rows, l5) ->
  NoDup (map award_id rows).
Proof.
  intros H. destruct (accumulator_wf fields data) as [N _].
  unfold accumulator in N.
  unfold filter_20_percent_change in H.
  destruct (accumulate fields data empty) as [[u|e] st]; [|discriminate].
  destruct (collect _ _ _) as [filtered|e] eqn:C; [|discriminate].
  simpl in H. injection H as <- <-. simpl in N.
  destruct (collect_ids _ _ _ _ C N) as [D _].
  eapply Permutation_NoDup; [|exact D].
  apply Permutation_map, Permutation_sym, sort_desc_perm.
Qed.

End WindowFacts.

Import WindowFacts.

Module InfoFacts.

Lemma info_apply ef st st' u k :
  apply_effect ef st = (Ok u, st') ->
  Dict.lookup key_eq_dec k (award_info st')
  = last_info k [ef] (Dict.lookup key_eq_dec k (award_info st)).
Proof.
  destruct ef as [|k' y|k' y x info|k' y e]; simpl; intros H;
    try discriminate; injection H as _ <-; simpl; try reflexivity.
  rewrite (DictFacts.lookup_setitem key_eq_dec). reflexivity.
Qed.

Lemma last_info_cons k ef efs cur :
  last_info k (ef :: efs) cur = last_info k efs (last_info k [ef] cur).
Proof. destruct ef; reflexivity. Qed.

Lemma info_run efs : forall st st' u k,
  run_effects efs st = (Ok u, st') ->
  Dict.lookup key_eq_dec k (award_info st')
  = last_info k efs (Dict.lookup key_eq_dec k (award_info st)).
Proof.
  induction efs as [|ef efs IH]; intros st st' u k H.
  - simpl in H. injection H as _ <-. reflexivity.
  - rewrite last_info_cons. simpl in H.
    destruct (apply_effect ef st) as [[v|e] st1] eqn:A; [|discriminate].
    rewrite <- (info_apply _ _ _ _ k A). eauto.
Qed.

(** The value kept for an award is that of the last record added to it. *)
Lemma last_info_Some k efs : forall cur info,
  last_info k efs cur = Some info ->
  (cur = Some info
   /\ Forall (fun ef => match ef with
                        | Add k' _ _ _ => k' <> k
                        | _ => True
                        end) efs)
  \/ exists l1 y x l2,
       efs = l1 ++ Add k y x info :: l2
       /\ Forall (fun ef => match ef with
                            | Add k' _ _ _ => k' <> k
                            | _ => True
                            end) l2.
Proof.
  induction efs as [|ef efs IH]; intros cur info H.
  - left. split; [exact H | constructor].
  - rewrite last_info_cons in H. apply IH in H.
    destruct H as [[H F]|(l1 & y & x & l2 & E & F)].
    + destruct ef as [|k' y|k' y x i|k' y e]; simpl in H;
        try (left; split; [exact H | constructor; [exact I | exact F]]).
      destruct (key_eq_dec k' k) as [->|NE].
      * right. injection H as ->. exists [], y, x, efs. split; [reflexivity | exact F].
      * left. split; [exact H | constructor; assumption].
    + right. exists (ef :: l1), y, x, l2. split; [now rewrite E | exact F].
Qed.

Lemma effect_Add fields a k y x info :
  effect_of fields a = Add k y x info ->
  year_of a = Ok y /\ id_of a = Ok k /\ amount_of a = Ok x
  /\ info = info_for fields a /\ exists d, a = PDict d.
Proof.
  unfold effect_of. destruct (year_of a) as [y'|] eqn:Y; [|discriminate].
  destruct (id_of a) as [k'|] eqn:K; [|discriminate].
  destruct (amount_of a) as [x'|e] eqn:X; [|destruct (caught e); discriminate].
  intros H. injection H as <- <- <- <-. repeat split.
  unfold id_of in K. destruct (getitem a "award_id") as [v|] eqn:G; [|discriminate].
  exact (getitem_dict _ _ _ G).
Qed.

Lemma py_get_dict d f dflt :
  py_get (PDict d) f dflt
  = Ok (match assoc f d with Some v => v | None => dflt end).
Proof. unfold py_get. destruct (assoc f d); reflexivity. Qed.

Lemma assoc_info_get fields a f v :
  (exists d, a = PDict d) ->
  assoc f (info_for fields a) = Some v ->
  py_get a f (PStr "") = Ok v.
Proof.
  intros [d ->]. rewrite assoc_mk_info, py_get_dict.
  destruct (in_dec string_dec f fields); [|discriminate]. congruence.
Qed.

(** The fields of a row are read from the value kept for its award. *)
Lemma row_info fields cy data rows l5 r :
  filter_20_percent_change fields cy data = Ok (rows, l5) ->
  In r rows ->
  exists info,
    Dict.lookup key_eq_dec (award_id r)
      (award_info (snd (accumulate fields data empty))) = Some info
    /\ assoc "recipient_name" info = Some (recipient_name r)
    /\ assoc "awarding_agency_code" info = Some (awarding_agency_code r).
Proof.
  intros H I. destruct (filter_rows _ _ _ _ _ H) as (_ & _ & R).
  apply R in I. destruct I as (id & years & _ & T).
  rewrite trend_row_spec in T.
  destruct (window years) as [[first last]|]; [|discriminate].
  destruct (qualifies _ _); [|discriminate].
  unfold emit, info_of, info_get in T.
  destruct (Dict.lookup key_eq_dec id _) as [info|] eqn:L; [|discriminate].
  simpl in T.
  destruct (assoc "recipient_name" info) as [rn|] eqn:A1; [|discriminate].
  simpl in T.
  destruct (assoc "awarding_agency_code" info) as [ac|] eqn:A2; [|discriminate].
  simpl in T. injection T as <-. simpl. eauto.
Qed.

(** ** The outcome of the engine *)

Lemma overflows_aborts fields a :
  complete fields -> aborts (effect_of fields a) = overflows a.
Proof.
  intros C. pose proof (effect_of_ok fields a C) as OK.
  unfold effect_of, overflows in *.
  destruct (year_of a); [|reflexivity].
  destruct (id_of a); [|reflexivity].
  destruct (amount_of a) as [x|e]; [reflexivity|].
  destruct (caught e) eqn:Ce.
  - destruct e; try discriminate; reflexivity.
  - simpl in OK. subst e. reflexivity.
Qed.

Lemma engine_outcome fields cy data :
  complete fields ->
  if existsb overflows data
  then filter_20_percent_change fields cy data = Raise OverflowError
  else exists rows,
         filter_20_percent_change fields cy data = Ok (rows, last_5_years cy).
Proof.
  intros C.
  pose proof (run_completes (map (effect_of fields) data) empty) as RC.
  rewrite <- accumulate_spec in RC.
  assert (X : existsb overflows data = false
              <-> Forall (fun ef => aborts ef = false) (map (effect_of fields) data)).
  { rewrite Forall_map. split.
    - intros E. apply Forall_forall. intros a Ia. rewrite (overflows_aborts _ _ C).
      destruct (overflows a) eqn:Oa; [|reflexivity].
      assert (T : existsb overflows data = true) by (apply existsb_exists; eauto).
      congruence.
    - intros F. destruct (existsb overflows data) eqn:E; [|reflexivity].
      apply existsb_exists in E. destruct E as (a & Ia & Oa).
      rewrite Forall_forall in F. specialize (F a Ia).
      rewrite (overflows_aborts _ _ C) in F. congruence. }
  destruct (filter_returns fields cy data C) as [[rows H]|H].
  - destruct (filter_rows _ _ _ _ _ H) as (Cm & _).
    apply RC, X in Cm. rewrite Cm. eauto.
  - destruct (existsb overflows data); [exact H|]. exfalso.
    assert (Cm : fst (accumulate fields data empty) = Ok tt)
      by (apply RC, X; reflexivity).
    unfold filter_20_percent_change in H.
    destruct (accumulate fields data empty) as [[[]|e] st] eqn:A; [|discriminate].
    pose proof (accumulate_inv fields data tt st C A) as Inv.
    destruct (collect_ok (last_5_years cy) (award_info st) (award_years st))
      as [rows Cr].
    { intros id years I. exact (trend_row_ok _ _ _ _ Inv I). }
    rewrite Cr in H. discriminate.
Qed.

(** ** The two scripts run the same engine *)

Lemma effect_of_fields a :
  effect_sim (effect_of CONSCRAPERFINAL.fields a) (effect_of CONSCRAPERV2.fields a).
Proof.
  unfold effect_of.
  destruct (year_of a); [|reflexivity].
  destruct (id_of a); [|reflexivity].
  destruct (amount_of a) as [x|e] eqn:X; [|destruct (caught e); reflexivity].
  repeat split.
  unfold amount_of in X.
  destruct (getitem a "federal_action_obligation") as [v|] eqn:G; [|discriminate].
  destruct (getitem_dict _ _ _ G) as [d ->].
  intros f NT. rewrite !assoc_mk_info.
  unfold CONSCRAPERFINAL.fields, CONSCRAPERV2.fields.
  rewrite !if_in_cons.
  destruct (String.eqb "recipient_name" f); [reflexivity|].
  destruct (String.eqb "awarding_agency_code" f); [reflexivity|].
  destruct (String.eqb_spec "trend" f) as [E|E]; [congruence|].
  reflexivity.
Qed.

Lemma same_engine cy data :
  CONSCRAPERV2.filter_20_percent_change cy data
  = CONSCRAPERFINAL.filter_20_percent_change cy data.
Proof.
  unfold CONSCRAPERV2.filter_20_percent_change,
    CONSCRAPERFINAL.filter_20_percent_change, filter_20_percent_change.
  rewrite !accumulate_spec.
  assert (FE : Forall2 effect_sim (map (effect_of CONSCRAPERFINAL.fields) data)
                                  (map (effect_of CONSCRAPERV2.fields) data)).
  { induction data; simpl; constructor; [apply effect_of_fields | assumption]. }
  destruct (run_effects_sim _ _ FE empty empty) as [A [Y I]].
  { split; [reflexivity | constructor]. }
  destruct (run_effects _ empty) as [r1 s1], (run_effects _ empty) as [r2 s2].
  simpl in A, Y, I. subst r2. destruct r1 as [[]|e]; [|reflexivity].
  now rewrite Y, (collect_sim _ _ _ _ I).
Qed.

End InfoFacts.

Import InfoFacts.

Module ReportFacts.

Lemma max_by_spec {A} (f : A -> float) xs : forall best,
  (forall x, In x (best :: xs) -> is_nan (f x) = false) ->
  exists l1 l2,
    best :: xs = l1 ++ max_by f best xs :: l2
    /\ (forall x, In x l1 -> (f x <? f (max_by f best xs))%float = true)
    /\ (forall x, In x l2 -> (f x <=? f (max_by f best xs))%float = true)
    /\ (f best <=? f (max_by f best xs))%float = true.
Proof.
  induction xs as [|x xs IH]; intros best N.
  - exists [], []. simpl. repeat split; try contradiction.
    apply leb_refl, N. now left.
  - simpl. destruct (f best <? f x)%float eqn:E.
    + destruct (IH x) as (l1 & l2 & D & L1 & L2 & Lx).
      { intros y Hy. apply N. now right. }
      exists (best :: l1), l2. rewrite D. repeat split; auto.
      * intros y [<-|Hy]; [|auto]. eapply ltb_leb_trans; eassumption.
      * apply ltb_leb. eapply ltb_leb_trans; eassumption.
    + assert (Lx : (f x <=? f best)%float = true).
      { apply not_ltb_leb; auto; apply N; simpl; auto. }
      destruct (IH best) as (l1 & l2 & D & L1 & L2 & Lb).
      { intros y [<-|Hy]; apply N; simpl; auto. }
      remember (max_by f best xs) as m eqn:Em. clear Em.
      destruct l1 as [|b l1].
      * simpl in D. injection D as D1 D2. subst m xs.
        exists [], (x :: l2). simpl.
        repeat split; try contradiction; auto.
        intros y [<-|Hy]; [|auto]. exact Lx.
      * simpl in D. injection D as D1 D2. subst b xs.
        exists (best :: x :: l1), l2. simpl.
        repeat split; auto.
        intros y [<-|[<-|Hy]].
        -- apply L1. now left.
        -- eapply leb_ltb_trans; [exact Lx|]. apply L1. now left.
        -- apply L1. now right.
Qed.

(** ** Writing rows whose columns are those of the header *)

Lemma writerows_ok {A} (cols : A -> list Z) header data :
  Forall (fun r => cols r = header) data ->
  writerows cols header data = (Ok tt, data).
Proof.
  induction 1 as [|r rest E F IH]; simpl; [reflexivity|].
  rewrite E, IH.
  replace (forallb _ header) with true; [reflexivity|].
  symmetry. apply forallb_forall. intros y Hy. apply existsb_exists.
  exists y. split; [exact Hy | apply Z.eqb_refl].
Qed.

Lemma save_to_csv_ok {A} (cols : A -> list Z) wrap header data name fs :
  Forall (fun r => cols r = header) data ->
  save_to_csv cols wrap data name fs
  = (Ok tt, match data with
            | [] => fs
            | _ => Dict.setitem string_dec name (wrap header data) fs
            end).
Proof.
  intros F. unfold save_to_csv. destruct data as [|r rest]; [reflexivity|].
  assert (E : cols r = header) by (inversion F; assumption).
  rewrite E, (writerows_ok cols header) by assumption. reflexivity.
Qed.

Lemma engine_cols fields cy data rows l5 :
  Engine.filter_20_percent_change fields cy data = Ok (rows, l5) ->
  Forall (fun r => award_cols r = l5) rows.
Proof.
  intros H. apply Forall_forall. intros r I.
  destruct (row_entry _ _ _ _ _ _ H I) as (years & first & last & rn & ac & _ & _ & _ & _ & E).
  rewrite E. unfold award_cols, Dict.keys. simpl.
  rewrite map_map. simpl. apply map_id.
Qed.

Lemma Forall_filter {A} (P : A -> Prop) f l : Forall P l -> Forall P (filter f l).
Proof.
  intros F. apply Forall_forall. intros x Hx. apply filter_In in Hx.
  rewrite Forall_forall in F. now apply F.
Qed.

Lemma firstn_In {A} n (l : list A) x : In x (firstn n l) -> In x l.
Proof.
  intros H. rewrite <- (firstn_skipn n l). apply in_or_app. now left.
Qed.

Lemma Forall_firstn {A} (P : A -> Prop) n l : Forall P l -> Forall P (firstn n l).
Proof.
  intros F. apply Forall_forall. intros x Hx. apply firstn_In in Hx.
  rewrite Forall_forall in F. now apply F.
Qed.

Lemma Forall_trend_filter (P : row -> Prop) t l :
  Forall P l -> Forall P (trend_filter t l).
Proof.
  intros F. unfold trend_filter. destruct (String.eqb t "both"); [exact F|].
  now apply Forall_filter.
Qed.

Lemma sorted_filter {A} (R : A -> A -> Prop) f l :
  StronglySorted R l -> StronglySorted R (filter f l).
Proof.
  induction 1 as [|a l S IH F]; simpl; [constructor|].
  destruct (f a); [|exact IH]. constructor; [exact IH|]. now apply Forall_filter.
Qed.

Lemma sorted_trend_filter t l :
  StronglySorted ranked l -> StronglySorted ranked (trend_filter t l).
Proof.
  intros S. unfold trend_filter. destruct (String.eqb t "both"); [exact S|].
  now apply sorted_filter.
Qed.

Lemma sorted_app_ranked {A} (R : A -> A -> Prop) (l1 l2 : list A) :
  StronglySorted R (l1 ++ l2) -> forall a b, In a l1 -> In b l2 -> R a b.
Proof.
  induction l1 as [|x l1 IH]; simpl; intros S a b Ha Hb; [contradiction|].
  inversion S as [|? ? S' F]; subst. destruct Ha as [->|Ha].
  - rewrite Forall_forall in F. apply F, in_or_app. now right.
  - eauto.
Qed.

(** The first [n] rows of a label, in a ranked list. *)
Lemma top_rows label n data :
  StronglySorted ranked data ->
  let listed := firstn n (filter (fun d => String.eqb (trend d) label) data) in
  (List.length listed <= n)%nat
  /\ (forall r, In r listed -> In r data /\ trend r = label)
  /\ (forall r, In r data -> trend r = label -> ~ In r listed ->
        forall t, In t listed -> ranked t r)
  /\ (forall r, In r data -> trend r = label ->
        (List.length (filter (fun d => String.eqb (trend d) label) data) <= n)%nat ->
        In r listed).
Proof.
  intros S. cbv zeta.
  set (l := filter (fun d => String.eqb (trend d) label) data).
  pose proof (firstn_skipn n l) as D.
  assert (Sl : StronglySorted ranked l) by now apply sorted_filter.
  split; [apply firstn_le_length|]. split.
  { intros r Hr. apply firstn_In in Hr. apply filter_In in Hr.
    destruct Hr as [Hr E]. split; [exact Hr | now apply String.eqb_eq]. }
  split.
  { intros r Hr E NI t Ht.
    assert (Il : In r l) by (apply filter_In; split; [exact Hr | now apply String.eqb_eq]).
    rewrite <- D in Il, Sl. apply in_app_or in Il. destruct Il as [Il|Il]; [contradiction|].
    exact (sorted_app_ranked _ _ _ Sl t r Ht Il). }
  intros r Hr E Len.
  rewrite firstn_all2 by exact Len.
  apply filter_In. split; [exact Hr | now apply String.eqb_eq].
Qed.

End ReportFacts.

Import ReportFacts.

Module PivotFacts.

Lemma grown_nil l5 g : grown l5 g g [].
Proof. unfold grown. simpl. repeat split. lia. Qed.

Lemma get_group_setitem k k' g dflt (rs : groups) :
  Dict.get key_eq_dec k' dflt (Dict.setitem key_eq_dec k g rs)
  = if key_eq_dec k k' then g else Dict.get key_eq_dec k' dflt rs.
Proof.
  unfold Dict.get. rewrite (DictFacts.lookup_setitem key_eq_dec).
  destruct (key_eq_dec k k'); reflexivity.
Qed.

Lemma awards_of_cons_eq rec a data :
  hash_key (recipient_name a) = Ok rec ->
  awards_of rec (a :: data) = a :: awards_of rec data.
Proof.
  intros H. unfold awards_of, of_recipient. simpl. rewrite H.
  destruct (key_eq_dec rec rec); [reflexivity | contradiction].
Qed.

Lemma awards_of_cons_neq rec k a data :
  hash_key (recipient_name a) = Ok rec -> rec <> k ->
  awards_of k (a :: data) = awards_of k data.
Proof.
  intros H N. unfold awards_of, of_recipient. simpl. rewrite H.
  destruct (key_eq_dec rec k); [contradiction | reflexivity].
Qed.

Lemma group_of l5 data : forall (rs rs' : groups),
  group_awards l5 rs data = Ok rs' ->
  forall k, grown l5 (Dict.get key_eq_dec k (new_group l5) rs)
                     (Dict.get key_eq_dec k (new_group l5) rs')
                     (awards_of k data).
Proof.
  induction data as [|a rest IH]; intros rs rs' H k; cbn [group_awards] in H.
  - injection H as <-. apply grown_nil.
  - destruct (add_award l5 rs a) as [rs1|e] eqn:E; cbn [bind] in H; [|discriminate].
    specialize (IH _ _ H k). unfold add_award in E.
    destruct (hash_key (recipient_name a)) as [rec|e] eqn:Hk; simpl in E;
      [|discriminate].
    injection E as <-. rewrite get_group_setitem in IH.
    destruct (key_eq_dec rec k) as [<-|NE].
    + rewrite (awards_of_cons_eq _ _ _ Hk).
      destruct IH as (C & T & S & F). unfold grown. simpl in *.
      rewrite C, T, S, F. repeat split. lia.
    + now rewrite (awards_of_cons_neq _ _ _ _ Hk NE).
Qed.

Lemma group_hashable l5 data : forall (rs rs' : groups),
  group_awards l5 rs data = Ok rs' ->
  forall a, In a data -> exists k, hash_key (recipient_name a) = Ok k.
Proof.
  induction data as [|a rest IH]; simpl; intros rs rs' H b Hb; [contradiction|].
  destruct (add_award l5 rs a) as [rs1|e] eqn:E; simpl in H; [|discriminate].
  destruct Hb as [<-|Hb]; [|eauto].
  unfold add_award in E. destruct (hash_key (recipient_name a)); [eauto | discriminate].
Qed.

Lemma pivot_rows set_iter l5 items : forall rows,
  pivot set_iter l5 items = Ok rows ->
  Forall2 (fun it r => pivot_row set_iter l5 (fst it) (snd it) = Ok r) items rows.
Proof.
  induction items as [|[rec info] rest IH]; simpl; intros rows H.
  - injection H as <-. constructor.
  - destruct (pivot_row set_iter l5 rec info) as [x|e] eqn:EP; simpl in H; [|discriminate].
    destruct (pivot set_iter l5 rest) as [rs|e] eqn:ER; simpl in H; [|discriminate].
    injection H as <-. constructor; [exact EP | auto].
Qed.

Lemma pivot_row_fields set_iter l5 rec info r :
  pivot_row set_iter l5 rec info = Ok r ->
  r_recipient_name r = rec
  /\ r_award_count r = g_award_count info
  /\ r_total_5yr_funding r = round2 (g_total_5yr_funding info)
  /\ average_change info = Ok (r_average_change_percent r)
  /\ r_funding r
     = map (fun y => (y, round2 (Dict.get Z.eq_dec y zero (g_funding info)))) l5.
Proof.
  unfold pivot_row.
  destruct (average_change info) as [avg|]; simpl; [|discriminate].
  destruct (major_trend set_iter (g_trends info)) as [t|]; simpl; [|discriminate].
  intros [= <-]. simpl. auto.
Qed.

Lemma Forall2_In_r {A B} (P : A -> B -> Prop) l1 l2 b :
  Forall2 P l1 l2 -> In b l2 -> exists a, In a l1 /\ P a b.
Proof.
  induction 1 as [|x y l1 l2 H F IH]; intros I; [contradiction|].
  destruct I as [<-|I]; [exists x; split; [now left | exact H]|].
  destruct (IH I) as (a & Ia & Pa). exists a. split; [now right | exact Pa].
Qed.

Lemma pivot_names set_iter l5 items rows :
  pivot set_iter l5 items = Ok rows ->
  map r_recipient_name rows = Dict.keys items
  /\ map r_award_count rows = map (fun it => g_award_count (snd it)) items.
Proof.
  intros H. apply pivot_rows in H. unfold Dict.keys.
  induction H as [|[rec info] r items rows P F [IH1 IH2]]; simpl; [auto|].
  destruct (pivot_row_fields _ _ _ _ _ P) as (N & C & _). simpl in *.
  rewrite N, C, IH1, IH2. auto.
Qed.

Lemma funding_fold l5 mine y :
  NoDup l5 -> In y l5 ->
  Dict.get Z.eq_dec y zero (fold_left (add_funding l5) mine (zero_by_year l5))
  = py_sum (map (funding_of y) mine).
Proof.
  intros N I. rewrite (totals_by_year y l5 mine _ N I), get_zero_by_year.
  reflexivity.
Qed.

(** The figures of a recipient row are those of the recipient's awards. *)
Lemma recipient_figures set_iter data l5 rows r :
  NoDup l5 ->
  save_recipient_summary set_iter data l5 = Ok rows ->
  In r rows ->
  let mine := awards_of (r_recipient_name r) data in
  mine <> []
  /\ r_award_count r = List.length mine
  /\ r_total_5yr_funding r = round2 (py_sum (map total_5yr_funding mine))
  /\ (exists n, float_of_int (Z.of_nat (List.length mine)) = Ok n
                /\ r_average_change_percent r
                   = round2 (py_sum (map change_percent mine) / n)%float)
  /\ r_funding r
     = map (fun y => (y, round2 (py_sum (map (funding_of y) mine)))) l5.
Proof.
  intros ND. unfold save_recipient_summary.
  destruct (group_awards l5 [] data) as [rs|e] eqn:G; simpl; [|discriminate].
  destruct (pivot set_iter l5 rs) as [pv|e] eqn:P; simpl; [|discriminate].
  intros [= <-] HI.
  apply (Permutation_in _ (sort_by_total_perm pv)) in HI.
  destruct (Forall2_In_r _ _ _ _ (pivot_rows _ _ _ _ P) HI) as ([rec info] & I & PR).
  simpl in PR. destruct (pivot_row_fields _ _ _ _ _ PR) as (Nm & C & T & A & F).
  rewrite Nm. cbv zeta.
  destruct (group_awards_spec _ _ _ _ G) as (_ & NDk & _).
  pose proof (DictFacts.In_lookup key_eq_dec _ _ _ (NDk (NoDup_nil _)) I) as L.
  pose proof (group_of _ _ _ _ G rec) as Gr.
  rewrite (get_Some key_eq_dec rec (new_group l5) info rs L) in Gr.
  change (Dict.get key_eq_dec rec (new_group l5) []) with (new_group l5) in Gr.
  destruct Gr as (Gc & Gt & Gs & Gf). simpl in Gc, Gt, Gs, Gf.
  set (mine := awards_of rec data) in *.
  assert (NE : mine <> []).
  { destruct (recipient_rows set_iter data l5 (fold_right insert_by_total [] pv)) with (r := r)
      as [NL _].
    - unfold save_recipient_summary. rewrite G. simpl. rewrite P. reflexivity.
    - apply (Permutation_in _ (Permutation_sym (sort_by_total_perm pv))), HI.
    - rewrite Nm in NL. intros E. apply NL. unfold labels_of.
      change (filter _ data) with (awards_of rec data). fold mine. now rewrite E. }
  split; [exact NE|]. split; [congruence|]. split.
  { rewrite T, Gt. reflexivity. }
  split.
  { unfold average_change in A. rewrite Gc in A.
    destruct (List.length mine) as [|n] eqn:Len.
    - destruct mine; [contradiction | discriminate].
    - destruct (float_of_int (Z.of_nat (S n))) as [x|e] eqn:Fx; simpl in A;
        [|discriminate].
      exists x. split; [reflexivity|].
      unfold truediv in A. destruct (x =? zero)%float; [discriminate|].
      simpl in A. injection A as <-. rewrite Gs. reflexivity. }
  rewrite F, Gf. apply map_ext_in. intros y Hy.
  now rewrite (funding_fold l5 mine y ND Hy).
Qed.

Lemma sum_setitem k g (rs : groups) dflt :
  g_award_count dflt = 0%nat ->
  (list_sum (map (fun it => g_award_count (snd it)) (Dict.setitem key_eq_dec k g rs))
   + g_award_count (Dict.get key_eq_dec k dflt rs))%nat
  = (list_sum (map (fun it => g_award_count (snd it)) rs) + g_award_count g)%nat.
Proof.
  intros Z0. induction rs as [|[k0 v0] rs IH].
  - simpl. change (Dict.get key_eq_dec k dflt []) with dflt. lia.
  - unfold Dict.get in *. simpl. destruct (key_eq_dec k0 k); simpl; lia.
Qed.

Lemma group_count l5 data : forall (rs rs' : groups),
  group_awards l5 rs data = Ok rs' ->
  list_sum (map (fun it => g_award_count (snd it)) rs')
  = (list_sum (map (fun it => g_award_count (snd it)) rs) + List.length data)%nat.
Proof.
  induction data as [|a rest IH]; simpl; intros rs rs' H.
  - injection H as <-. lia.
  - destruct (add_award l5 rs a) as [rs1|e] eqn:E; simpl in H; [|discriminate].
    rewrite (IH _ _ H). unfold add_award in E.
    destruct (hash_key (recipient_name a)) as [rec|e]; simpl in E; [|discriminate].
    injection E as <-.
    pose proof (sum_setitem rec
      {| g_award_count := S (g_award_count (Dict.get key_eq_dec rec (new_group l5) rs));
         g_total_5yr_funding :=
           (g_total_5yr_funding (Dict.get key_eq_dec rec (new_group l5) rs)
            + total_5yr_funding a)%float;
         g_sum_change_percent :=
           (g_sum_change_percent (Dict.get key_eq_dec rec (new_group l5) rs)
            + change_percent a)%float;
         g_trends := g_trends (Dict.get key_eq_dec rec (new_group l5) rs) ++ [trend a];
         g_funding := add_funding l5
                        (g_funding (Dict.get key_eq_dec rec (new_group l5) rs)) a |}
      rs (new_group l5) eq_refl) as S.
    simpl in S. lia.
Qed.

Lemma list_sum_perm l l' : Permutation l l' -> list_sum l = list_sum l'.
Proof. induction 1; simpl; lia. Qed.

(** The recipient rows split the awards among the recipients. *)
Lemma recipient_partition set_iter data l5 rows :
  save_recipient_summary set_iter data l5 = Ok rows ->
  NoDup (map r_recipient_name rows)
  /\ (forall a, In a data ->
        exists r, In r rows
                  /\ hash_key (recipient_name a) = Ok (r_recipient_name r))
  /\ list_sum (map r_award_count rows) = List.length data.
Proof.
  unfold save_recipient_summary.
  destruct (group_awards l5 [] data) as [rs|e] eqn:G; simpl; [|discriminate].
  destruct (pivot set_iter l5 rs) as [pv|e] eqn:P; simpl; [|discriminate].
  intros [= <-].
  destruct (pivot_names _ _ _ _ P) as [Nm Ct].
  destruct (group_awards_spec _ _ _ _ G) as (_ & NDk & _).
  pose proof (sort_by_total_perm pv) as Pm.
  split; [|split].
  - eapply Permutation_NoDup; [apply Permutation_map, Permutation_sym, Pm|].
    rewrite Nm. apply NDk. constructor.
  - intros a Ia. destruct (group_hashable _ _ _ _ G a Ia) as [k Hk].
    pose proof (group_of _ _ _ _ G k) as (Gc & _).
    change (Dict.get key_eq_dec k (new_group l5) []) with (new_group l5) in Gc.
    simpl in Gc.
    assert (Im : In a (awards_of k data)).
    { apply filter_In. split; [exact Ia|]. unfold of_recipient. rewrite Hk.
      destruct (key_eq_dec k k); [reflexivity | contradiction]. }
    destruct (Dict.lookup key_eq_dec k rs) as [g|] eqn:L.
    + apply (DictFacts.lookup_In key_eq_dec) in L.
      assert (Ik : In k (map r_recipient_name pv)).
      { rewrite Nm. change k with (fst (k, g)). now apply in_map. }
      apply in_map_iff in Ik. destruct Ik as (r & Er & Ir).
      exists r. split; [exact (Permutation_in _ (Permutation_sym Pm) Ir)|].
      now rewrite Er.
    + rewrite (get_None key_eq_dec k (new_group l5) rs L) in Gc. simpl in Gc.
      destruct (awards_of k data); [contradiction | discriminate].
  - rewrite (list_sum_perm _ _ (Permutation_map r_award_count Pm)), Ct.
    rewrite (group_count _ _ _ _ G). reflexivity.
Qed.

End PivotFacts.

Import PivotFacts.

Module MainFacts.

Lemma save_put {A} (cols : A -> list Z) wrap header data name fs :
  Forall (fun r => cols r = header) data ->
  save_to_csv cols wrap data name fs = (Ok tt, put (wrap header) name data fs).
Proof.
  intros F. rewrite (save_to_csv_ok cols wrap header) by assumption.
  unfold put. destruct data; reflexivity.
Qed.

Lemma top_run l5 awards fs :
  Forall (fun r => award_cols r = l5) awards ->
  save_top_increases_decreases awards 10 fs
  = (Ok tt, put (Awards l5) "top_10_decreases.csv" (top "Decrease" awards)
              (put (Awards l5) "top_10_increases.csv" (top "Increase" awards) fs)).
Proof.
  intros F. unfold save_top_increases_decreases, wbind.
  rewrite (save_put award_cols Awards l5)
    by (apply Forall_firstn, Forall_filter, F).
  rewrite (save_put award_cols Awards l5)
    by (apply Forall_firstn, Forall_filter, F).
  reflexivity.
Qed.

Lemma max_by_In {A} (f : A -> float) xs : forall best,
  In (max_by f best xs) (best :: xs).
Proof.
  induction xs as [|x xs IH]; intros best; simpl; [now left|].
  destruct (f best <? f x)%float.
  - right. apply IH.
  - destruct (IH best) as [H|H]; [now left | right; now right].
Qed.

Lemma biggest_run l5 awards fs :
  Forall (fun r => award_cols r = l5) awards ->
  save_biggest_absolute_change awards fs
  = (Ok tt, put (Awards l5) "biggest_absolute_change.csv" (biggest awards) fs).
Proof.
  intros F. unfold save_biggest_absolute_change, biggest.
  destruct awards as [|a rest]; [reflexivity|].
  apply (save_put award_cols Awards l5). constructor; [|constructor].
  rewrite Forall_forall in F. apply F, max_by_In.
Qed.



Lemma lookup_put {A} (wrap : list A -> sheet) name rows fs name' :
  Dict.lookup string_dec name' (put wrap name rows fs)
  = match rows with
    | [] => Dict.lookup string_dec name' fs
    | _ => if string_dec name name' then Some (wrap rows)
           else Dict.lookup string_dec name' fs
    end.
Proof.
  unfold put. destruct rows; [reflexivity|].
  apply (DictFacts.lookup_setitem string_dec).
Qed.

Lemma lookup_put_neq {A} (wrap : list A -> sheet) name rows fs name' :
  name <> name' ->
  Dict.lookup string_dec name' (put wrap name rows fs)
  = Dict.lookup string_dec name' fs.
Proof.
  intros N. rewrite lookup_put. destruct rows; [reflexivity|].
  destruct (string_dec name name'); [contradiction | reflexivity].
Qed.

Lemma lookup_put_eq {A} (wrap : list A -> sheet) name rows fs :
  Dict.lookup string_dec name (put wrap name rows fs)
  = match rows with
    | [] => Dict.lookup string_dec name fs
    | _ => Some (wrap rows)
    end.
Proof.
  rewrite lookup_put. destruct rows; [reflexivity|].
  destruct (string_dec name name); [reflexivity | contradiction].
Qed.


End MainFacts.

Import MainFacts.

Module FetchFacts.
Import Net.

Lemma reached_bound m page :
  0 < m -> reached (Some m) page = false -> page <= m.
Proof.
  unfold reached. intros M H.
  destruct (Z.eqb_spec m 0); [lia|]. simpl in H. apply Z.ltb_ge in H. exact H.
Qed.

Lemma to_nat_succ z : 0 <= z -> Z.to_nat (z + 1) = S (Z.to_nat z).
Proof. intros H. rewrite Z2Nat.inj_add by lia. simpl. lia. Qed.

(** ** CONSCRAPERV2.py *)

Section V2.
Variable net : service.
Variable CGAC : option string.
Variable current_year : Z.
Variable max_pages : option Z.
Variables recipient_keyword agency_keyword : option string.
Variable max_retries : Z.

Lemma attempts_count left p : forall n,
  (n <= snd (FetchV2.attempts net left p n) <= n + left)%nat.
Proof.
  induction left as [|left IH]; intros n; simpl; [lia|].
  destruct (net n p); simpl; try lia.
  specialize (IH (S n)). lia.
Qed.

Lemma attempts_fail left p : forall n,
  (forall i, (i < left)%nat -> net (n + i)%nat p = RequestException) ->
  FetchV2.attempts net left p n = (None, (n + left)%nat).
Proof.
  induction left as [|left IH]; intros n F; simpl.
  - f_equal. lia.
  - rewrite <- (Nat.add_0_r n) at 1. rewrite (F 0%nat) by lia.
    rewrite IH.
    + f_equal. lia.
    + intros i Hi. replace (S n + i)%nat with (n + S i)%nat by lia.
      apply F. lia.
Qed.

Lemma pages_more fuel : forall page n output x,
  FetchV2.pages net CGAC current_year max_pages recipient_keyword
      agency_keyword max_retries fuel page n output = Some x ->
  FetchV2.pages net CGAC current_year max_pages recipient_keyword
      agency_keyword max_retries (S fuel) page n output = Some x.
Proof.
  induction fuel as [|fuel IH]; intros page n output x H; [discriminate|].
  cbn [FetchV2.pages] in H |- *.
  destruct (FetchV2.attempts net _ _ n) as [[data|] n']; [|exact H].
  destruct (py_get data "results" (PList [])) as [results|e]; [|exact H].
  destruct (negb (truthy results)); [exact H|].
  destruct (bind _ _) as [items|e]; [|exact H].
  cbv zeta in H |- *.
  destruct (reached max_pages (page + 1)); [exact H|].
  apply IH, H.
Qed.

Lemma pages_fuel fuel fuel' page n output x :
  (fuel <= fuel')%nat ->
  FetchV2.pages net CGAC current_year max_pages recipient_keyword
      agency_keyword max_retries fuel page n output = Some x ->
  FetchV2.pages net CGAC current_year max_pages recipient_keyword
      agency_keyword max_retries fuel' page n output = Some x.
Proof.
  induction 1 as [|fuel' L IH]; intros H; [exact H|].
  apply pages_more, IH, H.
Qed.

Lemma pages_bound m :
  max_pages = Some m -> 0 < m ->
  forall fuel page n output,
    page <= m -> (Z.to_nat (m - page + 1) <= fuel)%nat ->
    exists r n',
      FetchV2.pages net CGAC current_year max_pages recipient_keyword
      agency_keyword max_retries fuel page n output = Some (r, n')
      /\ (n' <= n + Z.to_nat (m - page + 1) * Z.to_nat max_retries)%nat.
Proof.
  intros MP M. induction fuel as [|fuel IH]; intros page n output P F.
  - rewrite to_nat_succ in F by lia. lia.
  - cbn [FetchV2.pages].
    pose proof (attempts_count (Z.to_nat max_retries)
                  (FetchV2.payload_of CGAC current_year page) n) as C.
    rewrite to_nat_succ by lia. rewrite to_nat_succ in F by lia.
    rewrite Nat.mul_succ_l.
    specialize (IH (page + 1)).
    replace (m - (page + 1) + 1) with (m - page) in IH by lia.
    remember (Z.to_nat max_retries) as R eqn:ER.
    remember (Z.to_nat (m - page)) as k eqn:Ek.
    remember (k * R)%nat as kR eqn:EkR.
    destruct (FetchV2.attempts net _ _ n) as [[data|] n1]; simpl in C;
      [|eexists _, _; split; [reflexivity | lia]].
    destruct (py_get data "results" (PList [])) as [results|e];
      [|eexists _, _; split; [reflexivity | lia]].
    destruct (negb (truthy results));
      [eexists _, _; split; [reflexivity | lia]|].
    destruct (bind _ _) as [items|e];
      [|eexists _, _; split; [reflexivity | lia]].
    cbv zeta.
    destruct (reached max_pages (page + 1)) eqn:Re;
      [eexists _, _; split; [reflexivity | lia]|].
    rewrite MP in Re. apply (reached_bound _ _ M) in Re.
    destruct (IH n1 (output ++ items)) as (r & n' & E & B); [lia | lia |].
    exists r, n'. split; [exact E | lia].
Qed.

Lemma pages_unbounded :
  always_results net ->
  (max_pages = None \/ max_pages = Some 0) ->
  0 < max_retries ->
  given recipient_keyword = None -> given agency_keyword = None ->
  forall fuel page n output,
    FetchV2.pages net CGAC current_year max_pages recipient_keyword
      agency_keyword max_retries fuel page n output = None.
Proof.
  intros A MP R K1 K2. induction fuel as [|fuel IH]; intros page n output;
    [reflexivity|].
  cbn [FetchV2.pages].
  destruct (Z.to_nat max_retries) as [|left] eqn:L; [lia|].
  cbn [FetchV2.attempts].
  destruct (A n (FetchV2.payload_of CGAC current_year page))
    as (d & r & rest & -> & Rs).
  unfold py_get. rewrite Rs. cbn [truthy negb].
  unfold FetchV2.filter_by. rewrite K1. cbn [bind]. rewrite K2. cbn [bind iterate].
  cbv zeta.
  replace (reached max_pages (page + 1)) with false; [apply IH|].
  destruct MP as [-> | ->]; reflexivity.
Qed.

(** ** The keyword filters *)

Lemma keep_sound kw field rs : forall kept,
  FetchV2.keep kw field rs = Ok kept ->
  forall a, In a kept -> In a rs /\ matches kw field a.
Proof.
  induction rs as [|r rest IH]; simpl; intros kept H a Ia.
  - injection H as <-. contradiction.
  - destruct (py_get r field (PStr "")) as [v|] eqn:G; simpl in H; [|discriminate].
    destruct (py_lower v) as [low|] eqn:Lw; simpl in H; [|discriminate].
    destruct (FetchV2.keep kw field rest) as [rest'|] eqn:K; simpl in H;
      [|discriminate].
    injection H as <-.
    destruct v; simpl in Lw; try discriminate. injection Lw as <-.
    destruct (contains (lower kw) (lower s)) eqn:C.
    + destruct Ia as [<-|Ia].
      * split; [now left|]. exists s. split; assumption.
      * destruct (IH _ eq_refl a Ia). split; [now right | assumption].
    + destruct (IH _ eq_refl a Ia). split; [now right | assumption].
Qed.

Lemma keep_raises kw field rs :
  Exists (fun r => forall name, py_get r field (PStr "") <> Ok (PStr name)) rs ->
  FetchV2.keep kw field rs = Raise AttributeError.
Proof.
  induction rs as [|r rest IH]; intros E; [inversion E|].
  simpl. destruct (py_get r field (PStr "")) as [v|e] eqn:G.
  - cbn [bind]. destruct v; try reflexivity.
    cbn [py_lower bind]. rewrite IH; [reflexivity|].
    inversion E as [? ? B|? ? B]; subst; [|exact B].
    exfalso. exact (B s G).
  - unfold py_get in G. destruct r; try (injection G as <-; reflexivity).
    destruct (assoc field d); discriminate.
Qed.

Lemma filter_sound kw k field results r1 :
  given kw = Some k ->
  FetchV2.filter_by kw field results = Ok r1 ->
  exists kept, r1 = PList kept /\ forall a, In a kept -> matches k field a.
Proof.
  unfold FetchV2.filter_by. intros ->.
  destruct (iterate results) as [rs|]; simpl; [|discriminate].
  destruct (FetchV2.keep k field rs) as [kept|] eqn:K; simpl; [|discriminate].
  intros [= <-]. exists kept. split; [reflexivity|].
  intros a Ia. exact (proj2 (keep_sound _ _ _ _ K a Ia)).
Qed.

Lemma filter_sub kw field l r2 items :
  FetchV2.filter_by kw field (PList l) = Ok r2 ->
  iterate r2 = Ok items -> incl items l.
Proof.
  unfold FetchV2.filter_by. destruct (given kw) as [k|].
  - simpl. destruct (FetchV2.keep k field l) as [kept|] eqn:K; simpl; [|discriminate].
    intros [= <-] [= <-] a Ia. exact (proj1 (keep_sound _ _ _ _ K a Ia)).
  - intros [= <-] [= <-]. apply incl_refl.
Qed.

Lemma pages_matching k :
  given recipient_keyword = Some k ->
  forall fuel page n output out n',
    FetchV2.pages net CGAC current_year max_pages recipient_keyword
      agency_keyword max_retries fuel page n output = Some (Ok out, n') ->
    Forall (matches k "recipient_name") output ->
    Forall (matches k "recipient_name") out.
Proof.
  intros K. induction fuel as [|fuel IH]; intros page n output out n' H F;
    [discriminate|].
  cbn [FetchV2.pages] in H.
  destruct (FetchV2.attempts net _ _ n) as [[data|] n1]; [|injection H as <- _; exact F].
  destruct (py_get data "results" (PList [])) as [results|e]; [|discriminate].
  destruct (negb (truthy results)); [injection H as <- _; exact F|].
  destruct (FetchV2.filter_by recipient_keyword "recipient_name" results)
    as [r1|] eqn:F1; cbn [bind] in H; [|discriminate].
  destruct (filter_sound _ _ _ _ _ K F1) as (kept & -> & Mk).
  destruct (FetchV2.filter_by agency_keyword "awarding_agency_name" (PList kept))
    as [r2|] eqn:F2; cbn [bind] in H; [|discriminate].
  destruct (iterate r2) as [items|] eqn:It; [|discriminate].
  cbv zeta in H.
  assert (F' : Forall (matches k "recipient_name") (output ++ items)).
  { apply Forall_app. split; [exact F|]. apply Forall_forall. intros a Ia.
    apply Mk. exact (filter_sub _ _ _ _ _ F2 It a Ia). }
  destruct (reached max_pages (page + 1)); [injection H as <- _; exact F'|].
  exact (IH _ _ _ _ _ H F').
Qed.

End V2.

(** ** CONSCRAPERFINAL.py *)

Section FINAL.
Variable net : service.
Variable CGAC : option string.
Variable current_year : Z.
Variable max_pages : option Z.

Lemma final_more fuel : forall page n output x,
  FetchFINAL.pages net CGAC current_year max_pages fuel page n output = Some x ->
  FetchFINAL.pages net CGAC current_year max_pages (S fuel) page n output = Some x.
Proof.
  induction fuel as [|fuel IH]; intros page n output x H; [discriminate|].
  cbn [FetchFINAL.pages] in H |- *.
  destruct (net n _) as [data| |]; try exact H.
  destruct (py_get data "results" (PList [])) as [results|e]; [|exact H].
  destruct (negb (truthy results)); [exact H|].
  destruct (iterate results) as [items|e]; [|exact H].
  cbv zeta in H |- *.
  destruct (reached max_pages (page + 1)); [exact H|].
  apply IH, H.
Qed.

Lemma final_fuel fuel fuel' page n output x :
  (fuel <= fuel')%nat ->
  FetchFINAL.pages net CGAC current_year max_pages fuel page n output = Some x ->
  FetchFINAL.pages net CGAC current_year max_pages fuel' page n output = Some x.
Proof.
  induction 1 as [|fuel' L IH]; intros H; [exact H|].
  apply final_more, IH, H.
Qed.

Lemma final_bound m :
  max_pages = Some m -> 0 < m ->
  forall fuel page n output,
    page <= m -> (Z.to_nat (m - page + 1) <= fuel)%nat ->
    exists r n',
      FetchFINAL.pages net CGAC current_year max_pages fuel page n output = Some (r, n')
      /\ (n' <= n + Z.to_nat (m - page + 1))%nat.
Proof.
  intros MP M. induction fuel as [|fuel IH]; intros page n output P F.
  - rewrite to_nat_succ in F by lia. lia.
  - cbn [FetchFINAL.pages].
    rewrite to_nat_succ by lia. rewrite to_nat_succ in F by lia.
    specialize (IH (page + 1)).
    replace (m - (page + 1) + 1) with (m - page) in IH by lia.
    remember (Z.to_nat (m - page)) as k eqn:Ek.
    destruct (net n _) as [data| |];
      try (eexists _, _; split; [reflexivity | lia]).
    destruct (py_get data "results" (PList [])) as [results|e];
      [|eexists _, _; split; [reflexivity | lia]].
    destruct (negb (truthy results));
      [eexists _, _; split; [reflexivity | lia]|].
    destruct (iterate results) as [items|e];
      [|eexists _, _; split; [reflexivity | lia]].
    cbv zeta.
    destruct (reached max_pages (page + 1)) eqn:Re;
      [eexists _, _; split; [reflexivity | lia]|].
    rewrite MP in Re. apply (reached_bound _ _ M) in Re.
    destruct (IH (S n) (output ++ items)) as (r & n' & E & B); [lia | lia |].
    exists r, n'. split; [exact E | lia].
Qed.

End FINAL.

End FetchFacts.

Import FetchFacts.

(* ================================================================== *)
(** * Further properties of the code *)
(* ================================================================== *)

(** ** The engine *)

(** X1: the engine of CONSCRAPERFINAL.py returns its rows with the five years
    before the reference year, or it raises [OverflowError]; it raises no
    other exception.  It raises exactly when some record, with a year and an
    identifier that can be read, has an integer amount beyond the range of a
    float. *)
Theorem X1_engine_outcome cy data :
  if existsb overflows data
  then CONSCRAPERFINAL.filter_20_percent_change cy data = Raise OverflowError
  else exists rows,
         CONSCRAPERFINAL.filter_20_percent_change cy data
         = Ok (rows, [cy - 5; cy - 4; cy - 3; cy - 2; cy - 1]).
Proof.
  exact (engine_outcome CONSCRAPERFINAL.fields cy data complete_final).
Qed.

(** X2: the engines of the two scripts return the same result on every
    input: the ["trend"] field that CONSCRAPERFINAL.py keeps in [award_info]
    is never read. *)
Theorem X2_same_engine cy data :
  CONSCRAPERV2.filter_20_percent_change cy data
  = CONSCRAPERFINAL.filter_20_percent_change cy data.
Proof. exact (same_engine cy data). Qed.

(** X3: the rows are returned in descending order of [change_percent]: every
    row's change is at least that of every row after it, and no change is
    NaN, so that the order is a total one. *)
Theorem X3_rows_ranked fields cy data rows l5 :
  Engine.filter_20_percent_change fields cy data = Ok (rows, l5) ->
  StronglySorted
    (fun a b => (change_percent b <=? change_percent a)%float = true) rows
  /\ Forall (fun r => is_nan (change_percent r) = false) rows.
Proof.
  intros H. split; [exact (filter_sorted _ _ _ _ _ H)|].
  eapply Forall_impl; [|exact (rows_numbers _ _ _ _ _ H)].
  intros r [N _]. exact N.
Qed.

(** X3 on one rising and one falling award: the rise of 30 percent comes
    before the fall of 50 percent. *)
Lemma X3_rows_ranked_witness :
  Engine.filter_20_percent_change CONSCRAPERFINAL.fields 2023 mixed
  = Ok (rows_of 2023 mixed, years_2023)
  /\ map change_percent (rows_of 2023 mixed) = [30%float; (-50)%float]
  /\ StronglySorted
       (fun a b => (change_percent b <=? change_percent a)%float = true)
       (rows_of 2023 mixed)
  /\ Forall (fun r => is_nan (change_percent r) = false) (rows_of 2023 mixed).
Proof.
  split; [vm_compute; reflexivity|].
  split; [vm_compute; reflexivity|].
  apply (X3_rows_ranked CONSCRAPERFINAL.fields 2023 mixed
           (rows_of 2023 mixed) years_2023).
  vm_compute; reflexivity.
Defined.

(** X4: an award has one row at most: the identifiers of the rows are
    pairwise distinct. *)
Theorem X4_one_row_per_award fields cy data rows l5 :
  Engine.filter_20_percent_change fields cy data = Ok (rows, l5) ->
  NoDup (map award_id rows).
Proof. exact (rows_distinct fields cy data rows l5). Qed.

(** X4 on two awards of two records each. *)
Lemma X4_one_row_per_award_witness :
  Engine.filter_20_percent_change CONSCRAPERFINAL.fields 2023 mixed
  = Ok (rows_of 2023 mixed, years_2023)
  /\ map award_id (rows_of 2023 mixed) = [KStr "W91-0001"; KStr "W91-0002"]
  /\ NoDup (map award_id (rows_of 2023 mixed)).
Proof.
  split; [vm_compute; reflexivity|].
  split; [vm_compute; reflexivity|].
  apply (X4_one_row_per_award CONSCRAPERFINAL.fields 2023 mixed
           (rows_of 2023 mixed) years_2023).
  vm_compute; reflexivity.
Defined.

(** X5: the two years a row compares are years of the award itself, not
    calendar years: [last_year] is the latest year in which the award has an
    amount, [first_year] is an earlier one, the two amounts are the award's
    totals for these years, and the years of the award from [first_year] on
    are three, or two when the award has two years only. *)
Theorem X5_window_years fields cy data rows l5 r :
  Engine.filter_20_percent_change fields cy data = Ok (rows, l5) ->
  In r rows ->
  exists years,
    Dict.lookup key_eq_dec (award_id r) (accumulator fields data) = Some years
    /\ Dict.lookup Z.eq_dec (first_year r) years = Some (first_amount r)
    /\ Dict.lookup Z.eq_dec (last_year r) years = Some (last_amount r)
    /\ first_year r < last_year r
    /\ (forall y v, In (y, v) years -> y <= last_year r)
    /\ List.length (filter (fun p => first_year r <=? fst p) years)
       = Nat.min 3 (List.length years).
Proof.
  intros H I.
  destruct (row_entry _ _ _ _ _ _ H I)
    as (years & first & last & rn & ac & L & N & W & _ & E).
  destruct (window_shape years first last N W) as (I1 & I2 & Lt & Mx & Len).
  exists years. rewrite E. cbn [first_year last_year first_amount last_amount row_of].
  split; [rewrite <- E; exact L|].
  destruct first as [fy fa], last as [ly la]. simpl in *.
  split; [now apply (DictFacts.In_lookup Z.eq_dec)|].
  split; [now apply (DictFacts.In_lookup Z.eq_dec)|].
  split; [exact Lt|]. split; [|exact Len].
  intros y v Iy. exact (Mx (y, v) Iy).
Qed.

(** X5 on an award with 10, 100, 110 and 150 in the years 2019 to 2022: the
    row compares 2020 with 2022. *)
Lemma X5_window_years_witness :
  exists r,
    Engine.filter_20_percent_change CONSCRAPERFINAL.fields 2023 four_years
    = Ok ([r], years_2023)
    /\ first_year r = 2020 /\ last_year r = 2022
    /\ first_amount r = 100%float /\ last_amount r = 150%float
    /\ exists years,
         Dict.lookup key_eq_dec (award_id r)
           (accumulator CONSCRAPERFINAL.fields four_years) = Some years
         /\ Dict.lookup Z.eq_dec (first_year r) years = Some (first_amount r)
         /\ Dict.lookup Z.eq_dec (last_year r) years = Some (last_amount r)
         /\ first_year r < last_year r
         /\ (forall y v, In (y, v) years -> y <= last_year r)
         /\ List.length (filter (fun p => first_year r <=? fst p) years)
            = Nat.min 3 (List.length years).
Proof.
  exists (hd scenario_row (rows_of 2023 four_years)).
  split; [vm_compute; reflexivity|].
  split; [vm_compute; reflexivity|].
  split; [vm_compute; reflexivity|].
  split; [vm_compute; reflexivity|].
  split; [vm_compute; reflexivity|].
  apply (X5_window_years CONSCRAPERFINAL.fields 2023 four_years
           (rows_of 2023 four_years) years_2023).
  - vm_compute; reflexivity.
  - vm_compute. left. reflexivity.
Defined.

(** X6: the recipient and the agency of a row are those of the last record of
    the award, in the order of the input, from which an amount was added: it
    is a record of that award that is not malformed, no later record of the
    award is well formed, and the two fields are read from it, with the empty
    string for a missing one. *)
Theorem X6_last_record_describes fields cy data rows l5 r :
  Engine.filter_20_percent_change fields cy data = Ok (rows, l5) ->
  In r rows ->
  exists l1 a l2,
    data = l1 ++ a :: l2
    /\ id_of a = Ok (award_id r)
    /\ malformed fields a = false
    /\ Forall (fun b => id_of b = Ok (award_id r) -> malformed fields b = true) l2
    /\ py_get a "recipient_name" (PStr "") = Ok (recipient_name r)
    /\ py_get a "awarding_agency_code" (PStr "") = Ok (awarding_agency_code r).
Proof.
  intros H I.
  destruct (row_info _ _ _ _ _ _ H I) as (info & L & A1 & A2).
  destruct (filter_rows _ _ _ _ _ H) as (Cm & _ & _).
  unfold completes in Cm. rewrite accumulate_spec in Cm, L.
  pose proof (proj1 (run_completes _ _) Cm) as NA.
  destruct (run_effects (map (effect_of fields) data) empty) as [u st] eqn:Run.
  simpl in Cm, L. subst u.
  rewrite (info_run _ _ _ _ (award_id r) Run) in L. simpl in L.
  destruct (last_info_Some _ _ _ _ L) as [[C _]|(e1 & y & x & e2 & E & F)];
    [discriminate|].
  apply map_eq_app in E. destruct E as (l1 & rest & -> & E1 & E2).
  destruct rest as [|a l2]; [discriminate|]. simpl in E2.
  injection E2 as Ea E2.
  destruct (effect_Add _ _ _ _ _ _ Ea) as (_ & Ia & _ & Ei & D).
  exists l1, a, l2. split; [reflexivity|]. split; [exact Ia|].
  split; [unfold malformed; now rewrite Ea|].
  split.
  - apply Forall_forall. intros b Ib Idb.
    rewrite Forall_forall in F, NA.
    assert (Ie : In (effect_of fields b) e2) by (rewrite <- E2; now apply in_map).
    specialize (F _ Ie).
    assert (Ab : aborts (effect_of fields b) = false).
    { apply NA. rewrite map_app. apply in_or_app. right. right. now apply in_map. }
    unfold malformed.
    destruct (effect_of fields b) as [|k' y'|k' y' x' i'|k' y' e'] eqn:Eb;
      try reflexivity; [|discriminate].
    destruct (effect_Add _ _ _ _ _ _ Eb) as (_ & Ib' & _).
    exfalso. apply F. congruence.
  - subst info. split; eapply assoc_info_get; eassumption.
Qed.

(** X6 on an award whose recipient changes its name, and whose last record
    has no amount: the row carries the name of the second record. *)
Lemma X6_last_record_describes_witness :
  exists r,
    Engine.filter_20_percent_change CONSCRAPERFINAL.fields 2023 renamed
    = Ok ([r], years_2023)
    /\ recipient_name r = PStr "ACME Holdings"
    /\ exists l1 a l2,
         renamed = l1 ++ a :: l2
         /\ id_of a = Ok (award_id r)
         /\ malformed CONSCRAPERFINAL.fields a = false
         /\ Forall (fun b => id_of b = Ok (award_id r) ->
                             malformed CONSCRAPERFINAL.fields b = true) l2
         /\ py_get a "recipient_name" (PStr "") = Ok (recipient_name r)
         /\ py_get a "awarding_agency_code" (PStr "")
            = Ok (awarding_agency_code r).
Proof.
  exists (hd scenario_row (rows_of 2023 renamed)).
  split; [vm_compute; reflexivity|].
  split; [vm_compute; reflexivity|].
  apply (X6_last_record_describes CONSCRAPERFINAL.fields 2023 renamed
           (rows_of 2023 renamed) years_2023).
  - vm_compute; reflexivity.
  - vm_compute. left. reflexivity.
Defined.

(** ** The files of CONSCRAPERV2.py *)

(** X7: [save_top_increases_decreases] on the awards the main block passes to
    it never fails.  For each of the two labels it lists ten awards of the
    label at most, all of them when they are ten or fewer, and every award
    of the label that is left out has a [change_percent] no greater than
    that of every listed one: for the decreases the file holds the smallest
    falls, not the steepest.  When no award has the label, no file is
    written and a file of that name from an earlier run stays as it is. *)
Theorem X7_top_ten_files fields cy data rows l5 trend_only fs :
  Engine.filter_20_percent_change fields cy data = Ok (rows, l5) ->
  let awards := trend_filter trend_only rows in
  exists fs',
    save_top_increases_decreases awards 10 fs = (Ok tt, fs')
    /\ forall label name,
         (label = "Increase" /\ name = "top_10_increases.csv")
         \/ (label = "Decrease" /\ name = "top_10_decreases.csv") ->
         exists listed,
           Dict.lookup string_dec name fs'
           = match listed with
             | [] => Dict.lookup string_dec name fs
             | _ => Some (Awards l5 listed)
             end
           /\ List.length listed
              = Nat.min 10
                  (List.length
                     (filter (fun d => String.eqb (trend d) label) awards))
           /\ (forall r, In r listed -> In r awards /\ trend r = label)
           /\ (forall r, In r awards -> trend r = label -> ~ In r listed ->
                 forall t, In t listed ->
                   (change_percent r <=? change_percent t)%float = true).
Proof.
  intros H awards.
  assert (F : Forall (fun r => award_cols r = l5) awards).
  { apply Forall_trend_filter. exact (engine_cols _ _ _ _ _ H). }
  assert (S : StronglySorted ranked awards).
  { apply sorted_trend_filter. exact (filter_sorted _ _ _ _ _ H). }
  eexists. split; [exact (top_run l5 awards fs F)|].
  intros label name C.
  exists (top label awards).
  destruct (top_rows label 10 awards S) as (_ & P2 & P3 & _).
  split; [|split; [apply length_firstn | split; [exact P2 | exact P3]]].
  destruct C as [[-> ->]|[-> ->]].
  - rewrite lookup_put_neq by discriminate. apply lookup_put_eq.
  - rewrite lookup_put_eq.
    destruct (top "Decrease" awards); [|reflexivity].
    apply lookup_put_neq. discriminate.
Qed.

(** X7 on one rising and one falling award, with a file of decreases left by
    an earlier run, when only the increases are asked for: the increase is
    listed and the old file of decreases is still there. *)
Lemma X7_top_ten_files_witness :
  Engine.filter_20_percent_change CONSCRAPERV2.fields 2023 mixed
  = Ok (rows_of 2023 mixed, years_2023)
  /\ exists fs',
       save_top_increases_decreases
         (trend_filter "increase" (rows_of 2023 mixed)) 10 stale = (Ok tt, fs')
       /\ Dict.lookup string_dec "top_10_decreases.csv" fs'
          = Some (Awards [2017; 2018; 2019; 2020; 2021] [old_row])
       /\ forall label name,
            (label = "Increase" /\ name = "top_10_increases.csv")
            \/ (label = "Decrease" /\ name = "top_10_decreases.csv") ->
            exists listed,
              Dict.lookup string_dec name fs'
              = match listed with
                | [] => Dict.lookup string_dec name stale
                | _ => Some (Awards years_2023 listed)
                end
              /\ List.length listed
                 = Nat.min 10
                     (List.length
                        (filter (fun d => String.eqb (trend d) label)
                           (trend_filter "increase" (rows_of 2023 mixed))))
              /\ (forall r, In r listed ->
                    In r (trend_filter "increase" (rows_of 2023 mixed))
                    /\ trend r = label)
              /\ (forall r,
                    In r (trend_filter "increase" (rows_of 2023 mixed)) ->
                    trend r = label -> ~ In r listed ->
                    forall t, In t listed ->
                      (change_percent r <=? change_percent t)%float = true).
Proof.
  split; [vm_compute; reflexivity|].
  destruct (X7_top_ten_files CONSCRAPERV2.fields 2023 mixed
              (rows_of 2023 mixed) years_2023 "increase" stale
              ltac:(vm_compute; reflexivity)) as (fs' & E & P).
  exists fs'. split; [exact E|]. split; [|exact P].
  vm_compute in E. injection E as <-. vm_compute. reflexivity.
Defined.

(** X8: [save_biggest_absolute_change] writes nothing for no award, and
    otherwise the one award with the greatest [abs_change], the first of
    them in the order of the rows when several have it: the awards before it
    have a strictly smaller [abs_change], the awards after it none
    greater. *)
Theorem X8_biggest_change fields cy data rows l5 trend_only fs :
  Engine.filter_20_percent_change fields cy data = Ok (rows, l5) ->
  let awards := trend_filter trend_only rows in
  match awards with
  | [] => save_biggest_absolute_change awards fs = (Ok tt, fs)
  | _ =>
      exists l1 b l2,
        awards = l1 ++ b :: l2
        /\ save_biggest_absolute_change awards fs
           = (Ok tt, Dict.setitem string_dec "biggest_absolute_change.csv"
                       (Awards l5 [b]) fs)
        /\ (forall r, In r l1 -> (abs_change r <? abs_change b)%float = true)
        /\ (forall r, In r l2 -> (abs_change r <=? abs_change b)%float = true)
  end.
Proof.
  intros H awards.
  assert (F : Forall (fun r => award_cols r = l5) awards).
  { apply Forall_trend_filter. exact (engine_cols _ _ _ _ _ H). }
  assert (N : Forall (fun r => is_nan (abs_change r) = false) awards).
  { apply Forall_trend_filter.
    eapply Forall_impl; [|exact (rows_numbers _ _ _ _ _ H)].
    intros r [_ Nr]. exact Nr. }
  pose proof (biggest_run l5 awards fs F) as B.
  destruct awards as [|a rest]; [exact B|].
  destruct (max_by_spec abs_change rest a) as (l1 & l2 & D & L1 & L2 & _).
  { rewrite Forall_forall in N. exact N. }
  exists l1, (max_by abs_change a rest), l2.
  split; [exact D|]. split; [exact B|]. split; assumption.
Qed.

(** X8 on a rise from 100 to 130 and a fall from 100 to 50: the fall is the
    biggest change. *)
Lemma X8_biggest_change_witness :
  Engine.filter_20_percent_change CONSCRAPERV2.fields 2023 mixed
  = Ok (rows_of 2023 mixed, years_2023)
  /\ map abs_change (trend_filter "both" (rows_of 2023 mixed))
     = [30%float; 50%float]
  /\ match trend_filter "both" (rows_of 2023 mixed) with
     | [] => save_biggest_absolute_change
               (trend_filter "both" (rows_of 2023 mixed)) [] = (Ok tt, [])
     | _ =>
         exists l1 b l2,
           trend_filter "both" (rows_of 2023 mixed) = l1 ++ b :: l2
           /\ save_biggest_absolute_change
                (trend_filter "both" (rows_of 2023 mixed)) []
              = (Ok tt, Dict.setitem string_dec "biggest_absolute_change.csv"
                          (Awards years_2023 [b]) [])
           /\ (forall r, In r l1 -> (abs_change r <? abs_change b)%float = true)
           /\ (forall r, In r l2 -> (abs_change r <=? abs_change b)%float = true)
     end.
Proof.
  split; [vm_compute; reflexivity|].
  split; [vm_compute; reflexivity|].
  apply (X8_biggest_change CONSCRAPERV2.fields 2023 mixed
           (rows_of 2023 mixed) years_2023 "both" []).
  vm_compute; reflexivity.
Defined.

(** X9: the figures of a recipient row are those of the recipient's awards,
    in the order of the rows: their number, the rounded sum of their totals,
    the rounded quotient of the sum of their changes by their number, and for
    every year the rounded sum of their funding of that year; the sums are
    added from left to right. *)
Theorem X9_recipient_figures set_iter data l5 rows r :
  NoDup l5 ->
  save_recipient_summary set_iter data l5 = Ok rows ->
  In r rows ->
  let mine := awards_of (r_recipient_name r) data in
  mine <> []
  /\ r_award_count r = List.length mine
  /\ r_total_5yr_funding r = round2 (py_sum (map total_5yr_funding mine))
  /\ (exists n, float_of_int (Z.of_nat (List.length mine)) = Ok n
                /\ r_average_change_percent r
                   = round2 (py_sum (map change_percent mine) / n)%float)
  /\ r_funding r
     = map (fun y => (y, round2 (py_sum (map (funding_of y) mine)))) l5.
Proof. exact (recipient_figures set_iter data l5 rows r). Qed.

(** X9 on the two awards of ACME, a rise of 30 percent and a fall of 50
    percent: two awards, an average change of -10 percent. *)
Lemma X9_recipient_figures_witness :
  exists r,
    NoDup years_2023
    /\ save_recipient_summary set_first_seen (rows_of 2023 mixed) years_2023
       = Ok [r]
    /\ In r (pivot_of (rows_of 2023 mixed))
    /\ r_award_count r = 2%nat
    /\ r_average_change_percent r = (-10)%float
    /\ let mine := awards_of (r_recipient_name r) (rows_of 2023 mixed) in
       mine <> []
       /\ r_award_count r = List.length mine
       /\ r_total_5yr_funding r = round2 (py_sum (map total_5yr_funding mine))
       /\ (exists n, float_of_int (Z.of_nat (List.length mine)) = Ok n
                     /\ r_average_change_percent r
                        = round2 (py_sum (map change_percent mine) / n)%float)
       /\ r_funding r
          = map (fun y => (y, round2 (py_sum (map (funding_of y) mine))))
              years_2023.
Proof.
  exists (hd {| r_recipient_name := KNone; r_award_count := 0;
                r_total_5yr_funding := 0; r_average_change_percent := 0;
                r_major_trend := ""; r_funding := [] |}
             (pivot_of (rows_of 2023 mixed))).
  split; [exact (last_5_years_NoDup 2023)|].
  split; [vm_compute; reflexivity|].
  split; [vm_compute; left; reflexivity|].
  split; [vm_compute; reflexivity|].
  split; [vm_compute; reflexivity|].
  apply (X9_recipient_figures set_first_seen (rows_of 2023 mixed) years_2023
           (pivot_of (rows_of 2023 mixed))).
  - exact (last_5_years_NoDup 2023).
  - vm_compute; reflexivity.
  - vm_compute. left. reflexivity.
Defined.

(** X10: the recipient rows split the awards among the recipients: no
    recipient has two rows, the recipient of every award has a row, and the
    award counts of the rows add up to the number of awards. *)
Theorem X10_recipient_partition set_iter data l5 rows :
  save_recipient_summary set_iter data l5 = Ok rows ->
  NoDup (map r_recipient_name rows)
  /\ (forall a, In a data ->
        exists r, In r rows
                  /\ hash_key (recipient_name a) = Ok (r_recipient_name r))
  /\ list_sum (map r_award_count rows) = List.length data.
Proof. exact (recipient_partition set_iter data l5 rows). Qed.

(** X10 on the awards of two recipients: two awards of ACME, one of
    Initech. *)
Lemma X10_recipient_partition_witness :
  save_recipient_summary set_first_seen (rows_of 2023 two_recipients) years_2023
  = Ok (pivot_of (rows_of 2023 two_recipients))
  /\ map r_recipient_name (pivot_of (rows_of 2023 two_recipients))
     = [KStr "Initech"; KStr "ACME"]
  /\ map r_award_count (pivot_of (rows_of 2023 two_recipients)) = [1%nat; 2%nat]
  /\ NoDup (map r_recipient_name (pivot_of (rows_of 2023 two_recipients)))
  /\ (forall a, In a (rows_of 2023 two_recipients) ->
        exists r, In r (pivot_of (rows_of 2023 two_recipients))
                  /\ hash_key (recipient_name a) = Ok (r_recipient_name r))
  /\ list_sum (map r_award_count (pivot_of (rows_of 2023 two_recipients)))
     = List.length (rows_of 2023 two_recipients).
Proof.
  split; [vm_compute; reflexivity|].
  split; [vm_compute; reflexivity|].
  split; [vm_compute; reflexivity|].
  apply (X10_recipient_partition set_first_seen (rows_of 2023 two_recipients)
           years_2023 (pivot_of (rows_of 2023 two_recipients))).
  vm_compute; reflexivity.
Defined.








(** ** The fetch *)

(** X14: with a positive [max_pages] the fetch of CONSCRAPERV2.py ends,
    whatever the service replies: within [max_pages] pages, after
    [max_pages * max_retries] requests at most. *)
Theorem X14_fetch_ends net CGAC cy m recipient_keyword agency_keyword
  max_retries fuel :
  0 < m -> (Z.to_nat m <= fuel)%nat ->
  exists r n,
    FetchV2.get_awards_last_5_years net CGAC cy (Some m) recipient_keyword
      agency_keyword max_retries fuel = Some (r, n)
    /\ FetchV2.get_awards_last_5_years net CGAC cy (Some m) recipient_keyword
         agency_keyword max_retries (Z.to_nat m) = Some (r, n)
    /\ (n <= Z.to_nat m * Z.to_nat max_retries)%nat.
Proof.
  intros M F. unfold FetchV2.get_awards_last_5_years.
  destruct (pages_bound net CGAC cy (Some m) recipient_keyword agency_keyword
              max_retries m eq_refl M (Z.to_nat m) 1 0%nat [])
    as (r & n & E & B).
  - lia.
  - replace (m - 1 + 1) with m by lia. lia.
  - replace (m - 1 + 1) with m in B by lia.
    exists r, n. split; [|split; [exact E | exact B]].
    exact (pages_fuel _ _ _ _ _ _ _ _ _ _ _ _ _ F E).
Qed.

(** X14 on a service with two pages of results, [max_pages = 1]: one page is
    fetched with one request. *)
Lemma X14_fetch_ends_witness :
  0 < 1
  /\ (Z.to_nat 1 <= 5)%nat
  /\ FetchV2.get_awards_last_5_years two_pages (Some "097") 2023 (Some 1)
       None None 3 5
     = Some (Ok [award (PStr "W91-0001") "ACME" "2021-03-01" (PInt 100)], 1%nat)
  /\ exists r n,
       FetchV2.get_awards_last_5_years two_pages (Some "097") 2023 (Some 1)
         None None 3 5 = Some (r, n)
       /\ FetchV2.get_awards_last_5_years two_pages (Some "097") 2023 (Some 1)
            None None 3 (Z.to_nat 1) = Some (r, n)
       /\ (n <= Z.to_nat 1 * Z.to_nat 3)%nat.
Proof.
  split; [lia|]. split; [simpl; lia|]. split; [vm_compute; reflexivity|].
  apply (X14_fetch_ends two_pages (Some "097") 2023 1 None None 3 5).
  - lia.
  - simpl; lia.
Defined.

(** X15: [max_pages = 0] is no bound, like [None]: without a keyword, on a
    service that has results for every request, the fetch never ends. *)
Theorem X15_no_bound net CGAC cy max_pages recipient_keyword agency_keyword
  max_retries :
  Net.always_results net ->
  max_pages = None \/ max_pages = Some 0 ->
  0 < max_retries ->
  Net.given recipient_keyword = None ->
  Net.given agency_keyword = None ->
  forall fuel,
    FetchV2.get_awards_last_5_years net CGAC cy max_pages recipient_keyword
      agency_keyword max_retries fuel = None.
Proof.
  intros A MP R K1 K2 fuel.
  exact (pages_unbounded net CGAC cy max_pages recipient_keyword agency_keyword
           max_retries A MP R K1 K2 fuel 1 0%nat []).
Qed.

(** X15 on a service with the same record on every page, for
    [max_pages = 0] and an empty recipient keyword. *)
Lemma X15_no_bound_witness :
  Net.always_results endless
  /\ 0 < 3
  /\ Net.given (Some "") = None
  /\ forall fuel,
       FetchV2.get_awards_last_5_years endless (Some "097") 2023 (Some 0)
         (Some "") None 3 fuel = None.
Proof.
  assert (A : Net.always_results endless).
  { intros n p. eexists _, _, _. split; reflexivity. }
  split; [exact A|]. split; [lia|]. split; [reflexivity|].
  apply (X15_no_bound endless (Some "097") 2023 (Some 0) (Some "") None 3 A).
  - right; reflexivity.
  - lia.
  - reflexivity.
  - reflexivity.
Defined.

(** X16: with a recipient keyword, every record the fetch returns is a dict
    whose ["recipient_name"] is a string that holds the keyword, whatever the
    case of the letters. *)
Theorem X16_recipient_keyword net CGAC cy max_pages recipient_keyword
  agency_keyword max_retries fuel k out n :
  Net.given recipient_keyword = Some k ->
  FetchV2.get_awards_last_5_years net CGAC cy max_pages recipient_keyword
    agency_keyword max_retries fuel = Some (Ok out, n) ->
  Forall (fun r => exists name,
            py_get r "recipient_name" (PStr "") = Ok (PStr name)
            /\ Net.contains (lower k) (lower name) = true) out.
Proof.
  intros K H.
  exact (pages_matching net CGAC cy max_pages recipient_keyword agency_keyword
           max_retries k K fuel 1 0%nat [] out n H (Forall_nil _)).
Qed.

(** X16 on the two pages, for the keyword INI: the record of Initech is
    returned, the one of ACME is not, and the third page ends the fetch. *)
Lemma X16_recipient_keyword_witness :
  Net.given (Some "INI") = Some "INI"
  /\ FetchV2.get_awards_last_5_years two_pages (Some "097") 2023 None
       (Some "INI") None 3 5
     = Some (Ok [award (PStr "W91-0002") "Initech" "2022-01-15" (PInt 50)],
             3%nat)
  /\ Forall (fun r => exists name,
               py_get r "recipient_name" (PStr "") = Ok (PStr name)
               /\ Net.contains (lower "INI") (lower name) = true)
       [award (PStr "W91-0002") "Initech" "2022-01-15" (PInt 50)].
Proof.
  split; [reflexivity|]. split; [vm_compute; reflexivity|].
  apply (X16_recipient_keyword two_pages (Some "097") 2023 None (Some "INI")
           None 3 5 "INI"
           [award (PStr "W91-0002") "Initech" "2022-01-15" (PInt 50)] 3%nat).
  - reflexivity.
  - vm_compute; reflexivity.
Defined.

(** X17: with a recipient keyword, a page that holds a record whose
    ["recipient_name"] is not a string, a JSON null for one, makes the fetch
    raise [AttributeError]: the awards of the pages before are not
    returned. *)
Theorem X17_name_not_a_string net CGAC cy max_pages recipient_keyword
  agency_keyword max_retries fuel page n output k d l :
  0 < max_retries ->
  Net.given recipient_keyword = Some k ->
  net n (FetchV2.payload_of CGAC cy page) = Net.Json (PDict d) ->
  assoc "results" d = Some (PList l) ->
  Exists (fun r => forall name,
            py_get r "recipient_name" (PStr "") <> Ok (PStr name)) l ->
  FetchV2.pages net CGAC cy max_pages recipient_keyword agency_keyword
    max_retries (S fuel) page n output
  = Some (Raise AttributeError, S n).
Proof.
  intros R K J A B. cbn [FetchV2.pages].
  destruct (Z.to_nat max_retries) as [|left] eqn:L; [lia|].
  cbn [FetchV2.attempts]. rewrite J.
  unfold py_get at 1. rewrite A.
  assert (T : Net.truthy (PList l) = true).
  { destruct l; [inversion B | reflexivity]. }
  rewrite T. cbn [negb].
  unfold FetchV2.filter_by at 1. rewrite K. cbn [Net.iterate bind].
  rewrite (keep_raises k "recipient_name" l B). reflexivity.
Qed.

(** X17 on a first page whose second record has a null recipient. *)
Lemma X17_name_not_a_string_witness :
  0 < 3
  /\ Net.given (Some "acme") = Some "acme"
  /\ FetchV2.get_awards_last_5_years nameless (Some "097") 2023 None
       (Some "acme") None 3 1
     = Some (Raise AttributeError, 1%nat).
Proof.
  split; [lia|]. split; [reflexivity|].
  apply (X17_name_not_a_string nameless (Some "097") 2023 None (Some "acme")
           None 3 0 1 0%nat [] "acme"
           [("results",
             PList [award (PStr "W91-0001") "ACME" "2021-03-01" (PInt 100);
                    PDict [("award_id", PStr "W91-0002");
                           ("recipient_name", PNone)]])]
           [award (PStr "W91-0001") "ACME" "2021-03-01" (PInt 100);
            PDict [("award_id", PStr "W91-0002"); ("recipient_name", PNone)]]).
  - lia.
  - reflexivity.
  - reflexivity.
  - reflexivity.
  - apply Exists_cons_tl, Exists_cons_hd. intros name. discriminate.
Defined.

(** X18: a page whose request fails [max_retries] times in a row ends the
    fetch, which returns the awards of the pages before it as its result;
    no later page is asked for. *)
Theorem X18_page_given_up net CGAC cy max_pages recipient_keyword
  agency_keyword max_retries fuel page n output :
  (forall i, (i < Z.to_nat max_retries)%nat ->
     net (n + i)%nat (FetchV2.payload_of CGAC cy page) = Net.RequestException) ->
  FetchV2.pages net CGAC cy max_pages recipient_keyword agency_keyword
    max_retries (S fuel) page n output
  = Some (Ok output, (n + Z.to_nat max_retries)%nat).
Proof.
  intros F. cbn [FetchV2.pages].
  rewrite (attempts_fail net (Z.to_nat max_retries) _ n F). reflexivity.
Qed.

(** X18 on a service that fails every request: three requests, no award. *)
Lemma X18_page_given_up_witness :
  (forall i, (i < Z.to_nat 3)%nat ->
     down (0 + i)%nat (FetchV2.payload_of (Some "097") 2023 1)
     = Net.RequestException)
  /\ FetchV2.get_awards_last_5_years down (Some "097") 2023 None None None 3 1
     = Some (Ok [], 3%nat).
Proof.
  split; [reflexivity|].
  apply (X18_page_given_up down (Some "097") 2023 None None None 3 0 1 0%nat []).
  reflexivity.
Defined.

(** X19: with a positive [max_pages] the fetch of CONSCRAPERFINAL.py ends
    after [max_pages] requests at most, whatever the service replies. *)
Theorem X19_final_fetch_ends net CGAC cy m fuel :
  0 < m -> (Z.to_nat m <= fuel)%nat ->
  exists r n,
    FetchFINAL.get_awards_last_5_years net CGAC cy (Some m) fuel = Some (r, n)
    /\ FetchFINAL.get_awards_last_5_years net CGAC cy (Some m) (Z.to_nat m)
       = Some (r, n)
    /\ (n <= Z.to_nat m)%nat.
Proof.
  intros M F. unfold FetchFINAL.get_awards_last_5_years.
  destruct (final_bound net CGAC cy (Some m) m eq_refl M (Z.to_nat m) 1 0%nat [])
    as (r & n & E & B).
  - lia.
  - replace (m - 1 + 1) with m by lia. lia.
  - replace (m - 1 + 1) with m in B by lia.
    exists r, n. split; [|split; [exact E | exact B]].
    exact (final_fuel _ _ _ _ _ _ _ _ _ _ F E).
Qed.

(** X19 on the two pages, [max_pages = 2]: both are fetched, and the third
    page is not asked for. *)
Lemma X19_final_fetch_ends_witness :
  0 < 2
  /\ (Z.to_nat 2 <= 5)%nat
  /\ FetchFINAL.get_awards_last_5_years two_pages (Some "097") 2023 (Some 2) 5
     = Some (Ok [award (PStr "W91-0001") "ACME" "2021-03-01" (PInt 100);
                 award (PStr "W91-0002") "Initech" "2022-01-15" (PInt 50)],
             2%nat)
  /\ exists r n,
       FetchFINAL.get_awards_last_5_years two_pages (Some "097") 2023 (Some 2) 5
       = Some (r, n)
       /\ FetchFINAL.get_awards_last_5_years two_pages (Some "097") 2023
            (Some 2) (Z.to_nat 2) = Some (r, n)
       /\ (n <= Z.to_nat 2)%nat.
Proof.
  split; [lia|]. split; [simpl; lia|]. split; [vm_compute; reflexivity|].
  apply (X19_final_fetch_ends two_pages (Some "097") 2023 2 5).
  - lia.
  - simpl; lia.
Defined.
